(** * Task manager (app.py): filtering, statistics, notifications, mutations

    A shallow embedding of the task logic of [app.py]: the three tables of
    [init_database] as lists of records, the SQL statements of the helper
    functions and of the request handlers as functions on those lists, and
    the Python glue around them (truthiness, exceptions, [sorted],
    [round], [strftime]) as the source has it. *)

From Stdlib Require Import ZArith List String Ascii Bool Lia.
From Stdlib Require Import Sorting.Permutation Sorting.Sorted.
From Stdlib Require Import DecimalString.
From Stdlib Require Import Floats Uint63.
Import ListNotations.

Local Open Scope string_scope.
Local Open Scope Z_scope.

(* ===================================================================== *)
(** ** Python values *)
(* ===================================================================== *)

Module Py.

(** Exceptions that reach a caller of the modelled functions. *)
Inductive exn : Type :=
| OperationalError          (* psycopg2.connect: the store cannot be reached *)
| AttributeError            (* [conn.cursor()] on [conn = None] *)
| ValueError                (* [datetime.fromisoformat] on a malformed string;
                               psycopg2 on a [str] parameter with a NUL *)
| InvalidTextRepresentation (* text for a UUID column that is no UUID *)
| StringDataRightTruncation (* value too long for a VARCHAR(n) column *)
| SequenceGeneratorLimitExceeded (* [nextval] past the last value of a SERIAL *)
| ForeignKeyViolation       (* a REFERENCES constraint fails *)
| UndefinedError.           (* Jinja: a call or attribute of an undefined value *)

(** What a Python call gives its caller: a value, or a raised exception. *)
Inductive outcome (A : Type) : Type :=
| Ok (a : A)
| Raise (e : exn).
Arguments Ok {A} a.
Arguments Raise {A} e.

Definition bind {A B : Type} (c : outcome A) (k : A -> outcome B) : outcome B :=
  match c with
  | Ok a => k a
  | Raise e => Raise e
  end.

(** Truthiness of an optional string ([None] and [''] are falsy). *)
Definition truthy (s : option string) : bool :=
  match s with
  | None => false
  | Some "" => false
  | Some _ => true
  end.

(** [str(n)] for an integer. *)
Definition str_of_int (n : Z) : string := NilZero.string_of_int (Z.to_int n).

(** A [string] is a Python [str] whose code points are all below 256, one
    [ascii] for each code point; text with other characters is outside the
    model. *)

(** Characters for which [str.isspace()] holds. *)
Definition isspace (c : ascii) : bool :=
  let n := Z.of_nat (nat_of_ascii c) in
  ((9 <=? n) && (n <=? 13)) || ((28 <=? n) && (n <=? 32))
  || (n =? 133) || (n =? 160).

Fixpoint lstrip (s : string) : string :=
  match s with
  | String c r => if isspace c then lstrip r else s
  | EmptyString => EmptyString
  end.

Fixpoint rstrip (s : string) : string :=
  match s with
  | String c r =>
      match rstrip r with
      | EmptyString => if isspace c then EmptyString else String c EmptyString
      | r' => String c r'
      end
  | EmptyString => EmptyString
  end.

(** [s.strip()] *)
Definition strip (s : string) : string := rstrip (lstrip s).

(** [sorted(l, key=...)] with integer keys: Python's sort is stable, and a
    stable sort has one result, here computed by insertion. *)
Section Sorted.
Context {A : Type} (key : A -> Z).

Fixpoint insert (x : A) (l : list A) : list A :=
  match l with
  | [] => [x]
  | y :: r => if key x <=? key y then x :: l else y :: insert x r
  end.

Fixpoint sorted (l : list A) : list A :=
  match l with
  | [] => []
  | x :: r => insert x (sorted r)
  end.
End Sorted.

(** A Python number as [round] returns it: [round(0, 1)] is the int [0],
    [round(x, 1)] of a float is a float. *)
Inductive number : Type :=
| Int (z : Z)
| Float (f : float).

(** [float(n)], exact for [0 <= n < 2^53]. *)
Definition float_of_int (n : Z) : float := PrimFloat.of_uint63 (Uint63.of_Z n).

(** [a / b] on ints (true division); the quotient of the two conversions is
    the correctly rounded quotient for operands below [2^53]. *)
Definition truediv (a b : Z) : float := (float_of_int a / float_of_int b)%float.

(** [n / d] rounded to the nearest integer, ties to even, for [0 < d]. *)
Definition div_half_even (n d : Z) : Z :=
  let q := n / d in
  let r := n mod d in
  if 2 * r <? d then q
  else if d <? 2 * r then q + 1
  else if Z.even q then q else q + 1.

(** [round(x, 1)] on a float: the exact binary value is rounded to one
    decimal place, ties to even, and the decimal is read back as the
    nearest float.  Values without a fractional bit are returned as they
    are.  (The read-back goes through an integer below [2^53], which
    covers [|x| < 2^49].) *)
Definition round1 (x : float) : float :=
  match Prim2SF x with
  | S754_finite s m e =>
      if 0 <=? e then x
      else
        let tenths := div_half_even (10 * Z.pos m) (2 ^ (- e)) in
        let v := (float_of_int tenths / float_of_int 10)%float in
        if s then (- v)%float else v
  | _ => x
  end.

End Py.

Import Py.

Declare Scope py_scope.
Delimit Scope py_scope with py.
Notation "x <- c ;; k" := (Py.bind c (fun x => k))
  (at level 61, c at next level, right associativity) : py_scope.
Local Open Scope py_scope.

(* ===================================================================== *)
(** ** Timestamps *)
(* ===================================================================== *)

(** A naive [datetime] (and a TIMESTAMP column value): microseconds since
    midnight of day one.  The difference of two of them is the [timedelta],
    again in microseconds. *)
Definition datetime : Type := Z.

Definition usec_per_second : Z := 1000000.

(** [h] hours, [m] minutes, [s] seconds as a timedelta. *)
Definition seconds (s : Z) : Z := s * usec_per_second.

(** [0 < td.total_seconds() <= 86400].  [total_seconds()] is the float
    nearest to [td / 10^6]; [0], [3600] and [86400] are floats and two
    timedeltas one microsecond apart have different floats near them, so the
    float comparisons decide as the exact ones below. *)
Definition due_within_24h (td : Z) : bool := (0 <? td) && (td <=? seconds 86400).

(** [td.total_seconds() < 3600] *)
Definition under_one_hour (td : Z) : bool := td <? seconds 3600.

(** [int(td.total_seconds() // 60)]: every multiple of 60 is a float, so the
    floor of the float quotient is the floor of the exact quotient. *)
Definition whole_minutes (td : Z) : Z := td / seconds 60.

Definition two_digits (n : Z) : string :=
  if n <? 10 then "0" ++ str_of_int n else str_of_int n.

(** [d.strftime('%H:%M')] *)
Definition strftime_HM (d : datetime) : string :=
  two_digits ((d / seconds 3600) mod 24) ++ ":" ++ two_digits ((d / seconds 60) mod 60).

(* ===================================================================== *)
(** ** The tables of [init_database] *)
(* ===================================================================== *)

(** The value of a UUID column, in the text form in which the store gives
    it out and psycopg2 hands it to Python: 32 lower-case hexadecimal
    digits in groups of 8, 4, 4, 4 and 12.  [session['user_id']] is such a
    value ([login] takes it from the row it found).  Two of them are the
    same id when the texts are equal.  Text that comes with a request
    becomes a [uuid] through [Sql.uuid_in]. *)
Definition uuid : Type := string.

Module User.
Record t : Type := {
  id : uuid;
  full_name : string;
  email : string;
  password : string;
  bio : option string;
  location : option string;
  website : option string;
  profile_picture : option string;
  theme : option string;
  notifications_enabled : option bool;
  created_at : datetime;
  updated_at : datetime
}.
End User.

(** A row of [categories].  The icons that the application stores are
    pictographs beyond code point 255: the column is held as the list of
    its code points. *)
Module Category.
Record t : Type := {
  id : uuid;
  user_id : uuid;
  name : string;
  color : string;
  icon : list Z;
  created_at : datetime
}.
End Category.

(** A row of [tasks].  [user_id] is filled by every INSERT of the
    application; [completed], [created_at] and [updated_at] are left to
    their non-null defaults or written with a Python [bool]: these four are
    not optional here.  The other nullable columns are. *)
Module Task.
Record t : Type := {
  id : Z;
  user_id : uuid;
  title : string;
  description : option string;
  category_id : option uuid;
  priority : option string;
  due_date : option datetime;
  completed : bool;
  completed_at : option datetime;
  created_at : datetime;
  updated_at : datetime
}.

(** The row after [SET completed=..., completed_at=...]. *)
Definition set_completion (r : t) (c : bool) (at_ : option datetime) : t :=
  {| id := id r;
     user_id := user_id r;
     title := title r;
     description := description r;
     category_id := category_id r;
     priority := priority r;
     due_date := due_date r;
     completed := c;
     completed_at := at_;
     created_at := created_at r;
     updated_at := updated_at r |}.

(** The row after [SET title=..., description=..., category_id=...,
    priority=..., due_date=..., updated_at=...]. *)
Definition set_fields (r : t) (title' : string) (description' : option string)
    (category_id' : option uuid) (priority' : option string)
    (due_date' : option datetime) (updated_at' : datetime) : t :=
  {| id := id r;
     user_id := user_id r;
     title := title';
     description := description';
     category_id := category_id';
     priority := priority';
     due_date := due_date';
     completed := completed r;
     completed_at := completed_at r;
     created_at := created_at r;
     updated_at := updated_at' |}.
End Task.

(** The committed contents of the store; [tasks_id_seq] is the next value
    of the sequence behind [tasks.id SERIAL]. *)
Record database : Type := {
  users : list User.t;
  categories : list Category.t;
  tasks : list Task.t;
  tasks_id_seq : Z
}.

(** The store as [psycopg2.connect] finds it. *)
Inductive store : Type :=
| Reachable (db : database)
| Unreachable.

(* ===================================================================== *)
(** ** SQL *)
(* ===================================================================== *)

Module Sql.

(** Three-valued conditions: [None] is SQL's unknown. *)
Definition cond : Type := option bool.

Definition and (a b : cond) : cond :=
  match a, b with
  | Some false, _ | _, Some false => Some false
  | Some true, Some true => Some true
  | _, _ => None
  end.

Definition eq_uuid (a b : option uuid) : cond :=
  match a, b with
  | Some x, Some y => Some (String.eqb x y)
  | _, _ => None
  end.

Definition eq_bool (a : option bool) (b : bool) : cond :=
  match a with
  | Some x => Some (Bool.eqb x b)
  | None => None
  end.

Definition lt (a b : option datetime) : cond :=
  match a, b with
  | Some x, Some y => Some (x <? y)
  | _, _ => None
  end.

(** WHERE keeps the rows whose condition is true. *)
Definition holds (c : cond) : bool :=
  match c with
  | Some true => true
  | _ => false
  end.

(** [tasks t LEFT JOIN categories c ON t.category_id = c.id], one task. *)
Definition left_join (cs : list Category.t) (t : Task.t)
  : list (Task.t * option Category.t) :=
  match filter (fun c => holds (eq_uuid (Task.category_id t) (Some (Category.id c)))) cs with
  | [] => [(t, None)]
  | ms => map (fun c => (t, Some c)) ms
  end.

(** [ORDER BY key DESC].  Rows with equal keys stay in table order; SQL
    leaves their order open and nothing below depends on it. *)
Definition order_by_desc {A : Type} (key : A -> datetime) (rows : list A) : list A :=
  Py.sorted (fun r => - key r) rows.

Fixpoint all_spaces (s : string) : bool :=
  match s with
  | EmptyString => true
  | String c r => (Ascii.eqb c " "%char) && all_spaces r
  end.

(** Storing [s] in a VARCHAR([n]) column: a longer value is an error,
    unless the excess is all spaces, which are cut off. *)
Definition varchar (n : nat) (s : string) : outcome string :=
  if (String.length s <=? n)%nat then Ok s
  else if all_spaces (substring n (String.length s - n) s) then Ok (substring 0 n s)
  else Raise StringDataRightTruncation.

Definition varchar_opt (n : nat) (s : option string) : outcome (option string) :=
  match s with
  | None => Ok None
  | Some v => v' <- varchar n v ;; Ok (Some v')
  end.

(** [varchar] for a column held as code points. *)
Definition varchar_points (n : nat) (s : list Z) : outcome (list Z) :=
  if (List.length s <=? n)%nat then Ok s
  else if forallb (Z.eqb 32) (skipn n s) then Ok (firstn n s)
  else Raise StringDataRightTruncation.

Fixpoint has_nul (s : string) : bool :=
  match s with
  | EmptyString => false
  | String c r => Ascii.eqb c Ascii.zero || has_nul r
  end.

(** What psycopg2 does with a [str] parameter of [cur.execute] before the
    statement leaves the client: a NUL character raises [ValueError]. *)
Definition adapt (s : string) : outcome string :=
  if has_nul s then Raise ValueError else Ok s.

Definition adapt_opt (s : option string) : outcome (option string) :=
  match s with
  | None => Ok None
  | Some v => v' <- adapt v ;; Ok (Some v')
  end.

Definition adapt_points (s : list Z) : outcome (list Z) :=
  if existsb (Z.eqb 0) s then Raise ValueError else Ok s.

(** A hexadecimal digit ([isxdigit]), in lower case. *)
Definition xdigit (c : ascii) : option ascii :=
  let n := nat_of_ascii c in
  if (((48 <=? n) && (n <=? 57)) || ((97 <=? n) && (n <=? 102)))%nat then Some c
  else if ((65 <=? n) && (n <=? 70))%nat then Some (ascii_of_nat (n + 32))
  else None.

(** The loop of the store's UUID input: [n] bytes are still to be read,
    byte [i] is next.  A byte is two hexadecimal digits; a hyphen may follow
    every second byte but the last. *)
Fixpoint uuid_digits (n i : nat) (src : string) : option (list ascii * string) :=
  match n with
  | O => Some ([], src)
  | S n' =>
      match src with
      | String a (String b rest) =>
          match xdigit a, xdigit b with
          | Some a', Some b' =>
              let rest' :=
                match rest with
                | String c r =>
                    if Ascii.eqb c "-" && Nat.odd i && (i <? 15)%nat then r else rest
                | EmptyString => rest
                end in
              match uuid_digits n' (S i) rest' with
              | Some (ds, tail) => Some (a' :: b' :: ds, tail)
              | None => None
              end
          | _, _ => None
          end
      | _ => None
      end
  end.

(** The store's output form of the 32 digits: a hyphen before the digits
    8, 12, 16 and 20. *)
Fixpoint uuid_out (i : nat) (ds : list ascii) : string :=
  match ds with
  | [] => EmptyString
  | d :: r =>
      let rest := String d (uuid_out (S i) r) in
      if ((i =? 8) || (i =? 12) || (i =? 16) || (i =? 20))%nat
      then String "-" rest else rest
  end.

(** How the store reads text for a UUID column ([c.id = %s], [category_id]
    in VALUES or SET): 32 hexadecimal digits of either case, with or
    without braces around them, with or without the hyphens; anything else
    is an error.  The result is the id in the store's own form. *)
Definition uuid_in (s : string) : outcome uuid :=
  let braces := match s with String c _ => Ascii.eqb c "{" | EmptyString => false end in
  let src := if braces then match s with String _ r => r | EmptyString => s end else s in
  match uuid_digits 16 0 src with
  | Some (ds, rest) =>
      let rest' :=
        if braces
        then match rest with
             | String c r => if Ascii.eqb c "}" then Some r else None
             | EmptyString => None
             end
        else Some rest in
      match rest' with
      | Some EmptyString => Ok (uuid_out 0 ds)
      | _ => Raise InvalidTextRepresentation
      end
  | None => Raise InvalidTextRepresentation
  end.

(** A nullable UUID parameter. *)
Definition uuid_in_opt (s : option string) : outcome (option uuid) :=
  match s with
  | None => Ok None
  | Some v => u <- uuid_in v ;; Ok (Some u)
  end.

(** The last value of a SERIAL (a 32-bit sequence). *)
Definition serial_max : Z := 2147483647.

(** [nextval('tasks_id_seq')] *)
Definition nextval (db : database) : outcome Z :=
  if tasks_id_seq db <=? serial_max then Ok (tasks_id_seq db)
  else Raise SequenceGeneratorLimitExceeded.

(** [REFERENCES users(id)] *)
Definition references_user (db : database) (u : uuid) : outcome unit :=
  if existsb (fun x => String.eqb (User.id x) u) (users db) then Ok tt
  else Raise ForeignKeyViolation.

(** [REFERENCES categories(id)], on a nullable column *)
Definition references_category (db : database) (c : option uuid) : outcome unit :=
  match c with
  | None => Ok tt
  | Some k =>
      if existsb (fun x => String.eqb (Category.id x) k) (categories db) then Ok tt
      else Raise ForeignKeyViolation
  end.

(** [SELECT ... FROM tasks WHERE id = %s AND user_id = %s] and [fetchone()] *)
Definition select_task (db : database) (task_id : Z) (user_id : uuid) : option Task.t :=
  find (fun t => (Task.id t =? task_id) && String.eqb (Task.user_id t) user_id) (tasks db).

(** [INSERT INTO tasks (user_id, title, description, category_id, priority,
    due_date) VALUES (...)]: [id] from the sequence, [completed] FALSE,
    [completed_at] NULL, both timestamps CURRENT_TIMESTAMP.  [category_id]
    is the text of the parameter: a form field in [add_task], the text of
    a stored id in [duplicate_task].  psycopg2 adapts the parameters, the
    store reads the literals (UUID first, then the widths), takes the id
    from the sequence and checks the references after the row is in.  A
    refused INSERT commits nothing; that the sequence keeps a value it
    gave out to a refused INSERT is not modelled. *)
Definition insert_task (db : database) (db_now : datetime)
    (user_id : uuid) (title : string) (description : option string)
    (category_id : option string) (priority : option string)
    (due_date : option datetime) : outcome database :=
  title <- adapt title ;;
  description <- adapt_opt description ;;
  category_id <- adapt_opt category_id ;;
  priority <- adapt_opt priority ;;
  category_id <- uuid_in_opt category_id ;;
  title' <- varchar 255 title ;;
  priority' <- varchar_opt 20 priority ;;
  id <- nextval db ;;
  _ <- references_user db user_id ;;
  _ <- references_category db category_id ;;
  Ok {| users := users db;
        categories := categories db;
        tasks := tasks db ++
          [ {| Task.id := id;
               Task.user_id := user_id;
               Task.title := title';
               Task.description := description;
               Task.category_id := category_id;
               Task.priority := priority';
               Task.due_date := due_date;
               Task.completed := false;
               Task.completed_at := None;
               Task.created_at := db_now;
               Task.updated_at := db_now |} ];
        tasks_id_seq := tasks_id_seq db + 1 |}.

(** [UPDATE tasks SET title=%s, description=%s, category_id=%s,
    priority=%s, due_date=%s, updated_at=CURRENT_TIMESTAMP
    WHERE id=%s AND user_id=%s]; [category_id] is the text of the form
    field.  The reference is checked for the rows that are updated. *)
Definition update_task (db : database) (db_now : datetime)
    (title : string) (description : option string)
    (category_id : option string) (priority : option string)
    (due_date : option datetime) (task_id : Z) (user_id : uuid) : outcome database :=
  title <- adapt title ;;
  description <- adapt_opt description ;;
  category_id <- adapt_opt category_id ;;
  priority <- adapt_opt priority ;;
  category_id <- uuid_in_opt category_id ;;
  title' <- varchar 255 title ;;
  priority' <- varchar_opt 20 priority ;;
  _ <- (if existsb (fun t => (Task.id t =? task_id) && String.eqb (Task.user_id t) user_id)
                   (tasks db)
        then references_category db category_id
        else Ok tt) ;;
  Ok {| users := users db;
        categories := categories db;
        tasks := map (fun t =>
          if (Task.id t =? task_id) && String.eqb (Task.user_id t) user_id
          then Task.set_fields t title' description category_id priority' due_date db_now
          else t) (tasks db);
        tasks_id_seq := tasks_id_seq db |}.

(** [UPDATE tasks SET completed=%s, completed_at=%s WHERE id=%s] *)
Definition update_completed (db : database) (completed : bool)
    (completed_at : option datetime) (task_id : Z) : database :=
  {| users := users db;
     categories := categories db;
     tasks := map (fun t =>
       if Task.id t =? task_id
       then Task.set_completion t completed completed_at
       else t) (tasks db);
     tasks_id_seq := tasks_id_seq db |}.

(** [DELETE FROM tasks WHERE id = %s AND user_id = %s] *)
Definition delete_task (db : database) (task_id : Z) (user_id : uuid) : database :=
  {| users := users db;
     categories := categories db;
     tasks := filter (fun t =>
       negb ((Task.id t =? task_id) && String.eqb (Task.user_id t) user_id)) (tasks db);
     tasks_id_seq := tasks_id_seq db |}.

End Sql.

(** The constraints the schema puts on a committed state: the two primary
    keys, the sequence ahead of every task id, the widths of the two
    VARCHAR columns of [tasks], and its two foreign keys. *)
Record db_constraints (db : database) : Prop := {
  tasks_title_width :
    Forall (fun t => (String.length (Task.title t) <= 255)%nat) (tasks db);
  tasks_priority_width :
    Forall (fun t => forall p, Task.priority t = Some p -> (String.length p <= 20)%nat)
           (tasks db);
  tasks_pkey : NoDup (map Task.id (tasks db));
  tasks_seq_ahead : Forall (fun t => Task.id t < tasks_id_seq db) (tasks db);
  categories_pkey : NoDup (map Category.id (categories db));
  tasks_user_fkey :
    Forall (fun t => exists u, In u (users db) /\ User.id u = Task.user_id t) (tasks db);
  tasks_category_fkey :
    Forall (fun t => forall k, Task.category_id t = Some k ->
                     exists c, In c (categories db) /\ Category.id c = k) (tasks db)
}.

(* ===================================================================== *)
(** ** Database helper functions *)
(* ===================================================================== *)

Definition psycopg2_connect (s : store) : outcome database :=
  match s with
  | Reachable db => Ok db
  | Unreachable => Raise OperationalError
  end.

(** [get_db_connection]: the connection, or [None] when connecting raised. *)
Definition get_db_connection (s : store) : option database :=
  match psycopg2_connect s with
  | Ok conn => Some conn
  | Raise _ => None
  end.

(** [get_user_by_id(user_id)] *)
Definition get_user_by_id (s : store) (user_id : uuid) : option User.t :=
  match get_db_connection s with
  | None => None
  | Some conn => find (fun u => String.eqb (User.id u) user_id) (users conn)
  end.

(** A row of [get_user_tasks]: [t.*] and the three category columns. *)
Record task_row : Type := {
  row_task : Task.t;
  category_name : option string;
  category_color : option string;
  category_icon : option (list Z)
}.

Definition dict_of_row (r : Task.t * option Category.t) : task_row :=
  {| row_task := fst r;
     category_name := option_map Category.name (snd r);
     category_color := option_map Category.color (snd r);
     category_icon := option_map Category.icon (snd r) |}.

Definition str_eq (a : option string) (b : string) : bool :=
  match a with
  | Some x => String.eqb x b
  | None => false
  end.

(** The parameter that [if category_param:] appends, as psycopg2 adapts it
    and the store reads it for [c.id = %s]; [None] when the clause is not
    added. *)
Definition category_filter (category_param : option string) : outcome (option uuid) :=
  if Py.truthy category_param
  then c <- Sql.adapt_opt category_param ;; Sql.uuid_in_opt c
  else Ok None.

(** The WHERE clause [get_user_tasks] assembles, on one joined row;
    [category] is the id of [c.id = %s] when that clause was added. *)
Definition get_user_tasks_where (user_id : uuid) (filter_param : option string)
    (category : option uuid) (db_now : datetime) (r : Task.t * option Category.t)
  : Sql.cond :=
  let t := fst r in
  let query := Sql.eq_uuid (Some (Task.user_id t)) (Some user_id) in
  let query :=
    if str_eq filter_param "pending" then
      Sql.and query (Sql.eq_bool (Some (Task.completed t)) false)
    else if str_eq filter_param "completed" then
      Sql.and query (Sql.eq_bool (Some (Task.completed t)) true)
    else if str_eq filter_param "overdue" then
      Sql.and (Sql.and query (Sql.eq_bool (Some (Task.completed t)) false))
              (Sql.lt (Task.due_date t) (Some db_now))
    else query in
  let query :=
    match category with
    | Some _ => Sql.and query (Sql.eq_uuid (option_map Category.id (snd r)) category)
    | None => query
    end in
  query.

(** [get_user_tasks(user_id, filter_param, category_param)]; [db_now] is the
    store's CURRENT_TIMESTAMP.  There is no [except]: what [cur.execute]
    raises reaches the caller. *)
Definition get_user_tasks (s : store) (user_id : uuid)
    (filter_param category_param : option string) (db_now : datetime)
  : outcome (list task_row) :=
  match get_db_connection s with
  | None => Ok []
  | Some conn =>
      category <- category_filter category_param ;;
      let joined := flat_map (Sql.left_join (categories conn)) (tasks conn) in
      let selected :=
        filter (fun r => Sql.holds (get_user_tasks_where user_id filter_param category db_now r))
               joined in
      let tasks := Sql.order_by_desc (fun r => Task.created_at (fst r)) selected in
      Ok (map dict_of_row tasks)
  end.

Record stats : Type := {
  total : Z;
  completed : Z;
  pending : Z;
  overdue : Z;
  completion_rate : Py.number
}.

Definition len {A : Type} (l : list A) : Z := Z.of_nat (List.length l).

(** [round(v, 1)] where [v] is an int or a float *)
Definition round_1 (v : Py.number) : Py.number :=
  match v with
  | Py.Int z => Py.Int z
  | Py.Float f => Py.Float (Py.round1 f)
  end.

(** The body of [calculate_stats] after the task list is fetched; [now] is
    [datetime.now()], which the source reads anew for each task it tests:
    the model takes one reading for the whole scan. *)
Definition stats_of_tasks (tasks : list task_row) (now : datetime) : stats :=
  let total := len tasks in
  let completed := len (filter (fun t => Task.completed (row_task t)) tasks) in
  let pending := total - completed in
  let overdue :=
    len (filter (fun t =>
           negb (Task.completed (row_task t))
           && match Task.due_date (row_task t) with
              | Some due => due <? now
              | None => false
              end) tasks) in
  {| total := total;
     completed := completed;
     pending := pending;
     overdue := overdue;
     completion_rate :=
       round_1 (if 0 <? total
                then Py.Float (Py.truediv completed total * Py.float_of_int 100)%float
                else Py.Int 0) |}.

Definition calculate_stats (s : store) (user_id : uuid) (now db_now : datetime)
  : outcome stats :=
  tasks <- get_user_tasks s user_id None None db_now ;;
  Ok (stats_of_tasks tasks now).

Record notification : Type := {
  n_task : task_row;
  urgency : string;
  message : string;
  n_due_date : datetime
}.

(** The two branches under [0 < time_diff.total_seconds() <= 86400]. *)
Definition urgency_and_message (due_date : datetime) (time_diff : Z) : string * string :=
  if under_one_hour time_diff
  then ("urgent", "Due in " ++ Py.str_of_int (whole_minutes time_diff) ++ " minutes")
  else ("today", "Due today at " ++ strftime_HM due_date).

(** The dict appended for [task]. *)
Definition notification_dict (task : task_row) (due_date : datetime) (time_diff : Z)
  : notification :=
  let um := urgency_and_message due_date time_diff in
  {| n_task := task; urgency := fst um; message := snd um; n_due_date := due_date |}.

(** One turn of the loop of [get_due_notifications]. *)
Definition notify_step (now : datetime) (notifications : list notification)
    (task : task_row) : list notification :=
  match Task.due_date (row_task task) with
  | Some due_date =>
      let time_diff := due_date - now in
      if due_within_24h time_diff
      then (notifications ++ [notification_dict task due_date time_diff])%list
      else notifications
  | None => notifications
  end.

(** The body of [get_due_notifications] after the pending tasks are
    fetched. *)
Definition notifications_of_tasks (tasks : list task_row) (now : datetime)
  : list notification :=
  Py.sorted n_due_date (fold_left (notify_step now) tasks []).

Definition get_due_notifications (s : store) (user_id : uuid) (now db_now : datetime)
  : outcome (list notification) :=
  tasks <- get_user_tasks s user_id (Some "pending") None db_now ;;
  Ok (notifications_of_tasks tasks now).

(* ===================================================================== *)
(** ** Requests and responses *)
(* ===================================================================== *)

Inductive http_method : Type := GET | POST.

(** The [due_date] form field, by what the handler makes of it: falsy
    (absent or empty), accepted by [datetime.fromisoformat], or rejected by
    it. *)
Inductive due_date_field : Type :=
| DueEmpty
| DueIso (d : datetime)
| DueMalformed.

(** [request.form]: [None] for a field that is not in the form. *)
Record form_data : Type := {
  form_title : option string;
  form_description : option string;
  form_category : option string;
  form_priority : option string;
  form_due_date : due_date_field
}.

Record request : Type := {
  method : http_method;
  form : form_data;
  referrer : option string
}.

(** [session]: the value under ['user_id'], if the key is there. *)
Definition session : Type := option uuid.

(** What a view returns.  Of a rendered template the name is kept, and the
    task that [edit_task] passes to it. *)
Inductive response : Type :=
| Redirect (location : string)
| Render (template : string) (task : option Task.t).

(** A view's answer: the messages it flashed, in order, and its response. *)
Record reply : Type := {
  flashed : list (string * string);
  body : response
}.

Definition url_for_dashboard : string := "/dashboard".
Definition url_for_login : string := "/login".

(** [@login_required]: without ['user_id'] in the session the view is not
    entered. *)
Definition login_required (f : uuid -> outcome (store * reply))
    (s : store) (sess : session) : outcome (store * reply) :=
  match sess with
  | None =>
      Ok (s, {| flashed := [("Please log in to access this page.", "error")];
                body := Redirect url_for_login |})
  | Some user_id => f user_id
  end.

(** [conn = get_db_connection()] followed by [conn.cursor()], which raises
    on [None]. *)
Definition cursor (s : store) : outcome database :=
  match get_db_connection s with
  | Some conn => Ok conn
  | None => Raise AttributeError
  end.

(** [datetime.fromisoformat(due_date_str) if due_date_str else None] *)
Definition parse_due_date (f : due_date_field) : outcome (option datetime) :=
  match f with
  | DueEmpty => Ok None
  | DueIso d => Ok (Some d)
  | DueMalformed => Raise ValueError
  end.

(** [render_template_string] of a template that opens with
    [user.get('theme', 'dark')] (ADD_TASK_TEMPLATE, EDIT_TASK_TEMPLATE,
    SETTINGS_TEMPLATE): on [user = None] the attribute is undefined, and
    the call of an undefined value raises. *)
Definition render_with_user (user : option User.t) (template : string)
    (task : option Task.t) : outcome response :=
  match user with
  | Some _ => Ok (Render template task)
  | None => Raise UndefinedError
  end.

(** [x if x else None] on a form field *)
Definition none_if_falsy (x : option string) : option string :=
  if Py.truthy x then x else None.

(** [request.form.get('title', '').strip()] *)
Definition stripped_title (req : request) : string :=
  Py.strip (match form_title (form req) with Some v => v | None => "" end).

(* ===================================================================== *)
(** ** Task views *)
(* ===================================================================== *)

(** [/add-task] *)
Definition add_task (s : store) (sess : session) (req : request) (db_now : datetime)
  : outcome (store * reply) :=
  login_required (fun user_id =>
    let user := get_user_by_id s user_id in
    match method req with
    | POST =>
        let title := stripped_title req in
        if String.eqb title "" then
          page <- render_with_user user "ADD_TASK_TEMPLATE" None ;;
          Ok (s, {| flashed := [("Task title is required", "error")]; body := page |})
        else
          conn <- cursor s ;;
          due_date <- parse_due_date (form_due_date (form req)) ;;
          let category_id := form_category (form req) in
          conn' <- Sql.insert_task conn db_now user_id title
                     (form_description (form req)) (none_if_falsy category_id)
                     (form_priority (form req)) due_date ;;
          Ok (Reachable conn',
              {| flashed := [("Task added successfully!", "success")];
                 body := Redirect url_for_dashboard |})
    | GET =>
        page <- render_with_user user "ADD_TASK_TEMPLATE" None ;;
        Ok (s, {| flashed := []; body := page |})
    end) s sess.

(** [/edit/<int:task_id>] *)
Definition edit_task (s : store) (sess : session) (req : request) (db_now : datetime)
    (task_id : Z) : outcome (store * reply) :=
  login_required (fun user_id =>
    let user := get_user_by_id s user_id in
    conn <- cursor s ;;
    match Sql.select_task conn task_id user_id with
    | None =>
        Ok (s, {| flashed := [("Task not found.", "error")];
                  body := Redirect url_for_dashboard |})
    | Some task =>
        match method req with
        | POST =>
            let title := stripped_title req in
            if String.eqb title "" then
              page <- render_with_user user "EDIT_TASK_TEMPLATE" (Some task) ;;
              Ok (s, {| flashed := [("Task title is required", "error")]; body := page |})
            else
              conn <- cursor s ;;
              due_date <- parse_due_date (form_due_date (form req)) ;;
              let category_id := form_category (form req) in
              conn' <- Sql.update_task conn db_now title
                         (form_description (form req)) (none_if_falsy category_id)
                         (form_priority (form req)) due_date task_id user_id ;;
              Ok (Reachable conn',
                  {| flashed := [("Task updated successfully!", "success")];
                     body := Redirect url_for_dashboard |})
        | GET =>
            page <- render_with_user user "EDIT_TASK_TEMPLATE" (Some task) ;;
            Ok (s, {| flashed := []; body := page |})
        end
    end) s sess.

(** [/toggle/<int:task_id>]; [now] is [datetime.now()]. *)
Definition toggle_task (s : store) (sess : session) (req : request) (now : datetime)
    (task_id : Z) : outcome (store * reply) :=
  login_required (fun user_id =>
    conn <- cursor s ;;
    let conn' :=
      match Sql.select_task conn task_id user_id with
      | Some task =>
          let new_status := negb (Task.completed task) in
          let completed_at := if new_status then Some now else None in
          Sql.update_completed conn new_status completed_at task_id
      | None => conn
      end in
    Ok (Reachable conn',
        {| flashed := [];
           body := Redirect (if Py.truthy (referrer req)
                             then match referrer req with Some r => r | None => "" end
                             else url_for_dashboard) |})) s sess.

(** [/delete/<int:task_id>] *)
Definition delete_task (s : store) (sess : session) (task_id : Z)
  : outcome (store * reply) :=
  login_required (fun user_id =>
    conn <- cursor s ;;
    Ok (Reachable (Sql.delete_task conn task_id user_id),
        {| flashed := [("Task deleted.", "success")];
           body := Redirect url_for_dashboard |})) s sess.

(** [/duplicate/<int:task_id>] *)
Definition duplicate_task (s : store) (sess : session) (db_now : datetime) (task_id : Z)
  : outcome (store * reply) :=
  login_required (fun user_id =>
    conn <- cursor s ;;
    conn' <-
      match Sql.select_task conn task_id user_id with
      | Some task =>
          Sql.insert_task conn db_now user_id ("Copy of " ++ Task.title task)
            (Task.description task) (Task.category_id task) (Task.priority task)
            (Task.due_date task)
      | None => Ok conn
      end ;;
    Ok (Reachable conn',
        {| flashed := [("Task duplicated.", "success")];
           body := Redirect url_for_dashboard |})) s sess.

(* ===================================================================== *)
(** ** What the specification says, in its own words *)
(* ===================================================================== *)

Module Spec.

(** The status filter: pending, completed, overdue, or no restriction. *)
Definition status_selects (filter_param : option string) (now : datetime) (t : Task.t)
  : Prop :=
  (filter_param = Some "pending" -> Task.completed t = false)
  /\ (filter_param = Some "completed" -> Task.completed t = true)
  /\ (filter_param = Some "overdue" ->
      Task.completed t = false /\ exists due, Task.due_date t = Some due /\ due < now).

(** The category filter: when one is given (a non-empty value), the task's
    category id is the given value. *)
Definition category_selects (category_param : option string) (t : Task.t) : Prop :=
  forall k, category_param = Some k -> k <> "" -> Task.category_id t = Some k.

(** The same for the id that the given value denotes. *)
Definition in_category (category : option uuid) (t : Task.t) : Prop :=
  forall k, category = Some k -> Task.category_id t = Some k.

(** The two filters and the owner test as one decision on a task. *)
Definition status_selectsb (filter_param : option string) (now : datetime) (t : Task.t)
  : bool :=
  if str_eq filter_param "pending" then negb (Task.completed t)
  else if str_eq filter_param "completed" then Task.completed t
  else if str_eq filter_param "overdue" then
    negb (Task.completed t)
    && match Task.due_date t with Some due => due <? now | None => false end
  else true.

Definition category_selectsb (category : option uuid) (t : Task.t) : bool :=
  match category with
  | Some k =>
      match Task.category_id t with
      | Some k' => String.eqb k' k
      | None => false
      end
  | None => true
  end.

Definition listed (user_id : uuid) (filter_param : option string) (category : option uuid)
    (now : datetime) (t : Task.t) : bool :=
  String.eqb (Task.user_id t) user_id
  && status_selectsb filter_param now t
  && category_selectsb category t.

(** Number of elements of [l] satisfying [p]. *)
Fixpoint number_of {A : Type} (p : A -> bool) (l : list A) : Z :=
  match l with
  | [] => 0
  | x :: r => (if p x then 1 else 0) + number_of p r
  end.

Definition is_overdue (now : datetime) (t : Task.t) : bool :=
  match Task.due_date t with
  | Some due => negb (Task.completed t) && (due <? now)
  | None => false
  end.

(** Time-to-due strictly above 0 and at most 86400 seconds. *)
Definition due_soon (now : datetime) (t : Task.t) : bool :=
  match Task.due_date t with
  | Some due => (0 <? due - now) && (due - now <=? seconds 86400)
  | None => false
  end.

(** [completed = false] exactly when [completed_at] is unset. *)
Definition completion_consistent (t : Task.t) : Prop :=
  Task.completed t = false <-> Task.completed_at t = None.

Definition consistent_store (s : store) : Prop :=
  match s with
  | Reachable db => Forall completion_consistent (tasks db)
  | Unreachable => True
  end.

(** A task as creation leaves it. *)
Definition starts_pending (t : Task.t) : Prop :=
  Task.completed t = false /\ Task.completed_at t = None.

(** The rows of [tasks] that belong to other users than [user_id]. *)
Definition other_users_tasks (user_id : uuid) (db : database) : list Task.t :=
  filter (fun t => negb (String.eqb (Task.user_id t) user_id)) (tasks db).


(** The claim that the listing answers every category filter with the
    tasks whose category id is the given value. *)
Definition lists_every_category_filter : Prop :=
  forall (db : database) (user_id : uuid) (filter_param category_param : option string)
         (db_now : datetime),
    db_constraints db ->
    exists rows,
      get_user_tasks (Reachable db) user_id filter_param category_param db_now = Ok rows
      /\ (forall t, In t (map row_task rows) <->
            In t (tasks db) /\ Task.user_id t = user_id
            /\ status_selects filter_param db_now t
            /\ category_selects category_param t)
      /\ StronglySorted (fun a b => Task.created_at b <= Task.created_at a)
           (map row_task rows).

(** The claim that a task due exactly 24 hours ahead gets no notification. *)
Definition excluded_at_24h : Prop :=
  forall (tasks : list task_row) (now : datetime) (r : task_row),
    In r tasks ->
    Task.completed (row_task r) = false ->
    Task.due_date (row_task r) = Some (now + seconds 86400) ->
    ~ In r (map n_task (notifications_of_tasks tasks now)).

End Spec.

(* ===================================================================== *)
(** ** Sample data *)
(* ===================================================================== *)

Module Sample.

(** Day [d], [h]:[m] o'clock. *)
Definition at_ (d h m : Z) : datetime := seconds (d * 86400 + h * 3600 + m * 60).

Definition person (id name email : string) : User.t :=
  {| User.id := id; User.full_name := name; User.email := email;
     User.password := "5e884898da28047151d0e56f8dc6292773603d0d6aabbdd62a11ef721d1542d8";
     User.bio := None; User.location := None; User.website := None;
     User.profile_picture := None; User.theme := Some "dark";
     User.notifications_enabled := Some true;
     User.created_at := at_ 1 8 0; User.updated_at := at_ 1 8 0 |}.

Definition ada : uuid := "0a000000-0000-4000-8000-000000000001".
Definition bob : uuid := "0b000000-0000-4000-8000-000000000002".
Definition eve : uuid := "0e000000-0000-4000-8000-000000000003".
Definition work : uuid := "c0000000-0000-4000-8000-000000000001".
Definition home : uuid := "c0000000-0000-4000-8000-000000000002".

Definition report : Task.t :=
  {| Task.id := 1; Task.user_id := ada; Task.title := "Write report";
     Task.description := Some "quarterly"; Task.category_id := Some work;
     Task.priority := Some "high"; Task.due_date := Some (at_ 10 9 30);
     Task.completed := false; Task.completed_at := None;
     Task.created_at := at_ 2 10 0; Task.updated_at := at_ 2 10 0 |}.

Definition milk : Task.t :=
  {| Task.id := 2; Task.user_id := ada; Task.title := "Buy milk";
     Task.description := None; Task.category_id := None;
     Task.priority := Some "medium"; Task.due_date := None;
     Task.completed := true; Task.completed_at := Some (at_ 4 18 0);
     Task.created_at := at_ 3 7 15; Task.updated_at := at_ 3 7 15 |}.

Definition call : Task.t :=
  {| Task.id := 3; Task.user_id := bob; Task.title := "Call the bank";
     Task.description := None; Task.category_id := Some home;
     Task.priority := None; Task.due_date := Some (at_ 9 8 0);
     Task.completed := false; Task.completed_at := None;
     Task.created_at := at_ 3 9 0; Task.updated_at := at_ 3 9 0 |}.

Definition taxes : Task.t :=
  {| Task.id := 4; Task.user_id := ada; Task.title := "File taxes";
     Task.description := None; Task.category_id := Some home;
     Task.priority := Some "low"; Task.due_date := Some (at_ 5 12 0);
     Task.completed := false; Task.completed_at := None;
     Task.created_at := at_ 4 11 0; Task.updated_at := at_ 4 11 0 |}.

Definition db : database :=
  {| users := [person ada "Ada" "ada@example.com"; person bob "Bob" "bob@example.com"];
     categories :=
       [ {| Category.id := work; Category.user_id := ada; Category.name := "Work";
            Category.color := "#dc2626"; Category.icon := [128188];
            Category.created_at := at_ 1 8 0 |};
         {| Category.id := home; Category.user_id := ada; Category.name := "Personal";
            Category.color := "#d97706"; Category.icon := [127968];
            Category.created_at := at_ 1 8 0 |} ];
     tasks := [report; milk; call; taxes];
     tasks_id_seq := 5 |}.

(** A store without task 3. *)
Definition db_without_call : database :=
  {| users := users db; categories := categories db;
     tasks := [report; milk; taxes]; tasks_id_seq := 5 |}.

Definition row (t : Task.t) : task_row :=
  {| row_task := t; category_name := None; category_color := None;
     category_icon := None |}.

Definition get_request : request :=
  {| method := GET;
     form := {| form_title := None; form_description := None; form_category := None;
                form_priority := None; form_due_date := DueEmpty |};
     referrer := None |}.

Definition post_request (title : string) : request :=
  {| method := POST;
     form := {| form_title := Some title; form_description := Some "";
                form_category := Some ""; form_priority := Some "medium";
                form_due_date := DueEmpty |};
     referrer := None |}.

(** A title of 248 characters. *)
Definition long_title : string :=
  String.concat "" (repeat "12345678" 31).

Definition long_task : Task.t :=
  {| Task.id := 5; Task.user_id := ada; Task.title := long_title;
     Task.description := None; Task.category_id := None;
     Task.priority := Some "medium"; Task.due_date := None;
     Task.completed := false; Task.completed_at := None;
     Task.created_at := at_ 5 9 0; Task.updated_at := at_ 5 9 0 |}.

Definition db_with_long_title : database :=
  {| users := users db; categories := categories db;
     tasks := [report; milk; call; taxes; long_task]; tasks_id_seq := 6 |}.

(** Generated ids for the account examples. *)
Definition gen (n : nat) : uuid :=
  match n with
  | O => eve
  | 1%nat => "c0000000-0000-4000-8000-00000000000a"
  | 2%nat => "c0000000-0000-4000-8000-00000000000b"
  | 3%nat => "c0000000-0000-4000-8000-00000000000c"
  | _ => "c0000000-0000-4000-8000-00000000000d"
  end.

End Sample.

(* ===================================================================== *)
(** ** Upload file names *)
(* ===================================================================== *)

(** [ALLOWED_EXTENSIONS] *)
Definition ALLOWED_EXTENSIONS : list string := ["png"; "jpg"; "jpeg"; "gif"].

(** [c.lower()] for a code point below 256: A-Z, and the capital letters
    of Latin-1 (192-222 without the multiplication sign). *)
Definition lower_char (c : ascii) : ascii :=
  let n := nat_of_ascii c in
  if (((65 <=? n) && (n <=? 90))
      || ((192 <=? n) && (n <=? 222) && negb (n =? 215)))%nat
  then ascii_of_nat (n + 32)
  else c.

(** [s.lower()] *)
Fixpoint lower (s : string) : string :=
  match s with
  | EmptyString => EmptyString
  | String c r => String (lower_char c) (lower r)
  end.

Definition is_dot (c : ascii) : bool := Ascii.eqb c "."%char.

(** ['.' in s] *)
Fixpoint contains_dot (s : string) : bool :=
  match s with
  | EmptyString => false
  | String c r => is_dot c || contains_dot r
  end.

(** [s.rsplit('.', 1)]: the text before and the text after the last dot,
    or [s] alone when it has no dot. *)
Fixpoint rsplit_dot (s : string) : list string :=
  match s with
  | EmptyString => [EmptyString]
  | String c r =>
      match rsplit_dot r with
      | [before; after] => [String c before; after]
      | _ => if is_dot c then [EmptyString; r] else [String c r]
      end
  end.

(** [allowed_file(filename)]; the index [1] exists whenever the first
    operand of [and] holds. *)
Definition allowed_file (filename : string) : bool :=
  contains_dot filename
  && existsb (String.eqb (lower (nth 1 (rsplit_dot filename) ""))) ALLOWED_EXTENSIONS.

(* ===================================================================== *)
(** ** [hash_password] *)
(* ===================================================================== *)

(** SHA-256 as [hashlib.sha256] computes it (FIPS 180-4), on a list of
    bytes, with 32-bit words as integers below [2^32]. *)
Module Sha256.

Definition mask : Z := 4294967295.

Definition add32 (x y : Z) : Z := Z.land (x + y) mask.

Definition rotr (n x : Z) : Z :=
  Z.lor (Z.shiftr x n) (Z.land (Z.shiftl x (32 - n)) mask).

Definition Ch (x y z : Z) : Z :=
  Z.lxor (Z.land x y) (Z.land (Z.lxor x mask) z).

Definition Maj (x y z : Z) : Z :=
  Z.lxor (Z.lxor (Z.land x y) (Z.land x z)) (Z.land y z).

Definition Sigma0 (x : Z) : Z := Z.lxor (Z.lxor (rotr 2 x) (rotr 13 x)) (rotr 22 x).
Definition Sigma1 (x : Z) : Z := Z.lxor (Z.lxor (rotr 6 x) (rotr 11 x)) (rotr 25 x).
Definition sigma0 (x : Z) : Z := Z.lxor (Z.lxor (rotr 7 x) (rotr 18 x)) (Z.shiftr x 3).
Definition sigma1 (x : Z) : Z := Z.lxor (Z.lxor (rotr 17 x) (rotr 19 x)) (Z.shiftr x 10).

Definition K : list Z :=
  [1116352408; 1899447441; 3049323471; 3921009573; 961987163; 1508970993;
   2453635748; 2870763221; 3624381080; 310598401; 607225278; 1426881987;
   1925078388; 2162078206; 2614888103; 3248222580; 3835390401; 4022224774;
   264347078; 604807628; 770255983; 1249150122; 1555081692; 1996064986;
   2554220882; 2821834349; 2952996808; 3210313671; 3336571891; 3584528711;
   113926993; 338241895; 666307205; 773529912; 1294757372; 1396182291;
   1695183700; 1986661051; 2177026350; 2456956037; 2730485921; 2820302411;
   3259730800; 3345764771; 3516065817; 3600352804; 4094571909; 275423344;
   430227734; 506948616; 659060556; 883997877; 958139571; 1322822218;
   1537002063; 1747873779; 1955562222; 2024104815; 2227730452; 2361852424;
   2428436474; 2756734187; 3204031479; 3329325298].

(** The working variables a..h, and the hash value between blocks. *)
Record state : Type := {
  a : Z; b : Z; c : Z; d : Z; e : Z; f : Z; g : Z; h : Z
}.

Definition H0 : state :=
  {| a := 1779033703; b := 3144134277; c := 1013904242; d := 2773480762;
     e := 1359893119; f := 2600822924; g := 528734635; h := 1541459225 |}.

(** The message with its padding: a 1 bit, zeros up to 56 mod 64 bytes, and
    the length in bits as 8 bytes, most significant first. *)
Definition pad (msg : list Z) : list Z :=
  let n := Z.of_nat (List.length msg) in
  let zeros := Z.to_nat ((55 - n) mod 64) in
  let bits := 8 * n in
  (msg ++ [128] ++ repeat 0 zeros
   ++ map (fun i => Z.land (Z.shiftr bits (8 * i)) 255) [7; 6; 5; 4; 3; 2; 1; 0])%list.

(** Four bytes, most significant first, as a word. *)
Fixpoint words (bytes : list Z) : list Z :=
  match bytes with
  | b0 :: b1 :: b2 :: b3 :: rest =>
      (b0 * 16777216 + b1 * 65536 + b2 * 256 + b3) :: words rest
  | _ => []
  end.

(** The message schedule: [n] more words after the ones in [w]. *)
Fixpoint schedule (n : nat) (w : list Z) : list Z :=
  match n with
  | O => w
  | S n' =>
      let t := List.length w in
      let at_ k := nth (t - k) w 0 in
      schedule n'
        (w ++ [add32 (add32 (sigma1 (at_ 2%nat)) (at_ 7%nat))
                      (add32 (sigma0 (at_ 15%nat)) (at_ 16%nat))])%list
  end.

Definition round (s : state) (kw : Z * Z) : state :=
  let t1 := add32 (add32 (add32 (h s) (Sigma1 (e s))) (Ch (e s) (f s) (g s)))
                  (add32 (fst kw) (snd kw)) in
  let t2 := add32 (Sigma0 (a s)) (Maj (a s) (b s) (c s)) in
  {| a := add32 t1 t2; b := a s; c := b s; d := c s;
     e := add32 (d s) t1; f := e s; g := f s; h := g s |}.

(** One 64-byte block. *)
Definition compress (s : state) (block : list Z) : state :=
  let w := schedule 48 (words block) in
  let s' := fold_left round (combine K w) s in
  {| a := add32 (a s) (a s'); b := add32 (b s) (b s'); c := add32 (c s) (c s');
     d := add32 (d s) (d s'); e := add32 (e s) (e s'); f := add32 (f s) (f s');
     g := add32 (g s) (g s'); h := add32 (h s) (h s') |}.

Fixpoint blocks (n : nat) (s : state) (bytes : list Z) : state :=
  match n with
  | O => s
  | S n' => blocks n' (compress s (firstn 64 bytes)) (skipn 64 bytes)
  end.

Definition digest (msg : list Z) : state :=
  let padded := pad msg in
  blocks (List.length padded / 64) H0 padded.

Definition hexdigit (n : Z) : ascii :=
  ascii_of_nat (Z.to_nat (if n <? 10 then 48 + n else 87 + n)).

(** A word as 8 lowercase hex digits. *)
Definition hex8 (w : Z) : string :=
  String (hexdigit (Z.land (Z.shiftr w 28) 15))
 (String (hexdigit (Z.land (Z.shiftr w 24) 15))
 (String (hexdigit (Z.land (Z.shiftr w 20) 15))
 (String (hexdigit (Z.land (Z.shiftr w 16) 15))
 (String (hexdigit (Z.land (Z.shiftr w 12) 15))
 (String (hexdigit (Z.land (Z.shiftr w 8) 15))
 (String (hexdigit (Z.land (Z.shiftr w 4) 15))
 (String (hexdigit (Z.land w 15)) EmptyString))))))).

Definition hexdigest (msg : list Z) : string :=
  let s := digest msg in
  hex8 (a s) ++ hex8 (b s) ++ hex8 (c s) ++ hex8 (d s)
  ++ hex8 (e s) ++ hex8 (f s) ++ hex8 (g s) ++ hex8 (h s).

End Sha256.

(** [s.encode()]: UTF-8, for code points below 256. *)
Fixpoint encode (s : string) : list Z :=
  match s with
  | EmptyString => []
  | String ch r =>
      let n := Z.of_nat (nat_of_ascii ch) in
      if n <? 128 then n :: encode r
      else (192 + Z.shiftr n 6) :: (128 + Z.land n 63) :: encode r
  end.

(** [hash_password(password)] *)
Definition hash_password (password : string) : string :=
  Sha256.hexdigest (encode password).

(* ===================================================================== *)
(** ** Users and categories *)
(* ===================================================================== *)

(** What an account view may raise: an exception of the task views, a
    UNIQUE or PRIMARY KEY violation, or Flask's error for a form field
    that is not there ([request.form['email']]). *)
Inductive failure : Type :=
| Python (e : Py.exn)
| UniqueViolation
| BadRequestKeyError.

Inductive result (A : Type) : Type :=
| Done (a : A)
| Failed (e : failure).
Arguments Done {A} a.
Arguments Failed {A} e.

Definition and_then {A B : Type} (c : result A) (k : A -> result B) : result B :=
  match c with
  | Done a => k a
  | Failed e => Failed e
  end.

Notation "x <~ c ;; k" := (and_then c (fun x => k))
  (at level 61, c at next level, right associativity) : py_scope.

Definition of_outcome {A : Type} (c : outcome A) : result A :=
  match c with
  | Ok a => Done a
  | Raise e => Failed (Python e)
  end.

(** [request.form[key]] *)
Definition required (field : option string) : result string :=
  match field with
  | Some v => Done v
  | None => Failed BadRequestKeyError
  end.

(** [get_user_by_email(email)]: [email] is text of the request. *)
Definition get_user_by_email (s : store) (email : string) : outcome (option User.t) :=
  match get_db_connection s with
  | None => Ok None
  | Some conn =>
      email <- Sql.adapt email ;;
      Ok (find (fun u => String.eqb (User.email u) email) (users conn))
  end.

(** [get_user_categories(user_id)]: [ORDER BY created_at ASC].  SQL leaves
    the order of rows with equal times open (the four default categories
    of an account have one time); the model returns them in table order,
    and no statement below depends on that choice. *)
Definition get_user_categories (s : store) (user_id : uuid) : list Category.t :=
  match get_db_connection s with
  | None => []
  | Some conn =>
      Py.sorted Category.created_at
        (filter (fun c => Sql.holds (Sql.eq_uuid (Some (Category.user_id c)) (Some user_id)))
                (categories conn))
  end.

(** [INSERT INTO users (full_name, email, password) VALUES (...) RETURNING
    id]; [new_id] is what [uuid_generate_v4()] yields for the row. *)
Definition insert_user (db : database) (db_now : datetime) (new_id : uuid)
    (full_name email password : string) : result database :=
  full_name <~ of_outcome (Sql.adapt full_name) ;;
  email <~ of_outcome (Sql.adapt email) ;;
  password <~ of_outcome (Sql.adapt password) ;;
  full_name' <~ of_outcome (Sql.varchar 255 full_name) ;;
  email' <~ of_outcome (Sql.varchar 255 email) ;;
  password' <~ of_outcome (Sql.varchar 255 password) ;;
  if existsb (fun u => String.eqb (User.id u) new_id) (users db)
  then Failed UniqueViolation
  else if existsb (fun u => String.eqb (User.email u) email') (users db)
  then Failed UniqueViolation
  else
    Done {| users := users db ++
              [ {| User.id := new_id;
                   User.full_name := full_name';
                   User.email := email';
                   User.password := password';
                   User.bio := None;
                   User.location := None;
                   User.website := None;
                   User.profile_picture := None;
                   User.theme := Some "dark";
                   User.notifications_enabled := Some true;
                   User.created_at := db_now;
                   User.updated_at := db_now |} ];
            categories := categories db;
            tasks := tasks db;
            tasks_id_seq := tasks_id_seq db |}.

(** [INSERT INTO categories (user_id, name, color, icon) VALUES (...)] *)
Definition insert_category (db : database) (db_now : datetime) (new_id : uuid)
    (user_id : uuid) (name color : string) (icon : list Z) : result database :=
  name <~ of_outcome (Sql.adapt name) ;;
  color <~ of_outcome (Sql.adapt color) ;;
  icon <~ of_outcome (Sql.adapt_points icon) ;;
  name' <~ of_outcome (Sql.varchar 100 name) ;;
  color' <~ of_outcome (Sql.varchar 7 color) ;;
  icon' <~ of_outcome (Sql.varchar_points 10 icon) ;;
  _ <~ of_outcome (Sql.references_user db user_id) ;;
  if existsb (fun c => String.eqb (Category.id c) new_id) (categories db)
  then Failed UniqueViolation
  else
    Done {| users := users db;
            categories := categories db ++
              [ {| Category.id := new_id;
                   Category.user_id := user_id;
                   Category.name := name';
                   Category.color := color';
                   Category.icon := icon';
                   Category.created_at := db_now |} ];
            tasks := tasks db;
            tasks_id_seq := tasks_id_seq db |}.

(** The four default categories.  Each icon is one character: briefcase
    (U+1F4BC), house (U+1F3E0), flexed biceps (U+1F4AA), books (U+1F4DA). *)
Definition default_categories : list (string * string * list Z) :=
  [ ("Work", "#dc2626", [128188]);
    ("Personal", "#d97706", [127968]);
    ("Health", "#059669", [128170]);
    ("Learning", "#7c3aed", [128218]) ].

(** The loop of [create_default_categories]; [gen n] is the id generated
    for the [n]-th insert that is still to come. *)
Fixpoint insert_categories (db : database) (db_now : datetime) (gen : nat -> uuid)
    (user_id : uuid) (rows : list (string * string * list Z)) : result database :=
  match rows with
  | [] => Done db
  | (name, color, icon) :: rest =>
      db' <~ insert_category db db_now (gen O) user_id name color icon ;;
      insert_categories db' db_now (fun n => gen (S n)) user_id rest
  end.

(** [create_default_categories(cur, user_id)] *)
Definition create_default_categories (db : database) (db_now : datetime)
    (gen : nat -> uuid) (user_id : uuid) : result database :=
  insert_categories db db_now gen user_id default_categories.

(* ===================================================================== *)
(** ** Account views *)
(* ===================================================================== *)

Record account_form : Type := {
  field_full_name : option string;
  field_email : option string;
  field_password : option string;
  field_confirm_password : option string
}.

Record account_request : Type := {
  account_method : http_method;
  account_form_data : account_form
}.

Definition url_for_logout : string := "/logout".

(** The user row and the default categories that [signup] and the test
    account of [login] insert in one transaction; [gen 0] is the user's id,
    [gen 1] to [gen 4] the categories'. *)
Definition create_account (s : store) (db_now : datetime) (gen : nat -> uuid)
    (full_name email hashed_pw : string) : result store :=
  conn <~ of_outcome (cursor s) ;;
  conn1 <~ insert_user conn db_now (gen O) full_name email hashed_pw ;;
  conn2 <~ create_default_categories conn1 db_now (fun n => gen (S n)) (gen O) ;;
  Done (Reachable conn2).

Definition is_none {A : Type} (x : option A) : bool :=
  match x with
  | None => true
  | Some _ => false
  end.

(** [/login]; the answer is the store, the session and the reply. *)
Definition login (s : store) (sess : session) (req : account_request)
    (db_now : datetime) (gen : nat -> uuid) : result (store * session * reply) :=
  match sess with
  | Some _ => Done (s, sess, {| flashed := []; body := Redirect url_for_dashboard |})
  | None =>
      match account_method req with
      | POST =>
          email <~ required (field_email (account_form_data req)) ;;
          let email := lower email in
          password <~ required (field_password (account_form_data req)) ;;
          s1 <~ (if String.eqb email "test@example.com"
                 then
                   found <~ of_outcome (get_user_by_email s email) ;;
                   if is_none found
                   then create_account s db_now gen "Test User" "test@example.com"
                          (hash_password "password123")
                   else Done s
                 else Done s) ;;
          user <~ of_outcome (get_user_by_email s1 email) ;;
          match user with
          | Some user =>
              if String.eqb (User.password user) (hash_password password)
              then Done (s1, Some (User.id user),
                         {| flashed := []; body := Redirect url_for_dashboard |})
              else Done (s1, None,
                         {| flashed := [("Invalid email or password.", "error")];
                            body := Render "LOGIN_TEMPLATE" None |})
          | None =>
              Done (s1, None,
                    {| flashed := [("Invalid email or password.", "error")];
                       body := Render "LOGIN_TEMPLATE" None |})
          end
      | GET => Done (s, None, {| flashed := []; body := Render "LOGIN_TEMPLATE" None |})
      end
  end.

(** [/signup] *)
Definition signup (s : store) (sess : session) (req : account_request)
    (db_now : datetime) (gen : nat -> uuid) : result (store * session * reply) :=
  match sess with
  | Some _ => Done (s, sess, {| flashed := []; body := Redirect url_for_dashboard |})
  | None =>
      match account_method req with
      | POST =>
          full_name <~ required (field_full_name (account_form_data req)) ;;
          email <~ required (field_email (account_form_data req)) ;;
          let email := lower email in
          password <~ required (field_password (account_form_data req)) ;;
          confirm_password <~ required (field_confirm_password (account_form_data req)) ;;
          if negb (String.eqb password confirm_password) then
            Done (s, None, {| flashed := [("Passwords do not match.", "error")];
                              body := Render "SIGNUP_TEMPLATE" None |})
          else if (String.length password <? 6)%nat then
            Done (s, None,
                  {| flashed := [("Password must be at least 6 characters long.", "error")];
                     body := Render "SIGNUP_TEMPLATE" None |})
          else
            found <~ of_outcome (get_user_by_email s email) ;;
            if negb (is_none found) then
              Done (s, None,
                    {| flashed := [("An account with this email already exists.", "error")];
                       body := Render "SIGNUP_TEMPLATE" None |})
            else
              s1 <~ create_account s db_now gen full_name email (hash_password password) ;;
              Done (s1, None,
                    {| flashed := [("Account created successfully! Please log in.", "success")];
                       body := Redirect url_for_login |})
      | GET => Done (s, None, {| flashed := []; body := Render "SIGNUP_TEMPLATE" None |})
      end
  end.

(** [/logout] *)
Definition logout (sess : session) : session * reply :=
  (None, {| flashed := [("You have been logged out.", "success")];
            body := Redirect url_for_login |}).

(** What [/dashboard] passes to its template. *)
Record dashboard_page : Type := {
  page_user : User.t;
  page_tasks : list task_row;
  page_categories : list Category.t;
  page_stats : stats;
  page_notifications : list notification
}.

Inductive dashboard_answer : Type :=
| Sent (r : reply)
| Shown (p : dashboard_page).

(** [render_template_string(MAIN_TEMPLATE, ...)].  For a user without a
    profile picture the template shows [user.full_name[0].upper()]: on an
    empty name the index gives an undefined value, and an attribute of an
    undefined value raises. *)
Definition render_dashboard (p : dashboard_page) : outcome dashboard_answer :=
  if negb (Py.truthy (User.profile_picture (page_user p)))
     && String.eqb (User.full_name (page_user p)) ""
  then Raise UndefinedError
  else Ok (Shown p).

(** [/dashboard?filter=&category=], with its [@login_required]. *)
Definition dashboard (s : store) (sess : session) (filter_param category_param : option string)
    (now db_now : datetime) : outcome dashboard_answer :=
  match sess with
  | None =>
      Ok (Sent {| flashed := [("Please log in to access this page.", "error")];
                  body := Redirect url_for_login |})
  | Some user_id =>
      match get_user_by_id s user_id with
      | None => Ok (Sent {| flashed := []; body := Redirect url_for_logout |})
      | Some user =>
          tasks <- get_user_tasks s user_id filter_param category_param db_now ;;
          let categories := get_user_categories s user_id in
          stats <- calculate_stats s user_id now db_now ;;
          notifications <- get_due_notifications s user_id now db_now ;;
          render_dashboard {| page_user := user;
                              page_tasks := tasks;
                              page_categories := categories;
                              page_stats := stats;
                              page_notifications := notifications |}
      end
  end.

(* ===================================================================== *)
(** ** Settings *)
(* ===================================================================== *)

(** The user row after [SET theme=..., notifications_enabled=...,
    updated_at=...]. *)
Definition set_settings (u : User.t) (theme : option string)
    (notifications_enabled : option bool) (updated_at : datetime) : User.t :=
  {| User.id := User.id u;
     User.full_name := User.full_name u;
     User.email := User.email u;
     User.password := User.password u;
     User.bio := User.bio u;
     User.location := User.location u;
     User.website := User.website u;
     User.profile_picture := User.profile_picture u;
     User.theme := theme;
     User.notifications_enabled := notifications_enabled;
     User.created_at := User.created_at u;
     User.updated_at := updated_at |}.

(** [UPDATE users SET theme=%s, notifications_enabled=%s,
    updated_at=CURRENT_TIMESTAMP WHERE id=%s] *)
Definition update_user_settings (db : database) (db_now : datetime)
    (theme : option string) (notifications_enabled : bool) (user_id : uuid)
  : outcome database :=
  theme <- Sql.adapt_opt theme ;;
  theme' <- Sql.varchar_opt 20 theme ;;
  Ok {| users := map (fun u =>
          if String.eqb (User.id u) user_id
          then set_settings u theme' (Some notifications_enabled) db_now
          else u) (users db);
        categories := categories db;
        tasks := tasks db;
        tasks_id_seq := tasks_id_seq db |}.

(** [UPDATE users SET theme=%s WHERE id=%s] *)
Definition update_user_theme (db : database) (theme : option string) (user_id : uuid)
  : outcome database :=
  theme <- Sql.adapt_opt theme ;;
  theme' <- Sql.varchar_opt 20 theme ;;
  Ok {| users := map (fun u =>
          if String.eqb (User.id u) user_id
          then set_settings u theme' (User.notifications_enabled u) (User.updated_at u)
          else u) (users db);
        categories := categories db;
        tasks := tasks db;
        tasks_id_seq := tasks_id_seq db |}.

Definition url_for_settings : string := "/settings".

(** [/settings]; [theme] and [notifications_enabled] are
    [request.form.get(...)] of the two fields. *)
Definition settings (s : store) (sess : session) (meth : http_method)
    (theme notifications_enabled : option string) (db_now : datetime)
  : outcome (store * reply) :=
  login_required (fun user_id =>
    let user := get_user_by_id s user_id in
    match meth with
    | POST =>
        conn <- cursor s ;;
        conn' <- update_user_settings conn db_now theme
                   (str_eq notifications_enabled "true") user_id ;;
        Ok (Reachable conn',
            {| flashed := [("Settings updated successfully!", "success")];
               body := Redirect url_for_settings |})
    | GET =>
        page <- render_with_user user "SETTINGS_TEMPLATE" None ;;
        Ok (s, {| flashed := []; body := page |})
    end) s sess.

(** The ['theme'] entry of the JSON body of [/api/update-theme]: not there,
    [null], or a string.  A body that is no JSON object, and an entry of
    another JSON type, are outside the model. *)
Inductive json_theme : Type :=
| ThemeAbsent
| ThemeNull
| ThemeString (v : string).

Inductive api_answer : Type :=
| ApiSent (r : reply)
| ApiSuccess.

(** [/api/update-theme], with its [@login_required]. *)
Definition update_theme (s : store) (sess : session) (body_theme : json_theme)
  : outcome (store * api_answer) :=
  match sess with
  | None =>
      Ok (s, ApiSent {| flashed := [("Please log in to access this page.", "error")];
                        body := Redirect url_for_login |})
  | Some user_id =>
      let theme :=
        match body_theme with
        | ThemeAbsent => Some "dark"
        | ThemeNull => None
        | ThemeString v => Some v
        end in
      conn <- cursor s ;;
      conn' <- update_user_theme conn theme user_id ;;
      Ok (Reachable conn', ApiSuccess)
  end.

(* ===================================================================== *)
(** ** Auxiliary notions for the further properties *)
(* ===================================================================== *)

(** Every character of [s] is whitespace ([''] included). *)
Fixpoint blank (s : string) : bool :=
  match s with
  | EmptyString => true
  | String c r => Py.isspace c && blank r
  end.

Fixpoint last_char (s : string) : option ascii :=
  match s with
  | EmptyString => None
  | String c EmptyString => Some c
  | String _ r => last_char r
  end.

Definition first_char (s : string) : option ascii :=
  match s with
  | EmptyString => None
  | String c _ => Some c
  end.

(** The user row that [signup] and the test account insert. *)
Definition new_user_row (db_now : datetime) (id : uuid) (full_name email hashed_pw : string)
  : User.t :=
  {| User.id := id;
     User.full_name := full_name;
     User.email := email;
     User.password := hashed_pw;
     User.bio := None;
     User.location := None;
     User.website := None;
     User.profile_picture := None;
     User.theme := Some "dark";
     User.notifications_enabled := Some true;
     User.created_at := db_now;
     User.updated_at := db_now |}.

Definition new_category_row (db_now : datetime) (id user_id : uuid)
    (row : string * string * list Z) : Category.t :=
  {| Category.id := id;
     Category.user_id := user_id;
     Category.name := fst (fst row);
     Category.color := snd (fst row);
     Category.icon := snd row;
     Category.created_at := db_now |}.

(** The four category rows of a new account whose ids come from [gen]. *)
Definition new_account_categories (db_now : datetime) (gen : nat -> uuid)
  : list Category.t :=
  map (fun nr => new_category_row db_now (gen (fst nr)) (gen O) (snd nr))
      (combine [1%nat; 2%nat; 3%nat; 4%nat] default_categories).

(** The generated ids are new: the user's among the users, the four
    categories' among the categories and among themselves. *)
Definition fresh_ids (db : database) (gen : nat -> uuid) : Prop :=
  ~ In (gen O) (map User.id (users db))
  /\ NoDup [gen 1%nat; gen 2%nat; gen 3%nat; gen 4%nat]
  /\ (forall n, In n [1%nat; 2%nat; 3%nat; 4%nat] ->
                ~ In (gen n) (map Category.id (categories db))).

Definition account_post (full_name email password confirm : option string)
  : account_request :=
  {| account_method := POST;
     account_form_data :=
       {| field_full_name := full_name; field_email := email;
          field_password := password; field_confirm_password := confirm |} |}.

(** A signup that passes the checks of the view and of the store. *)
Record acceptable_signup (db : database) (gen : nat -> uuid)
    (full_name email password : string) : Prop := {
  su_password : (6 <= String.length password)%nat;
  su_name_text : Sql.has_nul full_name = false;
  su_name_width : (String.length full_name <= 255)%nat;
  su_email_width : (String.length email <= 255)%nat;
  su_new_email : get_user_by_email (Reachable db) (lower email) = Ok None;
  su_fresh : fresh_ids db gen
}.

(** A digit of an id in the store's form: a hexadecimal digit in lower
    case. *)
Definition stored_digit (d : ascii) : Prop :=
  Sql.xdigit d = Some d
  /\ Ascii.eqb d "-" = false /\ Ascii.eqb d "{" = false /\ Ascii.eqb d Ascii.zero = false.

(** A row of [tasks] as the store holds it and gives it out: no NUL in its
    texts, the category id in the store's own form. *)
Record stored_task (t : Task.t) : Prop := {
  st_title : Sql.has_nul (Task.title t) = false;
  st_description : forall d, Task.description t = Some d -> Sql.has_nul d = false;
  st_priority : forall p, Task.priority t = Some p -> Sql.has_nul p = false;
  st_category : forall k, Task.category_id t = Some k ->
                          Sql.has_nul k = false /\ Sql.uuid_in k = Ok k
}.

Definition invalid_login : reply :=
  {| flashed := [("Invalid email or password.", "error")];
     body := Render "LOGIN_TEMPLATE" None |}.

Definition to_dashboard : reply :=
  {| flashed := []; body := Redirect url_for_dashboard |}.

(* ===================================================================== *)
(** ** Lists, sorting *)
(* ===================================================================== *)

Section SortedFacts.
Context {A : Type} (key : A -> Z).

Lemma insert_perm (x : A) (l : list A) : Permutation (Py.insert key x l) (x :: l).
Proof.
  induction l as [|y r IH]; simpl.
  - apply Permutation_refl.
  - destruct (key x <=? key y).
    + apply Permutation_refl.
    + apply perm_trans with (y :: x :: r).
      * apply perm_skip, IH.
      * apply perm_swap.
Qed.

Lemma sorted_perm (l : list A) : Permutation (Py.sorted key l) l.
Proof.
  induction l as [|x r IH]; simpl.
  - apply perm_nil.
  - apply perm_trans with (x :: Py.sorted key r).
    + apply insert_perm.
    + apply perm_skip, IH.
Qed.

Lemma insert_ascending (x : A) (l : list A) :
  StronglySorted (fun a b => key a <= key b) l ->
  StronglySorted (fun a b => key a <= key b) (Py.insert key x l).
Proof.
  induction 1 as [|y r Hr IH Hy]; simpl.
  - constructor; constructor.
  - destruct (key x <=? key y) eqn:E.
    + apply Z.leb_le in E.
      constructor.
      * constructor; assumption.
      * constructor; [assumption|].
        eapply Forall_impl; [|exact Hy].
        intros a Ha; simpl in Ha. lia.
    + apply Z.leb_gt in E.
      constructor; [exact IH|].
      apply (Permutation_Forall (Permutation_sym (insert_perm x r))).
      constructor; [lia | exact Hy].
Qed.

Lemma sorted_ascending (l : list A) :
  StronglySorted (fun a b => key a <= key b) (Py.sorted key l).
Proof.
  induction l as [|x r IH]; simpl.
  - constructor.
  - apply insert_ascending, IH.
Qed.

End SortedFacts.

Lemma StronglySorted_map {A B : Type} (f : A -> B) (R : B -> B -> Prop) (l : list A) :
  StronglySorted (fun a b => R (f a) (f b)) l -> StronglySorted R (map f l).
Proof.
  induction 1 as [|x r Hr IH Hx]; simpl; constructor.
  - exact IH.
  - apply Forall_map. exact Hx.
Qed.

Lemma order_by_desc_perm {A : Type} (key : A -> datetime) (rows : list A) :
  Permutation (Sql.order_by_desc key rows) rows.
Proof. apply sorted_perm. Qed.

Lemma order_by_desc_descending {A : Type} (key : A -> datetime) (rows : list A) :
  StronglySorted (fun a b => key b <= key a) (Sql.order_by_desc key rows).
Proof.
  unfold Sql.order_by_desc.
  eapply StronglySorted_ind with
    (P := fun l => StronglySorted (fun a b => key b <= key a) l);
    [constructor | | apply (sorted_ascending (fun r => - key r))].
  intros a l _ IH Ha. constructor; [exact IH|].
  eapply Forall_impl; [|exact Ha]. intros b Hb; simpl in Hb. lia.
Qed.

Lemma len_filter_number_of {A : Type} (p : A -> bool) (l : list A) :
  len (filter p l) = Spec.number_of p l.
Proof.
  unfold len. induction l as [|x r IH]; simpl; [reflexivity|].
  destruct (p x); simpl List.length; lia.
Qed.

Lemma number_of_bounds {A : Type} (p : A -> bool) (l : list A) :
  0 <= Spec.number_of p l <= len l.
Proof.
  unfold len. induction l as [|x r IH]; simpl List.length; simpl Spec.number_of.
  - lia.
  - destruct (p x); lia.
Qed.

Lemma number_of_ext {A : Type} (p q : A -> bool) (l : list A) :
  (forall x, p x = q x) -> Spec.number_of p l = Spec.number_of q l.
Proof.
  intros E. induction l as [|x r IH]; simpl; [reflexivity|].
  rewrite E, IH. reflexivity.
Qed.

(* ===================================================================== *)
(** ** Statistics *)
(* ===================================================================== *)

(** C2. For every task list, [calculate_stats] returns total = the number
    of tasks, completed = the number of tasks with [completed] true,
    pending = total - completed (so pending + completed = total), overdue =
    the number of tasks with [completed] false and a due date before the
    current time, and completion_rate = round(completed / total * 100, 1)
    when total > 0 and the integer 0 when total = 0; an empty list gives all
    counts zero and rate zero. *)
Theorem calculate_stats_counts (tasks : list task_row) (now : datetime) :
  let st := stats_of_tasks tasks now in
  total st = len tasks
  /\ completed st = Spec.number_of (fun r => Task.completed (row_task r)) tasks
  /\ pending st = total st - completed st
  /\ pending st + completed st = total st
  /\ 0 <= pending st
  /\ overdue st = Spec.number_of (fun r => Spec.is_overdue now (row_task r)) tasks
  /\ (0 < total st ->
      completion_rate st =
      Py.Float (Py.round1 (Py.truediv (completed st) (total st) * Py.float_of_int 100)%float))
  /\ (total st = 0 -> completion_rate st = Py.Int 0)
  /\ stats_of_tasks [] now =
     {| total := 0; completed := 0; pending := 0; overdue := 0;
        completion_rate := Py.Int 0 |}
  /\ (forall s user_id db_now, exists fetched,
        get_user_tasks s user_id None None db_now = Ok fetched
        /\ calculate_stats s user_id now db_now = Ok (stats_of_tasks fetched now)).
Proof.
  cbv zeta.
  assert (L : forall s user_id db_now, exists fetched,
             get_user_tasks s user_id None None db_now = Ok fetched
             /\ calculate_stats s user_id now db_now = Ok (stats_of_tasks fetched now)).
  { intros s user_id db_now. unfold calculate_stats, get_user_tasks.
    destruct (get_db_connection s); eexists; split; reflexivity. }
  unfold stats_of_tasks; simpl.
  rewrite !len_filter_number_of.
  pose proof (number_of_bounds (fun r => Task.completed (row_task r)) tasks) as Hb.
  repeat split; try lia; try exact L.
  - apply number_of_ext. intros r. unfold Spec.is_overdue.
    destruct (Task.due_date (row_task r)); [reflexivity | apply andb_false_r].
  - intros H. apply Z.ltb_lt in H. rewrite H. reflexivity.
  - intros H. rewrite H. reflexivity.
Qed.

(* ===================================================================== *)
(** ** Notifications *)
(* ===================================================================== *)

Lemma notify_step_app (now : datetime) (acc : list notification) (r : task_row) :
  notify_step now acc r = (acc ++ notify_step now [] r)%list.
Proof.
  unfold notify_step.
  destruct (Task.due_date (row_task r)) as [due|]; cbv zeta.
  - destruct (due_within_24h (due - now)); [reflexivity | symmetry; apply app_nil_r].
  - symmetry; apply app_nil_r.
Qed.

Lemma notify_loop (now : datetime) (tasks : list task_row) (acc : list notification) :
  fold_left (notify_step now) tasks acc
  = (acc ++ flat_map (notify_step now []) tasks)%list.
Proof.
  revert acc. induction tasks as [|r rest IH]; intros acc; simpl.
  - symmetry; apply app_nil_r.
  - rewrite IH, (notify_step_app now acc r), <- app_assoc. reflexivity.
Qed.

Lemma notify_step_due_soon (now : datetime) (r : task_row) :
  notify_step now [] r =
  match Task.due_date (row_task r) with
  | Some due =>
      if Spec.due_soon now (row_task r)
      then [notification_dict r due (due - now)] else []
  | None => []
  end.
Proof.
  unfold notify_step, Spec.due_soon, due_within_24h.
  destruct (Task.due_date (row_task r)) as [due|]; reflexivity.
Qed.

Lemma notified_tasks (now : datetime) (tasks : list task_row) :
  map n_task (flat_map (notify_step now []) tasks)
  = filter (fun r => Spec.due_soon now (row_task r)) tasks.
Proof.
  induction tasks as [|r rest IH]; simpl; [reflexivity|].
  rewrite map_app, IH, notify_step_due_soon.
  destruct (Spec.due_soon now (row_task r)) eqn:D.
  - unfold Spec.due_soon in D.
    destruct (Task.due_date (row_task r)) as [due|]; [reflexivity | discriminate].
  - destruct (Task.due_date (row_task r)); reflexivity.
Qed.

(** Every notification is the dict built for one of the tasks. *)
Lemma notifications_of_tasks_In (now : datetime) (tasks : list task_row) (n : notification) :
  In n (notifications_of_tasks tasks now) <->
  exists r due,
    In r tasks /\ Task.due_date (row_task r) = Some due
    /\ due_within_24h (due - now) = true
    /\ n = notification_dict r due (due - now).
Proof.
  unfold notifications_of_tasks. rewrite notify_loop; simpl.
  split.
  - intros H.
    apply (Permutation_in _ (sorted_perm n_due_date _)) in H.
    apply in_flat_map in H. destruct H as (r & Hr & Hn).
    unfold notify_step in Hn.
    destruct (Task.due_date (row_task r)) as [due|] eqn:E; [|contradiction].
    cbv zeta in Hn.
    destruct (due_within_24h (due - now)) eqn:W; [|contradiction].
    destruct Hn as [Hn|[]].
    exists r, due. repeat split; auto.
  - intros (r & due & Hr & E & W & ->).
    apply (Permutation_in _ (Permutation_sym (sorted_perm n_due_date _))).
    apply in_flat_map. exists r. split; [exact Hr|].
    unfold notify_step. rewrite E. cbv zeta. rewrite W. left; reflexivity.
Qed.

(** C3. For every pending-task list and every current time,
    [get_due_notifications] produces a notification for exactly the tasks
    that have a due date with 0 < time-to-due <= 86400 seconds (no due
    date, already past due, or due more than 24 hours ahead: none), and the
    list is in ascending order of due time. *)
Theorem due_notifications_selected_and_ordered (tasks : list task_row) (now : datetime) :
  let ns := notifications_of_tasks tasks now in
  Permutation (map n_task ns) (filter (fun r => Spec.due_soon now (row_task r)) tasks)
  /\ (forall r, In r (map n_task ns) <->
        In r tasks /\ exists due, Task.due_date (row_task r) = Some due
                                  /\ 0 < due - now <= seconds 86400)
  /\ Forall (fun n => Task.due_date (row_task (n_task n)) = Some (n_due_date n)) ns
  /\ StronglySorted (fun a b => n_due_date a <= n_due_date b) ns
  /\ (forall s user_id db_now, exists pending_tasks,
        get_user_tasks s user_id (Some "pending") None db_now = Ok pending_tasks
        /\ get_due_notifications s user_id now db_now
           = Ok (notifications_of_tasks pending_tasks now)).
Proof.
  cbv zeta.
  assert (P : Permutation (map n_task (notifications_of_tasks tasks now))
                (filter (fun r => Spec.due_soon now (row_task r)) tasks)).
  { unfold notifications_of_tasks. rewrite notify_loop; simpl.
    rewrite <- notified_tasks. apply Permutation_map, sorted_perm. }
  split; [exact P|]. split; [|split; [|split]].
  - intros r. split.
    + intros H. apply (Permutation_in _ P) in H. apply filter_In in H.
      destruct H as [Hr D]. split; [exact Hr|].
      unfold Spec.due_soon in D.
      destruct (Task.due_date (row_task r)) as [due|]; [|discriminate].
      exists due. split; [reflexivity|].
      apply andb_true_iff in D. destruct D as [D1 D2].
      apply Z.ltb_lt in D1. apply Z.leb_le in D2. lia.
    + intros (Hr & due & E & D).
      apply (Permutation_in _ (Permutation_sym P)). apply filter_In.
      split; [exact Hr|]. unfold Spec.due_soon. rewrite E.
      apply andb_true_iff. split; [apply Z.ltb_lt | apply Z.leb_le]; lia.
  - apply Forall_forall. intros n H.
    apply notifications_of_tasks_In in H.
    destruct H as (r & due & _ & E & _ & ->). exact E.
  - apply sorted_ascending.
  - intros s user_id db_now. unfold get_due_notifications, get_user_tasks.
    destruct (get_db_connection s); eexists; split; reflexivity.
Qed.

(** [strftime('%H:%M')] prints the hour and minute of the clock time. *)
Lemma strftime_HM_clock (day h m rest : Z) :
  0 <= h < 24 -> 0 <= m < 60 -> 0 <= rest < seconds 60 ->
  strftime_HM (seconds (day * 86400 + h * 3600 + m * 60) + rest)
  = two_digits h ++ ":" ++ two_digits m.
Proof.
  intros Hh Hm Hr. unfold strftime_HM.
  unfold seconds, usec_per_second in *.
  assert (E1 : (((day * 86400 + h * 3600 + m * 60) * 1000000 + rest) / (3600 * 1000000))
               = day * 24 + h).
  { symmetry. apply Z.div_unique with (r := m * 60000000 + rest); lia. }
  assert (E2 : (((day * 86400 + h * 3600 + m * 60) * 1000000 + rest) / (60 * 1000000))
               = (day * 24 + h) * 60 + m).
  { symmetry. apply Z.div_unique with (r := rest); lia. }
  rewrite E1, E2.
  replace ((day * 24 + h) mod 24) with h
    by (apply Z.mod_unique with (q := day); lia).
  replace (((day * 24 + h) * 60 + m) mod 60) with m
    by (apply Z.mod_unique with (q := day * 24 + h); lia).
  reflexivity.
Qed.

(** C4. Every notification: with time-to-due under 3600 seconds its urgency
    is 'urgent' and its message "Due in N minutes", N the floor of the
    remaining seconds divided by 60; from 1 hour up to 24 hours its urgency is
    'today' and its message "Due today at HH:MM", the due timestamp's clock
    time on the 24-hour clock.  A task due in exactly 30 minutes is notified
    as 'urgent' with "Due in 30 minutes". *)
Theorem notification_urgency_and_message (tasks : list task_row) (now : datetime) :
  (forall n, In n (notifications_of_tasks tasks now) ->
     exists due,
       Task.due_date (row_task (n_task n)) = Some due
       /\ (due - now < seconds 3600 ->
           urgency n = "urgent"
           /\ exists N, seconds (60 * N) <= due - now < seconds (60 * (N + 1))
                        /\ message n = "Due in " ++ Py.str_of_int N ++ " minutes")
       /\ (seconds 3600 <= due - now ->
           urgency n = "today"
           /\ message n = "Due today at " ++ strftime_HM due
           /\ forall day h m rest,
                0 <= h < 24 -> 0 <= m < 60 -> 0 <= rest < seconds 60 ->
                due = seconds (day * 86400 + h * 3600 + m * 60) + rest ->
                message n = "Due today at " ++ two_digits h ++ ":" ++ two_digits m))
  /\ (forall r, In r tasks ->
        Task.due_date (row_task r) = Some (now + seconds 1800) ->
        exists n, In n (notifications_of_tasks tasks now)
                  /\ n_task n = r /\ urgency n = "urgent"
                  /\ message n = "Due in 30 minutes").
Proof.
  split.
  - intros n H. apply notifications_of_tasks_In in H.
    destruct H as (r & due & _ & E & W & ->).
    exists due. split; [exact E|].
    unfold notification_dict; cbn [n_task urgency message].
    unfold urgency_and_message.
    destruct (under_one_hour (due - now)) eqn:U; unfold under_one_hour in U;
      [apply Z.ltb_lt in U | apply Z.ltb_ge in U]; cbn [fst snd]; split; intros H;
      try (exfalso; lia).
    + split; [reflexivity|].
      exists (whole_minutes (due - now)). split; [|reflexivity].
      unfold whole_minutes, seconds, usec_per_second in *.
      pose proof (Z.div_mod (due - now) (60 * 1000000) ltac:(lia)) as D.
      pose proof (Z.mod_pos_bound (due - now) (60 * 1000000) ltac:(lia)) as B.
      lia.
    + split; [reflexivity|]. split; [reflexivity|].
      intros day h m rest Hh Hm Hr ->.
      rewrite strftime_HM_clock by assumption. reflexivity.
  - intros r Hr E.
    exists (notification_dict r (now + seconds 1800) (now + seconds 1800 - now)).
    split.
    + apply notifications_of_tasks_In. exists r, (now + seconds 1800).
      repeat split; auto.
      replace (now + seconds 1800 - now) with (seconds 1800) by lia. reflexivity.
    + replace (now + seconds 1800 - now) with (seconds 1800) by lia.
      repeat split; reflexivity.
Qed.

(** C5, as the code has it. A pending task due exactly 86400 seconds after
    the current time is notified, with urgency 'today': the upper bound of
    the window is inclusive. *)
Theorem due_in_exactly_24h_notified (tasks : list task_row) (now : datetime) (r : task_row) :
  In r tasks ->
  Task.due_date (row_task r) = Some (now + seconds 86400) ->
  exists n, In n (notifications_of_tasks tasks now)
            /\ n_task n = r /\ urgency n = "today"
            /\ message n = "Due today at " ++ strftime_HM (now + seconds 86400).
Proof.
  intros Hr E.
  exists (notification_dict r (now + seconds 86400) (now + seconds 86400 - now)).
  split.
  - apply notifications_of_tasks_In. exists r, (now + seconds 86400).
    repeat split; auto.
    replace (now + seconds 86400 - now) with (seconds 86400) by lia. reflexivity.
  - replace (now + seconds 86400 - now) with (seconds 86400) by lia.
    repeat split; reflexivity.
Qed.

(* ===================================================================== *)
(** ** The task listing *)
(* ===================================================================== *)

Lemma str_eq_true (a : option string) (b : string) : str_eq a b = true <-> a = Some b.
Proof.
  destruct a as [x|]; simpl.
  - rewrite String.eqb_eq. split; congruence.
  - split; discriminate.
Qed.

Lemma str_eq_false (a : option string) (b : string) : str_eq a b = false <-> a <> Some b.
Proof.
  rewrite <- str_eq_true. destruct (str_eq a b); split; congruence.
Qed.

Lemma status_selectsb_spec (f : option string) (now : datetime) (t : Task.t) :
  Spec.status_selectsb f now t = true <-> Spec.status_selects f now t.
Proof.
  unfold Spec.status_selectsb, Spec.status_selects.
  destruct (str_eq f "pending") eqn:P.
  { apply str_eq_true in P; subst f. rewrite negb_true_iff.
    split; [intros H; repeat split; intros; try discriminate; exact H | intros (H & _); auto]. }
  destruct (str_eq f "completed") eqn:C.
  { apply str_eq_true in C; subst f.
    split; [intros H; repeat split; intros; try discriminate; exact H | intros (_ & H & _); auto]. }
  destruct (str_eq f "overdue") eqn:O.
  { apply str_eq_true in O; subst f. rewrite andb_true_iff, negb_true_iff. split.
    - intros [H1 H2]. split; [discriminate|]. split; [discriminate|].
      intros _. split; [exact H1|].
      destruct (Task.due_date t) as [due|]; [|discriminate].
      exists due. split; [reflexivity | apply Z.ltb_lt; exact H2].
    - intros (_ & _ & H). destruct (H eq_refl) as (H1 & due & E & L).
      split; [exact H1|]. rewrite E. apply Z.ltb_lt; exact L. }
  apply str_eq_false in P, C, O.
  split; [intros _; repeat split; intros; contradiction | reflexivity].
Qed.

Lemma category_selectsb_spec (c : option uuid) (t : Task.t) :
  Spec.category_selectsb c t = true <-> Spec.in_category c t.
Proof.
  unfold Spec.category_selectsb, Spec.in_category.
  destruct c as [k|].
  - split.
    + intros H k' E. injection E as <-.
      destruct (Task.category_id t) as [k'|]; [|discriminate].
      apply String.eqb_eq in H. rewrite H. reflexivity.
    + intros H. rewrite (H k eq_refl). apply String.eqb_refl.
  - split; [intros _ k E; discriminate | reflexivity].
Qed.

Lemma listed_spec (user_id : uuid) (f : option string) (c : option uuid) (now : datetime)
    (t : Task.t) :
  Spec.listed user_id f c now t = true <->
  Task.user_id t = user_id /\ Spec.status_selects f now t /\ Spec.in_category c t.
Proof.
  unfold Spec.listed.
  rewrite !andb_true_iff, String.eqb_eq, status_selectsb_spec, category_selectsb_spec.
  tauto.
Qed.

Lemma holds_and (a b : Sql.cond) : Sql.holds (Sql.and a b) = Sql.holds a && Sql.holds b.
Proof. destruct a as [[]|], b as [[]|]; reflexivity. Qed.

Lemma holds_Some (b : bool) : Sql.holds (Some b) = b.
Proof. destruct b; reflexivity. Qed.

Lemma truthy_nonempty (k : string) : Py.truthy (Some k) = negb (String.eqb k "").
Proof. destruct k; reflexivity. Qed.

(** On a joined row that carries the task's own category, the assembled
    WHERE clause decides [Spec.listed]. *)
Lemma get_user_tasks_where_listed (user_id : uuid) (f : option string) (c : option uuid)
    (db_now : datetime) (t : Task.t) (oc : option Category.t) :
  option_map Category.id oc = Task.category_id t ->
  Sql.holds (get_user_tasks_where user_id f c db_now (t, oc))
  = Spec.listed user_id f c db_now t.
Proof.
  intros J. unfold get_user_tasks_where, Spec.listed, Spec.status_selectsb,
    Spec.category_selectsb.
  cbn [fst snd]. rewrite <- J.
  assert (K : forall q, Sql.holds
            match c with
            | Some _ => Sql.and q (Sql.eq_uuid (option_map Category.id oc) c)
            | None => q
            end
            = Sql.holds q &&
              match c with
              | Some k =>
                  match option_map Category.id oc with
                  | Some k' => String.eqb k' k
                  | None => false
                  end
              | None => true
              end).
  { intros q. destruct c as [k|]; [|symmetry; apply andb_true_r].
    rewrite holds_and. f_equal.
    destruct (option_map Category.id oc); [apply holds_Some | reflexivity]. }
  destruct (str_eq f "pending"); [|destruct (str_eq f "completed");
    [|destruct (str_eq f "overdue")]];
    rewrite K, ?holds_and; simpl Sql.eq_uuid; simpl Sql.eq_bool; rewrite ?holds_Some.
  all: match goal with |- _ = _ && ?m => generalize m; intros cat end.
  all: destruct (String.eqb (Task.user_id t) user_id), (Task.completed t),
         (Task.due_date t) as [due|];
       cbn [Sql.lt Bool.eqb negb]; rewrite ?holds_Some; cbn [Sql.holds andb];
       reflexivity.
Qed.

Lemma filter_none {A : Type} (p : A -> bool) (l : list A) :
  (forall x, In x l -> p x = false) -> filter p l = [].
Proof.
  induction l as [|x r IH]; intros H; simpl; [reflexivity|].
  rewrite (H x (or_introl eq_refl)). apply IH. intros y Hy. apply H. right; exact Hy.
Qed.

(** Under the primary key of [categories], an id selects its one row. *)
Lemma filter_categories_pkey (cs : list Category.t) (c : Category.t) :
  NoDup (map Category.id cs) -> In c cs ->
  filter (fun x => String.eqb (Category.id c) (Category.id x)) cs = [c].
Proof.
  induction cs as [|a r IH]; intros N I; [contradiction|].
  simpl in N. apply NoDup_cons_iff in N. destruct N as [Na Nr].
  simpl. destruct I as [->|I].
  - rewrite String.eqb_refl. f_equal. apply filter_none.
    intros x Hx. apply String.eqb_neq. intros E. apply Na.
    rewrite E. apply in_map, Hx.
  - destruct (String.eqb (Category.id c) (Category.id a)) eqn:E.
    + apply String.eqb_eq in E. exfalso. apply Na. rewrite <- E. apply in_map, I.
    + apply IH; assumption.
Qed.

(** Under the constraints, the join gives one row per task, with the
    task's own category or none. *)
Lemma left_join_one (cs : list Category.t) (t : Task.t) :
  NoDup (map Category.id cs) ->
  (forall k, Task.category_id t = Some k -> exists c, In c cs /\ Category.id c = k) ->
  exists oc, Sql.left_join cs t = [(t, oc)]
             /\ option_map Category.id oc = Task.category_id t.
Proof.
  intros N F. unfold Sql.left_join.
  destruct (Task.category_id t) as [k|] eqn:E.
  - destruct (F k eq_refl) as (c & Ic & <-).
    exists (Some c). simpl Sql.eq_uuid.
    rewrite (filter_ext _ (fun x => String.eqb (Category.id c) (Category.id x)))
      by (intros x; apply holds_Some).
    rewrite (filter_categories_pkey cs c N Ic). split; reflexivity.
  - exists None. rewrite filter_none by reflexivity. split; reflexivity.
Qed.

Lemma left_join_fst (cs : list Category.t) (t : Task.t) (r : Task.t * option Category.t) :
  In r (Sql.left_join cs t) -> fst r = t.
Proof.
  unfold Sql.left_join.
  destruct (filter _ cs) as [|m ms].
  - intros [<-|[]]. reflexivity.
  - intros H. apply in_map_iff in H. destruct H as (c & <- & _). reflexivity.
Qed.

(** Every row the WHERE clause keeps belongs to [user_id]. *)
Lemma get_user_tasks_where_owner (user_id : uuid) (f : option string) (c : option uuid)
    (db_now : datetime) (r : Task.t * option Category.t) :
  Sql.holds (get_user_tasks_where user_id f c db_now r) = true ->
  Task.user_id (fst r) = user_id.
Proof.
  unfold get_user_tasks_where. intros H. apply String.eqb_eq.
  destruct c as [k|]; [rewrite holds_and in H; apply andb_true_iff in H;
                       destruct H as [H _]|];
    (destruct (str_eq f "pending"); [|destruct (str_eq f "completed");
       [|destruct (str_eq f "overdue")]]);
    rewrite ?holds_and in H; rewrite ?andb_true_iff in H;
    simpl Sql.eq_uuid in H; rewrite holds_Some in H; tauto.
Qed.

Lemma selected_tasks (cs : list Category.t) (ts : list Task.t)
    (user_id : uuid) (f : option string) (c : option uuid) (db_now : datetime) :
  NoDup (map Category.id cs) ->
  Forall (fun t => forall k, Task.category_id t = Some k ->
                   exists x, In x cs /\ Category.id x = k) ts ->
  map fst (filter (fun r => Sql.holds (get_user_tasks_where user_id f c db_now r))
                  (flat_map (Sql.left_join cs) ts))
  = filter (Spec.listed user_id f c db_now) ts.
Proof.
  intros N F. induction F as [|t rest Ft Frest IH]; [reflexivity|].
  simpl. rewrite filter_app, map_app, IH.
  destruct (left_join_one cs t N Ft) as (oc & -> & J).
  simpl. rewrite (get_user_tasks_where_listed _ _ _ _ _ _ J).
  destruct (Spec.listed user_id f c db_now t); reflexivity.
Qed.

(** A selection of rows keeps their keys distinct. *)
Lemma pkey_filter {K T : Type} (key : T -> K) (keep : T -> bool) (rows : list T) :
  NoDup (map key rows) -> NoDup (map key (filter keep rows)).
Proof.
  intros N. induction rows as [|x r IH]; simpl; [constructor|].
  simpl in N. apply NoDup_cons_iff in N. destruct N as [Nx Nr].
  destruct (keep x); simpl; [|apply IH, Nr].
  constructor; [|apply IH, Nr].
  intros H. apply Nx. apply in_map_iff in H. destruct H as (y & E & Hy).
  apply filter_In in Hy. rewrite <- E. apply in_map, Hy.
Qed.

Lemma get_user_tasks_reachable (db : database) (user_id : uuid)
    (filter_param category_param : option string) (db_now : datetime) :
  get_user_tasks (Reachable db) user_id filter_param category_param db_now
  = (category <- category_filter category_param ;;
     Ok (map dict_of_row
           (Sql.order_by_desc (fun r => Task.created_at (fst r))
              (filter (fun r => Sql.holds
                         (get_user_tasks_where user_id filter_param category db_now r))
                      (flat_map (Sql.left_join (categories db)) (tasks db)))))).
Proof. reflexivity. Qed.

(** What [if category_param:] and the store make of the query argument. *)
Lemma category_filter_cases (category_param : option string) :
  category_filter category_param
  = match category_param with
    | None | Some "" => Ok None
    | Some k =>
        if Sql.has_nul k then Raise ValueError
        else match Sql.uuid_in k with
             | Ok id => Ok (Some id)
             | Raise e => Raise e
             end
    end.
Proof.
  destruct category_param as [[|c k]|]; try reflexivity.
  unfold category_filter, Sql.adapt_opt, Sql.adapt. cbn [Py.truthy].
  destruct (Sql.has_nul (String c k)); [reflexivity|].
  cbn [Py.bind Sql.uuid_in_opt]. destruct (Sql.uuid_in (String c k)); reflexivity.
Qed.

(** C1. For every owner, status filter and category filter that is
    absent, empty or text that the store reads as a UUID,
    [get_user_tasks] returns exactly the owner's tasks that satisfy the
    filter (pending: not completed; completed: completed; overdue: not
    completed and due before the current time; anything else or none: no
    status restriction), restricted, when a category filter is given (a
    non-empty value), to the tasks whose category id is the id that the
    given text denotes, and the result is in descending order of creation
    time.  For any other category filter the call raises what the
    parameter raised ([ValueError] for a NUL, otherwise the store's
    rejection of the text). *)
Theorem get_user_tasks_lists_selected (db : database) (user_id : uuid)
    (filter_param category_param : option string) (db_now : datetime) :
  db_constraints db ->
  match category_filter category_param with
  | Ok category =>
      exists rows,
        get_user_tasks (Reachable db) user_id filter_param category_param db_now = Ok rows
        /\ Permutation (map row_task rows)
             (filter (Spec.listed user_id filter_param category db_now) (tasks db))
        /\ (forall t, In t (map row_task rows) <->
              In t (tasks db) /\ Task.user_id t = user_id
              /\ Spec.status_selects filter_param db_now t
              /\ Spec.in_category category t)
        /\ NoDup (map Task.id (map row_task rows))
        /\ StronglySorted (fun a b => Task.created_at b <= Task.created_at a)
             (map row_task rows)
  | Raise e =>
      get_user_tasks (Reachable db) user_id filter_param category_param db_now = Raise e
  end.
Proof.
  intros C. rewrite get_user_tasks_reachable.
  destruct (category_filter category_param) as [category|e]; [|reflexivity].
  cbn [Py.bind]. eexists. split; [reflexivity|].
  set (sel := filter _ (flat_map _ (tasks db))).
  assert (M : forall l, map row_task (map dict_of_row l) = map fst l).
  { intros l. rewrite map_map. apply map_ext. reflexivity. }
  rewrite M.
  assert (P : Permutation (map fst (Sql.order_by_desc (fun r => Task.created_at (fst r)) sel))
                (filter (Spec.listed user_id filter_param category db_now) (tasks db))).
  { rewrite <- (selected_tasks (categories db) (tasks db) user_id filter_param
                  category db_now (categories_pkey db C) (tasks_category_fkey db C)).
    apply Permutation_map, order_by_desc_perm. }
  split; [exact P|]. split; [|split].
  - intros t. split.
    + intros H. apply (Permutation_in _ P) in H. apply filter_In in H.
      destruct H as [I L]. apply listed_spec in L. tauto.
    + intros (I & L). apply (Permutation_in _ (Permutation_sym P)).
      apply filter_In. split; [exact I | apply listed_spec; exact L].
  - apply (Permutation_NoDup (Permutation_map Task.id (Permutation_sym P))).
    apply pkey_filter, (tasks_pkey db C).
  - apply StronglySorted_map, order_by_desc_descending.
Qed.


(* ===================================================================== *)
(** ** Statements on the tasks table *)
(* ===================================================================== *)

Lemma filter_all {A : Type} (p : A -> bool) (l : list A) :
  (forall x, In x l -> p x = true) -> filter p l = l.
Proof.
  induction l as [|x r IH]; intros H; simpl; [reflexivity|].
  rewrite (H x (or_introl eq_refl)). f_equal. apply IH.
  intros y Hy. apply H. right; exact Hy.
Qed.

Lemma NoDup_map_inj {A B : Type} (f : A -> B) (l : list A) (x y : A) :
  NoDup (map f l) -> In x l -> In y l -> f x = f y -> x = y.
Proof.
  induction l as [|a r IH]; intros N Hx Hy E; [contradiction|].
  simpl in N. apply NoDup_cons_iff in N. destruct N as [Na Nr].
  destruct Hx as [->|Hx], Hy as [->|Hy].
  - reflexivity.
  - exfalso. apply Na. rewrite E. apply in_map, Hy.
  - exfalso. apply Na. rewrite <- E. apply in_map, Hx.
  - apply IH; assumption.
Qed.

Lemma find_map_same {A : Type} (p : A -> bool) (g : A -> A) (l : list A) :
  (forall x, p (g x) = p x) -> find p (map g l) = option_map g (find p l).
Proof.
  intros H. induction l as [|x r IH]; simpl; [reflexivity|].
  rewrite H. destruct (p x); [reflexivity | exact IH].
Qed.

Lemma filter_map_fixed {A : Type} (p : A -> bool) (g : A -> A) (l : list A) :
  (forall x, In x l -> g x = x \/ (p x = false /\ p (g x) = false)) ->
  filter p (map g l) = filter p l.
Proof.
  induction l as [|x r IH]; intros H; simpl; [reflexivity|].
  rewrite IH by (intros y Hy; apply H; right; exact Hy).
  destruct (H x (or_introl eq_refl)) as [->|[E1 E2]]; [reflexivity|].
  rewrite E1, E2. reflexivity.
Qed.

Lemma select_task_found (db : database) (task_id : Z) (user_id : uuid) (t : Task.t) :
  Sql.select_task db task_id user_id = Some t ->
  In t (tasks db) /\ Task.id t = task_id /\ Task.user_id t = user_id.
Proof.
  unfold Sql.select_task. intros H. apply find_some in H. destruct H as [I H].
  apply andb_true_iff in H. destruct H as [H1 H2].
  apply Z.eqb_eq in H1. apply String.eqb_eq in H2. auto.
Qed.

Lemma select_task_none (db : database) (task_id : Z) (user_id : uuid) :
  Sql.select_task db task_id user_id = None <->
  (forall t, In t (tasks db) -> Task.id t = task_id -> Task.user_id t <> user_id).
Proof.
  unfold Sql.select_task. split.
  - intros H t I E U. pose proof (find_none _ _ H t I) as F. simpl in F.
    rewrite E, U, Z.eqb_refl, String.eqb_refl in F. discriminate.
  - intros H. destruct (find _ (tasks db)) as [t|] eqn:F; [|reflexivity].
    apply select_task_found in F. destruct F as (I & E & U).
    exfalso. exact (H t I E U).
Qed.

(** Under the primary key, a task of the user is the row its id selects. *)
Lemma select_task_owned (db : database) (t : Task.t) :
  NoDup (map Task.id (tasks db)) -> In t (tasks db) ->
  Sql.select_task db (Task.id t) (Task.user_id t) = Some t.
Proof.
  intros N I.
  destruct (Sql.select_task db (Task.id t) (Task.user_id t)) as [t'|] eqn:S.
  - apply select_task_found in S. destruct S as (I' & E & _).
    f_equal. apply (NoDup_map_inj Task.id (tasks db)); assumption.
  - exfalso. exact (proj1 (select_task_none _ _ _) S t I eq_refl eq_refl).
Qed.

(** Under the primary key, a task of another user hides the id from the
    session's user. *)
Lemma select_task_of_other (db : database) (t : Task.t) (user_id : uuid) :
  NoDup (map Task.id (tasks db)) -> In t (tasks db) -> Task.user_id t <> user_id ->
  Sql.select_task db (Task.id t) user_id = None.
Proof.
  intros N I U. apply select_task_none. intros t' I' E U'.
  apply U. rewrite <- U'. f_equal.
  apply (NoDup_map_inj Task.id (tasks db)); auto.
Qed.

Lemma select_task_absent (db : database) (task_id : Z) (user_id : uuid) :
  (forall t, In t (tasks db) -> Task.id t <> task_id) ->
  Sql.select_task db task_id user_id = None.
Proof.
  intros H. apply select_task_none. intros t I E _. exact (H t I E).
Qed.

Lemma select_after_update_completed (db : database) (task_id : Z) (user_id : uuid)
    (t : Task.t) (c : bool) (at_ : option datetime) :
  Sql.select_task db task_id user_id = Some t ->
  Sql.select_task (Sql.update_completed db c at_ task_id) task_id user_id
  = Some (Task.set_completion t c at_).
Proof.
  intros S. pose proof (select_task_found _ _ _ _ S) as (_ & E & _).
  unfold Sql.select_task in *. simpl tasks.
  rewrite find_map_same.
  - rewrite S. simpl. rewrite E, Z.eqb_refl. reflexivity.
  - intros x. destruct (Task.id x =? task_id) eqn:X; [|rewrite X; reflexivity].
    simpl. rewrite X. reflexivity.
Qed.

Lemma delete_task_none (db : database) (task_id : Z) (user_id : uuid) :
  Sql.select_task db task_id user_id = None ->
  Sql.delete_task db task_id user_id = db.
Proof.
  intros S. unfold Sql.delete_task. rewrite filter_all.
  - destruct db; reflexivity.
  - intros x I. unfold Sql.select_task in S.
    rewrite (find_none _ _ S x I). reflexivity.
Qed.

Lemma adapt_Ok (s s' : string) :
  Sql.adapt s = Ok s' -> s' = s /\ Sql.has_nul s = false.
Proof.
  unfold Sql.adapt. destruct (Sql.has_nul s); [discriminate|].
  intros H. injection H as <-. auto.
Qed.

Lemma adapt_clean (s : string) : Sql.has_nul s = false -> Sql.adapt s = Ok s.
Proof. unfold Sql.adapt. intros ->. reflexivity. Qed.

Lemma adapt_opt_Ok (s s' : option string) :
  Sql.adapt_opt s = Ok s' ->
  s' = s /\ forall v, s = Some v -> Sql.has_nul v = false.
Proof.
  destruct s as [v|]; simpl.
  - destruct (Sql.adapt v) as [v'|] eqn:A; [|discriminate].
    apply adapt_Ok in A. destruct A as [-> N].
    intros H. injection H as <-. split; [reflexivity|].
    intros w E. injection E as <-. exact N.
  - intros H. injection H as <-. split; [reflexivity | discriminate].
Qed.

Lemma adapt_opt_clean (s : option string) :
  (forall v, s = Some v -> Sql.has_nul v = false) -> Sql.adapt_opt s = Ok s.
Proof.
  destruct s as [v|]; [|reflexivity].
  intros H. simpl. rewrite (adapt_clean v (H v eq_refl)). reflexivity.
Qed.

Lemma nextval_Ok (db : database) (id : Z) :
  Sql.nextval db = Ok id -> id = tasks_id_seq db /\ tasks_id_seq db <= Sql.serial_max.
Proof.
  unfold Sql.nextval. destruct (tasks_id_seq db <=? Sql.serial_max) eqn:L; [|discriminate].
  intros H. injection H as <-. split; [reflexivity | apply Z.leb_le; exact L].
Qed.

(** The store reads its own form of an id back as the same id. *)
Lemma xdigit_stored (a a' : ascii) : Sql.xdigit a = Some a' -> stored_digit a'.
Proof.
  destruct a as [[] [] [] [] [] [] [] []]; intros H; vm_compute in H;
    try discriminate H; injection H as <-; repeat split; reflexivity.
Qed.

Lemma uuid_digits_stored (n : nat) : forall i src ds rest,
  Sql.uuid_digits n i src = Some (ds, rest) ->
  List.length ds = (2 * n)%nat /\ Forall stored_digit ds.
Proof.
  induction n as [|n IH]; intros i src ds rest; simpl.
  - intros H. injection H as <- _. split; [reflexivity | constructor].
  - destruct src as [|a [|b r]]; try discriminate.
    destruct (Sql.xdigit a) as [a'|] eqn:A; [|discriminate].
    destruct (Sql.xdigit b) as [b'|] eqn:B; [|discriminate].
    destruct (Sql.uuid_digits n (S i) _) as [[ds' tail]|] eqn:D; [|discriminate].
    intros H. injection H as <- _.
    destruct (IH _ _ _ _ D) as [L F]. split; [simpl; lia|].
    constructor; [exact (xdigit_stored _ _ A)|].
    constructor; [exact (xdigit_stored _ _ B) | exact F].
Qed.

Lemma uuid_out_text (ds : list ascii) : forall i,
  Forall stored_digit ds -> Sql.has_nul (Sql.uuid_out i ds) = false.
Proof.
  induction ds as [|d r IH]; intros i F; [reflexivity|].
  apply Forall_cons_iff in F. destruct F as [(_ & _ & _ & Z) F].
  simpl. destruct (_ || _)%bool; simpl; rewrite Z, (IH _ F); reflexivity.
Qed.

Lemma uuid_in_out (ds : list ascii) :
  List.length ds = 32%nat -> Forall stored_digit ds ->
  Sql.uuid_in (Sql.uuid_out 0 ds) = Ok (Sql.uuid_out 0 ds).
Proof.
  intros L F.
  do 32 (destruct ds as [|? ds]; [discriminate L|]).
  destruct ds; [|discriminate L]. clear L.
  repeat match goal with
         | H : Forall _ (_ :: _) |- _ =>
             apply Forall_cons_iff in H; destruct H as [(? & ? & ? & _) H]
         end.
  cbn [Sql.uuid_out Nat.eqb orb].
  unfold Sql.uuid_in.
  repeat progress
    (cbn -[Sql.xdigit Ascii.eqb]; rewrite ?Ascii.eqb_refl;
     repeat match goal with
            | H : Sql.xdigit ?d = Some ?d |- context [Sql.xdigit ?d] => rewrite H
            | H : Ascii.eqb ?d ?c = false |- context [Ascii.eqb ?d ?c] => rewrite H
            end).
  reflexivity.
Qed.

(** An id that the store read from text is in the store's form: without
    NUL, and read back as itself. *)
Lemma uuid_in_stored (s u : string) :
  Sql.uuid_in s = Ok u -> Sql.has_nul u = false /\ Sql.uuid_in u = Ok u.
Proof.
  unfold Sql.uuid_in at 1.
  destruct (Sql.uuid_digits 16 0 _) as [[ds rest]|] eqn:D; [|discriminate].
  apply uuid_digits_stored in D. destruct D as [L F].
  match goal with |- match ?x with _ => _ end = _ -> _ => destruct x as [[|]|] end;
    try discriminate.
  intros H. injection H as <-.
  split; [apply uuid_out_text, F | apply uuid_in_out; assumption].
Qed.

(** What an accepted INSERT stored, and what its parameters passed. *)
Lemma insert_task_Ok (db db' : database) (db_now : datetime) (user_id : uuid)
    (title : string) (description category_id priority : option string)
    (due_date : option datetime) :
  Sql.insert_task db db_now user_id title description category_id priority due_date
  = Ok db' ->
  exists category title' priority',
    Sql.varchar 255 title = Ok title'
    /\ Sql.varchar_opt 20 priority = Ok priority'
    /\ db' = {| users := users db;
                categories := categories db;
                tasks := tasks db ++
                  [ {| Task.id := tasks_id_seq db;
                       Task.user_id := user_id;
                       Task.title := title';
                       Task.description := description;
                       Task.category_id := category;
                       Task.priority := priority';
                       Task.due_date := due_date;
                       Task.completed := false;
                       Task.completed_at := None;
                       Task.created_at := db_now;
                       Task.updated_at := db_now |} ];
                tasks_id_seq := tasks_id_seq db + 1 |}
    /\ Sql.uuid_in_opt category_id = Ok category
    /\ Sql.has_nul title = false
    /\ tasks_id_seq db <= Sql.serial_max
    /\ Sql.references_user db user_id = Ok tt
    /\ Sql.references_category db category = Ok tt.
Proof.
  unfold Sql.insert_task.
  destruct (Sql.adapt title) as [t0|] eqn:A1; [|discriminate].
  apply adapt_Ok in A1. destruct A1 as [-> N]. cbn [Py.bind].
  destruct (Sql.adapt_opt description) as [d0|] eqn:A2; [|discriminate].
  apply adapt_opt_Ok in A2. destruct A2 as [-> _]. cbn [Py.bind].
  destruct (Sql.adapt_opt category_id) as [c0|] eqn:A3; [|discriminate].
  apply adapt_opt_Ok in A3. destruct A3 as [-> _]. cbn [Py.bind].
  destruct (Sql.adapt_opt priority) as [p0|] eqn:A4; [|discriminate].
  apply adapt_opt_Ok in A4. destruct A4 as [-> _]. cbn [Py.bind].
  destruct (Sql.uuid_in_opt category_id) as [category|]; [|discriminate]. cbn [Py.bind].
  destruct (Sql.varchar 255 title) as [title'|]; [|discriminate]. cbn [Py.bind].
  destruct (Sql.varchar_opt 20 priority) as [priority'|]; [|discriminate]. cbn [Py.bind].
  destruct (Sql.nextval db) as [id|] eqn:Nx; [|discriminate].
  apply nextval_Ok in Nx. destruct Nx as [-> L]. cbn [Py.bind].
  destruct (Sql.references_user db user_id) as [u|] eqn:RU; [destruct u|discriminate].
  cbn [Py.bind].
  destruct (Sql.references_category db category) as [u|] eqn:RC; [destruct u|discriminate].
  cbn [Py.bind].
  intros H. injection H as <-. exists category, title', priority'.
  repeat split; assumption || reflexivity.
Qed.

(** What an accepted UPDATE wrote. *)
Lemma update_task_Ok (db db' : database) (db_now : datetime)
    (title : string) (description category_id priority : option string)
    (due_date : option datetime) (task_id : Z) (user_id : uuid) :
  Sql.update_task db db_now title description category_id priority due_date
    task_id user_id = Ok db' ->
  exists category title' priority',
    db' = {| users := users db;
             categories := categories db;
             tasks := map (fun t =>
               if (Task.id t =? task_id) && String.eqb (Task.user_id t) user_id
               then Task.set_fields t title' description category priority'
                      due_date db_now
               else t) (tasks db);
             tasks_id_seq := tasks_id_seq db |}
    /\ Sql.varchar 255 title = Ok title'
    /\ Sql.varchar_opt 20 priority = Ok priority'
    /\ Sql.uuid_in_opt category_id = Ok category
    /\ Sql.has_nul title = false
    /\ (existsb (fun t => (Task.id t =? task_id) && String.eqb (Task.user_id t) user_id)
                (tasks db) = true ->
        Sql.references_category db category = Ok tt).
Proof.
  unfold Sql.update_task.
  destruct (Sql.adapt title) as [t0|] eqn:A1; [|discriminate].
  apply adapt_Ok in A1. destruct A1 as [-> N]. cbn [Py.bind].
  destruct (Sql.adapt_opt description) as [d0|] eqn:A2; [|discriminate].
  apply adapt_opt_Ok in A2. destruct A2 as [-> _]. cbn [Py.bind].
  destruct (Sql.adapt_opt category_id) as [c0|] eqn:A3; [|discriminate].
  apply adapt_opt_Ok in A3. destruct A3 as [-> _]. cbn [Py.bind].
  destruct (Sql.adapt_opt priority) as [p0|] eqn:A4; [|discriminate].
  apply adapt_opt_Ok in A4. destruct A4 as [-> _]. cbn [Py.bind].
  destruct (Sql.uuid_in_opt category_id) as [category|]; [|discriminate]. cbn [Py.bind].
  destruct (Sql.varchar 255 title) as [title'|]; [|discriminate]. cbn [Py.bind].
  destruct (Sql.varchar_opt 20 priority) as [priority'|]; [|discriminate]. cbn [Py.bind].
  destruct (existsb _ (tasks db)) eqn:X.
  - destruct (Sql.references_category db category) as [u|] eqn:RC; [destruct u|discriminate].
    cbn [Py.bind]. intros H. injection H as <-.
    exists category, title', priority'. repeat split; auto.
  - cbn [Py.bind]. intros H. injection H as <-.
    exists category, title', priority'. repeat split; auto. discriminate.
Qed.

(** What a request may leave in the store, view by view. *)
Lemma add_task_Ok (db : database) (sess : session) (req : request) (db_now : datetime)
    (s' : store) (r : reply) :
  add_task (Reachable db) sess req db_now = Ok (s', r) ->
  s' = Reachable db
  \/ exists user_id title description category_id priority due_date db',
       sess = Some user_id
       /\ Sql.insert_task db db_now user_id title description category_id priority
            due_date = Ok db'
       /\ s' = Reachable db'.
Proof.
  unfold add_task, login_required.
  destruct sess as [user_id|]; [|intros H; injection H as <- _; auto].
  cbv zeta. destruct (method req).
  { destruct (render_with_user _ _ _); [|discriminate].
    cbn [Py.bind]. intros H; injection H as <- _; auto. }
  destruct (String.eqb (stripped_title req) "").
  { destruct (render_with_user _ _ _); [|discriminate].
    cbn [Py.bind]. intros H; injection H as <- _; auto. }
  change (cursor (Reachable db)) with (Ok db). cbn [Py.bind].
  destruct (parse_due_date _) as [due_date|]; [|discriminate]. cbn [Py.bind].
  destruct (Sql.insert_task _ _ _ _ _ _ _ _) as [db'|] eqn:I; [|discriminate].
  cbn [Py.bind]. intros H. injection H as <- _. right. eauto 10.
Qed.

Lemma edit_task_Ok (db : database) (sess : session) (req : request) (db_now : datetime)
    (task_id : Z) (s' : store) (r : reply) :
  edit_task (Reachable db) sess req db_now task_id = Ok (s', r) ->
  s' = Reachable db
  \/ exists user_id title description category_id priority due_date db',
       sess = Some user_id
       /\ Sql.update_task db db_now title description category_id priority due_date
            task_id user_id = Ok db'
       /\ s' = Reachable db'.
Proof.
  unfold edit_task, login_required.
  destruct sess as [user_id|]; [|intros H; injection H as <- _; auto].
  cbv zeta. change (cursor (Reachable db)) with (Ok db). cbn [Py.bind].
  destruct (Sql.select_task db task_id user_id);
    [|intros H; injection H as <- _; auto].
  destruct (method req).
  { destruct (render_with_user _ _ _); [|discriminate].
    cbn [Py.bind]. intros H; injection H as <- _; auto. }
  destruct (String.eqb (stripped_title req) "").
  { destruct (render_with_user _ _ _); [|discriminate].
    cbn [Py.bind]. intros H; injection H as <- _; auto. }
  destruct (parse_due_date _) as [due_date|]; [|discriminate]. cbn [Py.bind].
  destruct (Sql.update_task _ _ _ _ _ _ _ _ _) as [db'|] eqn:U; [|discriminate].
  cbn [Py.bind]. intros H. injection H as <- _. right. eauto 10.
Qed.

Lemma toggle_task_Ok (db : database) (sess : session) (req : request) (now : datetime)
    (task_id : Z) (s' : store) (r : reply) :
  toggle_task (Reachable db) sess req now task_id = Ok (s', r) ->
  s' = Reachable db
  \/ exists user_id t,
       sess = Some user_id
       /\ Sql.select_task db task_id user_id = Some t
       /\ s' = Reachable (Sql.update_completed db (negb (Task.completed t))
                            (if Task.completed t then None else Some now) task_id).
Proof.
  unfold toggle_task, login_required.
  destruct sess as [user_id|]; [|intros H; injection H as <- _; auto].
  simpl. destruct (Sql.select_task db task_id user_id) as [t|] eqn:S;
    intros H; injection H as <- _; [|auto].
  right. exists user_id, t. repeat split; auto.
  destruct (Task.completed t); reflexivity.
Qed.

Lemma delete_task_Ok (db : database) (sess : session) (task_id : Z)
    (s' : store) (r : reply) :
  delete_task (Reachable db) sess task_id = Ok (s', r) ->
  s' = Reachable db
  \/ exists user_id, sess = Some user_id
                     /\ s' = Reachable (Sql.delete_task db task_id user_id).
Proof.
  unfold delete_task, login_required.
  destruct sess as [user_id|]; intros H; injection H as <- _; eauto.
Qed.

Lemma duplicate_task_Ok (db : database) (sess : session) (db_now : datetime)
    (task_id : Z) (s' : store) (r : reply) :
  duplicate_task (Reachable db) sess db_now task_id = Ok (s', r) ->
  s' = Reachable db
  \/ exists user_id t db',
       sess = Some user_id
       /\ Sql.select_task db task_id user_id = Some t
       /\ Sql.insert_task db db_now user_id ("Copy of " ++ Task.title t)
            (Task.description t) (Task.category_id t) (Task.priority t)
            (Task.due_date t) = Ok db'
       /\ s' = Reachable db'.
Proof.
  unfold duplicate_task, login_required.
  destruct sess as [user_id|]; [|intros H; injection H as <- _; auto].
  simpl. destruct (Sql.select_task db task_id user_id) as [t|] eqn:S.
  - destruct (Sql.insert_task _ _ _ _ _ _ _ _) as [db'|] eqn:I; [|discriminate].
    simpl. intros H. injection H as <- _. right. eauto 10.
  - simpl. intros H. injection H as <- _. auto.
Qed.

(* ===================================================================== *)
(** ** Completion state *)
(* ===================================================================== *)

Lemma Forall_map_kept {A : Type} (P : A -> Prop) (g : A -> A) (l : list A) :
  (forall x, P x -> P (g x)) -> Forall P l -> Forall P (map g l).
Proof.
  intros H F. induction F as [|x r Px Fr IH]; simpl; constructor; auto.
Qed.

Lemma insert_task_consistent (db db' : database) (db_now : datetime) (user_id : uuid)
    (title : string) (description category_id priority : option string)
    (due_date : option datetime) :
  Sql.insert_task db db_now user_id title description category_id priority due_date
  = Ok db' ->
  exists t, tasks db' = (tasks db ++ [t])%list
            /\ Spec.starts_pending t
            /\ Task.id t = tasks_id_seq db
            /\ Task.user_id t = user_id.
Proof.
  intros H. apply insert_task_Ok in H.
  destruct H as (category & title' & priority' & _ & _ & -> & _).
  eexists. split; [reflexivity|]. repeat split.
Qed.

Lemma update_completed_consistent (db : database) (c : bool) (now : datetime) (task_id : Z) :
  Forall Spec.completion_consistent (tasks db) ->
  Forall Spec.completion_consistent
    (tasks (Sql.update_completed db (negb c) (if c then None else Some now) task_id)).
Proof.
  intros F. simpl. apply Forall_forall. intros x Hx.
  apply in_map_iff in Hx. destruct Hx as (y & <- & Hy).
  destruct (Task.id y =? task_id).
  - unfold Spec.completion_consistent. simpl.
    destruct c; simpl; split; intros; congruence.
  - exact (proj1 (Forall_forall _ _) F y Hy).
Qed.

(** C6. Creation, edit, toggle and duplicate keep every task with
    [completed = false] exactly when [completed_at] is unset: a created or
    duplicated task starts with [completed] false and [completed_at] unset,
    a toggle to complete sets [completed_at] to the current time and a
    toggle to incomplete clears it. *)
Theorem completion_invariant_preserved (db : database) (sess : session) (req : request)
    (now db_now : datetime) (task_id : Z) :
  Forall Spec.completion_consistent (tasks db) ->
  (forall s' r, add_task (Reachable db) sess req db_now = Ok (s', r) ->
                Spec.consistent_store s')
  /\ (forall s' r, edit_task (Reachable db) sess req db_now task_id = Ok (s', r) ->
                   Spec.consistent_store s')
  /\ (forall s' r, toggle_task (Reachable db) sess req now task_id = Ok (s', r) ->
                   Spec.consistent_store s')
  /\ (forall s' r, duplicate_task (Reachable db) sess db_now task_id = Ok (s', r) ->
                   Spec.consistent_store s')
  /\ (forall db' r,
        add_task (Reachable db) sess req db_now = Ok (Reachable db', r)
        \/ duplicate_task (Reachable db) sess db_now task_id = Ok (Reachable db', r) ->
        exists l, tasks db' = (tasks db ++ l)%list /\ Forall Spec.starts_pending l)
  /\ (forall user_id t,
        sess = Some user_id -> Sql.select_task db task_id user_id = Some t ->
        exists db' r,
          toggle_task (Reachable db) sess req now task_id = Ok (Reachable db', r)
          /\ exists t', Sql.select_task db' task_id user_id = Some t'
               /\ Task.completed t' = negb (Task.completed t)
               /\ Task.completed_at t'
                  = (if Task.completed t then None else Some now)).
Proof.
  intros F.
  assert (INS : forall db' u ti d c p due,
             Sql.insert_task db db_now u ti d c p due = Ok db' ->
             Forall Spec.completion_consistent (tasks db')).
  { intros db' u ti d c p due H. apply insert_task_consistent in H.
    destruct H as (t & -> & (C1 & C2) & _).
    apply Forall_app. split; [exact F|]. constructor; [|constructor].
    unfold Spec.completion_consistent. rewrite C1, C2. tauto. }
  split; [|split; [|split; [|split; [|split]]]].
  - intros s' r H. apply add_task_Ok in H.
    destruct H as [->|(u & ti & d & c & p & due & db' & _ & I & ->)]; simpl; eauto.
  - intros s' r H. apply edit_task_Ok in H.
    destruct H as [->|(u & ti & d & c & p & due & db' & _ & U & ->)]; simpl; [exact F|].
    apply update_task_Ok in U. destruct U as (cat & ti' & p' & -> & _). simpl.
    apply Forall_map_kept; [|exact F].
    intros x Px. destruct ((Task.id x =? task_id) && _); exact Px.
  - intros s' r H. apply toggle_task_Ok in H.
    destruct H as [->|(u & t & _ & _ & ->)]; [exact F|].
    apply update_completed_consistent, F.
  - intros s' r H. apply duplicate_task_Ok in H.
    destruct H as [->|(u & t & db' & _ & _ & I & ->)]; simpl; eauto.
  - intros db' r [H|H].
    + apply add_task_Ok in H.
      destruct H as [E|(u & ti & d & c & p & due & db1 & _ & I & E)];
        injection E as ->.
      * exists []. split; [symmetry; apply app_nil_r | constructor].
      * apply insert_task_consistent in I. destruct I as (t & -> & P & _).
        exists [t]. split; [reflexivity | constructor; [exact P | constructor]].
    + apply duplicate_task_Ok in H.
      destruct H as [E|(u & t0 & db1 & _ & _ & I & E)]; injection E as ->.
      * exists []. split; [symmetry; apply app_nil_r | constructor].
      * apply insert_task_consistent in I. destruct I as (t & -> & P & _).
        exists [t]. split; [reflexivity | constructor; [exact P | constructor]].
  - intros user_id t -> S.
    unfold toggle_task, login_required. simpl. rewrite S.
    eexists. eexists. split; [reflexivity|].
    eexists. split; [apply select_after_update_completed, S|].
    simpl. destruct (Task.completed t); split; reflexivity.
Qed.




(* ===================================================================== *)
(** ** Ownership *)
(* ===================================================================== *)

Lemma filter_filter_implied {A : Type} (p q : A -> bool) (l : list A) :
  (forall x, p x = true -> q x = true) -> filter p (filter q l) = filter p l.
Proof.
  intros H. induction l as [|x r IH]; simpl; [reflexivity|].
  destruct (q x) eqn:Q; simpl; [rewrite IH; reflexivity|].
  destruct (p x) eqn:P; [|exact IH].
  apply H in P. congruence.
Qed.

Lemma insert_task_others (db db' : database) (db_now : datetime) (user_id : uuid)
    (title : string) (description : option string) (category_id : option uuid)
    (priority : option string) (due_date : option datetime) :
  Sql.insert_task db db_now user_id title description category_id priority due_date
  = Ok db' ->
  Spec.other_users_tasks user_id db' = Spec.other_users_tasks user_id db.
Proof.
  intros H. apply insert_task_consistent in H. destruct H as (t & E & _ & _ & U).
  unfold Spec.other_users_tasks. rewrite E, filter_app. simpl.
  rewrite U, String.eqb_refl. simpl. apply app_nil_r.
Qed.

(** What each view answers when the id selects no task of the user. *)
Lemma views_not_found (db : database) (user_id : uuid) (task_id : Z) (req : request)
    (now db_now : datetime) :
  Sql.select_task db task_id user_id = None ->
  toggle_task (Reachable db) (Some user_id) req now task_id
  = Ok (Reachable db,
        {| flashed := [];
           body := Redirect (if Py.truthy (referrer req)
                             then match referrer req with Some r => r | None => "" end
                             else url_for_dashboard) |})
  /\ edit_task (Reachable db) (Some user_id) req db_now task_id
     = Ok (Reachable db,
           {| flashed := [("Task not found.", "error")];
              body := Redirect url_for_dashboard |})
  /\ delete_task (Reachable db) (Some user_id) task_id
     = Ok (Reachable db,
           {| flashed := [("Task deleted.", "success")];
              body := Redirect url_for_dashboard |})
  /\ duplicate_task (Reachable db) (Some user_id) db_now task_id
     = Ok (Reachable db,
           {| flashed := [("Task duplicated.", "success")];
              body := Redirect url_for_dashboard |}).
Proof.
  intros S. repeat split.
  - unfold toggle_task, login_required. simpl. rewrite S. reflexivity.
  - unfold edit_task, login_required. simpl. rewrite S. reflexivity.
  - unfold delete_task, login_required. simpl. rewrite (delete_task_none _ _ _ S).
    reflexivity.
  - unfold duplicate_task, login_required. simpl. rewrite S. reflexivity.
Qed.

(** C8. Toggle, edit, delete and duplicate touch only tasks of the
    session's user: aimed at the id of another user's task they leave the
    store as it is and answer exactly as for an id that does not exist, and
    whatever id they are aimed at, the tasks of other users stay as they
    were. *)
Theorem task_mutations_scoped_to_owner (db db0 : database) (user_id : uuid) (t : Task.t)
    (req : request) (now db_now : datetime) :
  NoDup (map Task.id (tasks db)) ->
  In t (tasks db) -> Task.user_id t <> user_id ->
  (forall t0, In t0 (tasks db0) -> Task.id t0 <> Task.id t) ->
  (exists r,
     toggle_task (Reachable db) (Some user_id) req now (Task.id t) = Ok (Reachable db, r)
     /\ toggle_task (Reachable db0) (Some user_id) req now (Task.id t)
        = Ok (Reachable db0, r))
  /\ (exists r,
        edit_task (Reachable db) (Some user_id) req db_now (Task.id t)
        = Ok (Reachable db, r)
        /\ edit_task (Reachable db0) (Some user_id) req db_now (Task.id t)
           = Ok (Reachable db0, r))
  /\ (exists r,
        delete_task (Reachable db) (Some user_id) (Task.id t) = Ok (Reachable db, r)
        /\ delete_task (Reachable db0) (Some user_id) (Task.id t) = Ok (Reachable db0, r))
  /\ (exists r,
        duplicate_task (Reachable db) (Some user_id) db_now (Task.id t)
        = Ok (Reachable db, r)
        /\ duplicate_task (Reachable db0) (Some user_id) db_now (Task.id t)
           = Ok (Reachable db0, r))
  /\ (forall task_id db' r,
        toggle_task (Reachable db) (Some user_id) req now task_id = Ok (Reachable db', r)
        \/ edit_task (Reachable db) (Some user_id) req db_now task_id
           = Ok (Reachable db', r)
        \/ delete_task (Reachable db) (Some user_id) task_id = Ok (Reachable db', r)
        \/ duplicate_task (Reachable db) (Some user_id) db_now task_id
           = Ok (Reachable db', r) ->
        Spec.other_users_tasks user_id db' = Spec.other_users_tasks user_id db).
Proof.
  intros N I U A.
  pose proof (select_task_of_other db t user_id N I U) as S.
  pose proof (select_task_absent db0 (Task.id t) user_id A) as S0.
  destruct (views_not_found db user_id (Task.id t) req now db_now S) as (T & E & D & P).
  destruct (views_not_found db0 user_id (Task.id t) req now db_now S0)
    as (T0 & E0 & D0 & P0).
  split; [eexists; split; [exact T | exact T0]|].
  split; [eexists; split; [exact E | exact E0]|].
  split; [eexists; split; [exact D | exact D0]|].
  split; [eexists; split; [exact P | exact P0]|].
  intros task_id db' r [H|[H|[H|H]]].
  - apply toggle_task_Ok in H.
    destruct H as [X|(u & x & Eu & Sx & X)]; injection X as ->; [reflexivity|].
    injection Eu as <-. apply select_task_found in Sx. destruct Sx as (Ix & Ex & Ux).
    unfold Spec.other_users_tasks. simpl. apply filter_map_fixed.
    intros y Iy. destruct (Task.id y =? task_id) eqn:Y; [right|left; reflexivity].
    apply Z.eqb_eq in Y.
    assert (y = x) as -> by (apply (NoDup_map_inj Task.id (tasks db)); congruence).
    simpl. rewrite Ux, String.eqb_refl. split; reflexivity.
  - apply edit_task_Ok in H.
    destruct H as [X|(u & ti & d & c & p & due & db1 & Eu & Upd & X)];
      injection X as ->; [reflexivity|].
    injection Eu as <-. apply update_task_Ok in Upd. destruct Upd as (cat & ti' & p' & -> & _).
    unfold Spec.other_users_tasks. simpl. apply filter_map_fixed.
    intros y Iy.
    destruct ((Task.id y =? task_id) && String.eqb (Task.user_id y) user_id) eqn:Y;
      [right|left; reflexivity].
    apply andb_true_iff in Y. destruct Y as [_ Y]. simpl. rewrite Y. split; reflexivity.
  - apply delete_task_Ok in H.
    destruct H as [X|(u & Eu & X)]; injection X as ->; [reflexivity|].
    injection Eu as <-. unfold Spec.other_users_tasks. simpl.
    apply filter_filter_implied. intros y Y.
    apply negb_true_iff in Y. rewrite Y, andb_false_r. reflexivity.
  - apply duplicate_task_Ok in H.
    destruct H as [X|(u & x & db1 & Eu & _ & Ins & X)]; injection X as ->; [reflexivity|].
    injection Eu as <-. exact (insert_task_others _ _ _ _ _ _ _ _ _ Ins).
Qed.

(* ===================================================================== *)
(** ** Duplication *)
(* ===================================================================== *)

Lemma varchar_fits (n : nat) (s : string) :
  (String.length s <= n)%nat -> Sql.varchar n s = Ok s.
Proof.
  intros H. unfold Sql.varchar. apply Nat.leb_le in H. rewrite H. reflexivity.
Qed.

(** X9. A stored title and the prefix together must fit the column, and
    the sequence must have a value left: under these conditions the copy
    of a stored row is made as the request says, with the next id of the
    sequence, and the original row is kept. *)
Lemma duplicate_task_copies (db : database) (user_id : uuid) (db_now : datetime)
    (t : Task.t) :
  db_constraints db -> In t (tasks db) -> Task.user_id t = user_id ->
  stored_task t ->
  tasks_id_seq db <= Sql.serial_max ->
  (String.length ("Copy of " ++ Task.title t) <= 255)%nat ->
  let copy :=
    {| Task.id := tasks_id_seq db;
       Task.user_id := user_id;
       Task.title := "Copy of " ++ Task.title t;
       Task.description := Task.description t;
       Task.category_id := Task.category_id t;
       Task.priority := Task.priority t;
       Task.due_date := Task.due_date t;
       Task.completed := false;
       Task.completed_at := None;
       Task.created_at := db_now;
       Task.updated_at := db_now |} in
  exists db',
    duplicate_task (Reachable db) (Some user_id) db_now (Task.id t)
    = Ok (Reachable db',
          {| flashed := [("Task duplicated.", "success")];
             body := Redirect url_for_dashboard |})
    /\ tasks db' = (tasks db ++ [copy])%list
    /\ ~ In (Task.id copy) (map Task.id (tasks db))
    /\ In t (tasks db').
Proof.
  intros C I U St Lseq W copy.
  pose proof (select_task_owned db t (tasks_pkey db C) I) as S. rewrite U in S.
  assert (UC : Sql.uuid_in_opt (Task.category_id t) = Ok (Task.category_id t)).
  { destruct (Task.category_id t) as [k|] eqn:E; [|reflexivity]. simpl.
    rewrite (proj2 (st_category t St k E)). reflexivity. }
  assert (P : Sql.varchar_opt 20 (Task.priority t) = Ok (Task.priority t)).
  { destruct (Task.priority t) as [p|] eqn:E; [|reflexivity]. simpl.
    rewrite varchar_fits; [reflexivity|].
    exact (proj1 (Forall_forall _ _) (tasks_priority_width db C) t I p E). }
  assert (RU : Sql.references_user db user_id = Ok tt).
  { unfold Sql.references_user.
    destruct (proj1 (Forall_forall _ _) (tasks_user_fkey db C) t I) as (u & Iu & Eu).
    replace (existsb _ (users db)) with true; [reflexivity|].
    symmetry. apply existsb_exists. exists u. split; [exact Iu|].
    apply String.eqb_eq. congruence. }
  assert (RC : Sql.references_category db (Task.category_id t) = Ok tt).
  { unfold Sql.references_category. destruct (Task.category_id t) as [k|] eqn:E;
      [|reflexivity].
    destruct (proj1 (Forall_forall _ _) (tasks_category_fkey db C) t I k E)
      as (c & Ic & Ec).
    replace (existsb _ (categories db)) with true; [reflexivity|].
    symmetry. apply existsb_exists. exists c. split; [exact Ic|].
    apply String.eqb_eq. exact Ec. }
  assert (Ins : Sql.insert_task db db_now user_id ("Copy of " ++ Task.title t)
                  (Task.description t) (Task.category_id t) (Task.priority t)
                  (Task.due_date t)
                = Ok {| users := users db; categories := categories db;
                        tasks := tasks db ++ [copy];
                        tasks_id_seq := tasks_id_seq db + 1 |}).
  { unfold Sql.insert_task.
    rewrite (adapt_clean ("Copy of " ++ Task.title t) (st_title t St)). cbn [Py.bind].
    rewrite (adapt_opt_clean _ (st_description t St)). cbn [Py.bind].
    rewrite (adapt_opt_clean (Task.category_id t))
      by (intros k E; exact (proj1 (st_category t St k E))).
    cbn [Py.bind].
    rewrite (adapt_opt_clean _ (st_priority t St)). cbn [Py.bind].
    rewrite UC. cbn [Py.bind]. rewrite (varchar_fits _ _ W). cbn [Py.bind].
    rewrite P. cbn [Py.bind].
    unfold Sql.nextval. rewrite (proj2 (Z.leb_le _ _) Lseq). cbn [Py.bind].
    rewrite RU, RC. reflexivity. }
  eexists. split; [|split; [|split]].
  - unfold duplicate_task, login_required, cursor.
    change (get_db_connection (Reachable db)) with (Some db).
    cbn [Py.bind]. rewrite S, Ins. reflexivity.
  - reflexivity.
  - intros M. apply in_map_iff in M. destruct M as (x & Ex & Ix).
    pose proof (proj1 (Forall_forall _ _) (tasks_seq_ahead db C) x Ix) as L.
    simpl in L, Ex. lia.
  - apply in_or_app. left. exact I.
Qed.

(** C10, where the code departs from it. Duplicating a task whose title
    has 248 characters raises: "Copy of " and the title do not fit the
    VARCHAR(255) column, and no copy is inserted. *)
Theorem duplicate_task_overlong_title_raises :
  In Sample.long_task (tasks Sample.db_with_long_title)
  /\ Task.user_id Sample.long_task = Sample.ada
  /\ String.length (Task.title Sample.long_task) = 248%nat
  /\ duplicate_task (Reachable Sample.db_with_long_title) (Some Sample.ada)
       (Sample.at_ 6 9 0) (Task.id Sample.long_task)
     = Raise StringDataRightTruncation.
Proof.
  split; [simpl; tauto|]. split; [reflexivity|]. split; vm_compute; reflexivity.
Qed.

(* ===================================================================== *)
(** ** The sample store *)
(* ===================================================================== *)

Lemma sample_db_constraints : db_constraints Sample.db.
Proof.
  constructor; simpl.
  - repeat apply Forall_cons; try apply Forall_nil; simpl; lia.
  - repeat apply Forall_cons; try apply Forall_nil; intros p E;
      try discriminate; injection E as <-; simpl; lia.
  - repeat apply NoDup_cons; try apply NoDup_nil; simpl; intuition lia.
  - repeat apply Forall_cons; try apply Forall_nil; simpl; lia.
  - repeat apply NoDup_cons; try apply NoDup_nil; simpl; intuition discriminate.
  - repeat apply Forall_cons; try apply Forall_nil;
      solve [ eexists; split; [left; reflexivity | reflexivity]
            | eexists; split; [right; left; reflexivity | reflexivity] ].
  - repeat apply Forall_cons; try apply Forall_nil; intros k E;
      try discriminate; injection E as <-;
      solve [ eexists; split; [left; reflexivity | reflexivity]
            | eexists; split; [right; left; reflexivity | reflexivity] ].
Defined.

Lemma sample_db_consistent : Forall Spec.completion_consistent (tasks Sample.db).
Proof.
  simpl. repeat apply Forall_cons; try apply Forall_nil;
    unfold Spec.completion_consistent; simpl; split; intros; congruence.
Defined.

Lemma get_user_tasks_lists_selected_witness :
  db_constraints Sample.db
  /\ exists rows,
       get_user_tasks (Reachable Sample.db) Sample.ada (Some "pending")
         (Some "{C0000000-0000-4000-8000-000000000002}") (Sample.at_ 6 0 0) = Ok rows
       /\ Permutation (map row_task rows) [Sample.taxes].
Proof.
  split; [exact sample_db_constraints|].
  destruct (get_user_tasks_lists_selected Sample.db Sample.ada (Some "pending")
              (Some "{C0000000-0000-4000-8000-000000000002}") (Sample.at_ 6 0 0)
              sample_db_constraints)
    as (rows & E & P & _).
  exists rows. split; [exact E | exact P].
Defined.

(** C1 as the specification states it fails: a category filter that is no
    UUID is not answered with a list. *)
Lemma lists_every_category_filter_fails : ~ Spec.lists_every_category_filter.
Proof.
  intros H.
  destruct (H Sample.db Sample.ada None (Some "abc") (Sample.at_ 6 0 0)
              sample_db_constraints) as (rows & E & _).
  discriminate E.
Qed.

Lemma calculate_stats_counts_witness :
  0 < total (stats_of_tasks [Sample.row Sample.report; Sample.row Sample.milk]
              (Sample.at_ 6 0 0))
  /\ completion_rate (stats_of_tasks [Sample.row Sample.report; Sample.row Sample.milk]
                        (Sample.at_ 6 0 0))
     = Py.Float (Py.round1 (Py.truediv 1 2 * Py.float_of_int 100)%float).
Proof.
  split; [reflexivity|].
  exact (proj1 (proj2 (proj2 (proj2 (proj2 (proj2 (proj2
          (calculate_stats_counts [Sample.row Sample.report; Sample.row Sample.milk]
             (Sample.at_ 6 0 0)))))))) eq_refl).
Defined.

Lemma due_notifications_selected_and_ordered_witness :
  In (Sample.row Sample.report)
     (map n_task (notifications_of_tasks
                    [Sample.row Sample.report; Sample.row Sample.taxes]
                    (Sample.at_ 10 0 0))).
Proof.
  apply (proj1 (proj2 (due_notifications_selected_and_ordered
                         [Sample.row Sample.report; Sample.row Sample.taxes]
                         (Sample.at_ 10 0 0)))).
  split; [left; reflexivity|].
  exists (Sample.at_ 10 9 30). split; [reflexivity|]. split; reflexivity || discriminate.
Defined.

Lemma notification_urgency_and_message_witness :
  In (Sample.row Sample.report) [Sample.row Sample.report]
  /\ Task.due_date Sample.report = Some (Sample.at_ 10 9 0 + seconds 1800)
  /\ exists n, In n (notifications_of_tasks [Sample.row Sample.report] (Sample.at_ 10 9 0))
               /\ n_task n = Sample.row Sample.report /\ urgency n = "urgent"
               /\ message n = "Due in 30 minutes".
Proof.
  split; [left; reflexivity|]. split; [reflexivity|].
  apply (proj2 (notification_urgency_and_message [Sample.row Sample.report]
                  (Sample.at_ 10 9 0))).
  - left; reflexivity.
  - reflexivity.
Defined.

Lemma due_in_exactly_24h_notified_witness :
  In (Sample.row Sample.report) [Sample.row Sample.report]
  /\ Task.due_date Sample.report = Some (Sample.at_ 9 9 30 + seconds 86400)
  /\ exists n, In n (notifications_of_tasks [Sample.row Sample.report] (Sample.at_ 9 9 30))
               /\ n_task n = Sample.row Sample.report /\ urgency n = "today"
               /\ message n = "Due today at "
                              ++ strftime_HM (Sample.at_ 9 9 30 + seconds 86400).
Proof.
  split; [left; reflexivity|]. split; [reflexivity|].
  apply (due_in_exactly_24h_notified [Sample.row Sample.report] (Sample.at_ 9 9 30)).
  - left; reflexivity.
  - reflexivity.
Defined.

(** C5 as the specification states it fails: a task due exactly 86400
    seconds ahead is in the notification list. *)
Lemma excluded_at_24h_fails : ~ Spec.excluded_at_24h.
Proof.
  intros H.
  apply (H [Sample.row Sample.report] (Sample.at_ 9 9 30) (Sample.row Sample.report)).
  - left; reflexivity.
  - reflexivity.
  - reflexivity.
  - left; reflexivity.
Qed.

Lemma completion_invariant_preserved_witness :
  Forall Spec.completion_consistent (tasks Sample.db)
  /\ exists db' r,
       toggle_task (Reachable Sample.db) (Some Sample.ada) Sample.get_request
         (Sample.at_ 6 0 0) 1 = Ok (Reachable db', r)
       /\ exists t', Sql.select_task db' 1 Sample.ada = Some t'
            /\ Task.completed t' = true
            /\ Task.completed_at t' = Some (Sample.at_ 6 0 0).
Proof.
  split; [exact sample_db_consistent|].
  destruct (completion_invariant_preserved Sample.db (Some Sample.ada) Sample.get_request
              (Sample.at_ 6 0 0) (Sample.at_ 6 0 0) 1 sample_db_consistent)
    as (_ & _ & _ & _ & _ & H).
  exact (H Sample.ada Sample.report eq_refl eq_refl).
Defined.


Lemma task_mutations_scoped_to_owner_witness :
  NoDup (map Task.id (tasks Sample.db))
  /\ In Sample.call (tasks Sample.db)
  /\ Task.user_id Sample.call <> Sample.ada
  /\ (forall t0, In t0 (tasks Sample.db_without_call) -> Task.id t0 <> Task.id Sample.call)
  /\ exists r,
       delete_task (Reachable Sample.db) (Some Sample.ada) 3 = Ok (Reachable Sample.db, r)
       /\ delete_task (Reachable Sample.db_without_call) (Some Sample.ada) 3
          = Ok (Reachable Sample.db_without_call, r).
Proof.
  assert (N : NoDup (map Task.id (tasks Sample.db)))
    by exact (tasks_pkey _ sample_db_constraints).
  assert (I : In Sample.call (tasks Sample.db)) by (simpl; tauto).
  assert (U : Task.user_id Sample.call <> Sample.ada) by discriminate.
  assert (A : forall t0, In t0 (tasks Sample.db_without_call) ->
                         Task.id t0 <> Task.id Sample.call).
  { intros t0 [<-|[<-|[<-|[]]]]; discriminate. }
  repeat (split; [assumption|]).
  exact (proj1 (proj2 (proj2
           (task_mutations_scoped_to_owner Sample.db Sample.db_without_call Sample.ada
              Sample.call Sample.get_request (Sample.at_ 6 0 0) (Sample.at_ 6 0 0)
              N I U A)))).
Defined.


(* ===================================================================== *)
(** ** The scenarios of the specification, evaluated *)
(* ===================================================================== *)

Example sorted_is_stable :
  Py.sorted fst [(3, "a"); (1, "b"); (3, "c"); (1, "d")]
  = [(1, "b"); (1, "d"); (3, "a"); (3, "c")].
Proof. reflexivity. Qed.

Example round1_third :
  Py.round1 (Py.truediv 1 3 * Py.float_of_int 100)%float = Py.truediv 333 10.
Proof. vm_compute. reflexivity. Qed.

Example round1_two_thirds :
  Py.round1 (Py.truediv 2 3 * Py.float_of_int 100)%float = Py.truediv 667 10.
Proof. vm_compute. reflexivity. Qed.

Example round1_tie :
  Py.round1 (Py.truediv 1 16 * Py.float_of_int 100)%float = Py.truediv 62 10.
Proof. vm_compute. reflexivity. Qed.

Example strftime_example :
  strftime_HM (seconds (86400 * 3 + 9 * 3600 + 5 * 60 + 7)) = "09:05".
Proof. reflexivity. Qed.

Example strip_example : Py.strip "  buy milk  " = "buy milk".
Proof. reflexivity. Qed.

(** Two tasks, one completed: total 2, completed 1, pending 1, rate 50.0. *)
Example stats_two_tasks :
  stats_of_tasks [Sample.row Sample.report; Sample.row Sample.milk] (Sample.at_ 6 0 0)
  = {| total := 2; completed := 1; pending := 1; overdue := 0;
       completion_rate := Py.Float (Py.float_of_int 50) |}.
Proof. vm_compute. reflexivity. Qed.

Example stats_sample :
  calculate_stats (Reachable Sample.db) Sample.ada (Sample.at_ 6 0 0) (Sample.at_ 6 0 0)
  = Ok {| total := 3; completed := 1; pending := 2; overdue := 1;
          completion_rate := Py.Float (Py.truediv 333 10) |}.
Proof. vm_compute. reflexivity. Qed.

(** A task due in 5 hours: 'today', with the due time's clock time. *)
Example due_in_five_hours :
  map (fun n => (urgency n, message n))
      (notifications_of_tasks [Sample.row Sample.report] (Sample.at_ 10 4 30))
  = [("today", "Due today at 09:30")].
Proof. reflexivity. Qed.

Example due_in_thirty_minutes :
  map (fun n => (urgency n, message n))
      (notifications_of_tasks [Sample.row Sample.report] (Sample.at_ 10 9 0))
  = [("urgent", "Due in 30 minutes")].
Proof. reflexivity. Qed.

Example due_one_microsecond_past_24h :
  notifications_of_tasks [Sample.row Sample.report] (Sample.at_ 9 9 30 - 1) = [].
Proof. reflexivity. Qed.

Example add_task_sample :
  exists db' r,
    add_task (Reachable Sample.db) (Some Sample.ada) (Sample.post_request " Pay rent ")
      (Sample.at_ 6 0 0) = Ok (Reachable db', r)
    /\ map Task.title (tasks db')
       = ["Write report"; "Buy milk"; "Call the bank"; "File taxes"; "Pay rent"]
    /\ map Task.id (tasks db') = [1; 2; 3; 4; 5].
Proof. eexists. eexists. split; [reflexivity|]. split; reflexivity. Qed.

Example duplicate_task_sample :
  exists db' r,
    duplicate_task (Reachable Sample.db) (Some Sample.ada) (Sample.at_ 6 0 0) 2
    = Ok (Reachable db', r)
    /\ map (fun t => (Task.id t, Task.title t, Task.completed t, Task.completed_at t))
           (tasks db')
       = [(1, "Write report", false, None);
          (2, "Buy milk", true, Some (Sample.at_ 4 18 0));
          (3, "Call the bank", false, None);
          (4, "File taxes", false, None);
          (5, "Copy of Buy milk", false, None)].
Proof. eexists. eexists. split; reflexivity. Qed.

Example views_need_a_login :
  delete_task (Reachable Sample.db) None 1
  = Ok (Reachable Sample.db,
        {| flashed := [("Please log in to access this page.", "error")];
           body := Redirect url_for_login |}).
Proof. reflexivity. Qed.

Example views_need_the_store :
  toggle_task Unreachable (Some Sample.ada) Sample.get_request (Sample.at_ 6 0 0) 1
  = Raise AttributeError.
Proof. reflexivity. Qed.

(* ===================================================================== *)
(** ** The schema's constraints are kept *)
(* ===================================================================== *)

Lemma substring_prefix_length (n : nat) (s : string) :
  (n <= String.length s)%nat -> String.length (substring 0 n s) = n.
Proof.
  revert s. induction n as [|n IH]; intros s H.
  - destruct s; reflexivity.
  - destruct s as [|c r]; simpl in *; [lia|].
    rewrite IH by lia. reflexivity.
Qed.

Lemma varchar_Ok_width (n : nat) (s s' : string) :
  Sql.varchar n s = Ok s' -> (String.length s' <= n)%nat.
Proof.
  unfold Sql.varchar.
  destruct (String.length s <=? n)%nat eqn:L.
  - intros H. injection H as <-. apply Nat.leb_le, L.
  - apply Nat.leb_gt in L. destruct (Sql.all_spaces _); [|discriminate].
    intros H. injection H as <-. rewrite substring_prefix_length; lia.
Qed.

Lemma varchar_opt_Ok_width (n : nat) (s s' : option string) :
  Sql.varchar_opt n s = Ok s' ->
  forall p, s' = Some p -> (String.length p <= n)%nat.
Proof.
  destruct s as [v|]; simpl.
  - destruct (Sql.varchar n v) as [v'|] eqn:V; [|discriminate].
    simpl. intros H p E. injection H as <-. injection E as <-.
    exact (varchar_Ok_width _ _ _ V).
  - intros H p E. injection H as <-. discriminate.
Qed.

Lemma references_user_Ok (db : database) (u : uuid) (x : unit) :
  Sql.references_user db u = Ok x -> exists w, In w (users db) /\ User.id w = u.
Proof.
  unfold Sql.references_user. destruct (existsb _ (users db)) eqn:E; [|discriminate].
  intros _. apply existsb_exists in E. destruct E as (w & Iw & Ew).
  exists w. split; [exact Iw | apply String.eqb_eq, Ew].
Qed.

Lemma references_category_Ok (db : database) (c : option uuid) (x : unit) :
  Sql.references_category db c = Ok x ->
  forall k, c = Some k -> exists w, In w (categories db) /\ Category.id w = k.
Proof.
  unfold Sql.references_category. destruct c as [k0|]; [|intros _ k E; discriminate].
  destruct (existsb _ (categories db)) eqn:E; [|discriminate].
  intros _ k K. injection K as <-. apply existsb_exists in E.
  destruct E as (w & Iw & Ew). exists w. split; [exact Iw | apply String.eqb_eq, Ew].
Qed.

Lemma insert_task_keeps_constraints (db db' : database) (db_now : datetime)
    (user_id : uuid) (title : string) (description : option string)
    (category_id : option uuid) (priority : option string)
    (due_date : option datetime) :
  db_constraints db ->
  Sql.insert_task db db_now user_id title description category_id priority due_date
  = Ok db' ->
  db_constraints db'.
Proof.
  intros C H. apply insert_task_Ok in H.
  destruct H as (category & title' & priority' & V & P & -> & _ & _ & _ & RU & RC).
  destruct C as [C1 C2 C3 C4 C5 C6 C7].
  constructor; simpl.
  - apply Forall_app. split; [exact C1|]. constructor; [|constructor].
    exact (varchar_Ok_width _ _ _ V).
  - apply Forall_app. split; [exact C2|]. constructor; [|constructor].
    exact (varchar_opt_Ok_width _ _ _ P).
  - rewrite map_app. simpl.
    apply (Permutation_NoDup (Permutation_cons_append _ _)).
    constructor; [|exact C3].
    intros M. apply in_map_iff in M. destruct M as (t & E & I).
    pose proof (proj1 (Forall_forall _ _) C4 t I) as L. simpl in L. lia.
  - apply Forall_app. split.
    + eapply Forall_impl; [|exact C4]. intros t L; simpl in L. lia.
    + constructor; [simpl; lia | constructor].
  - exact C5.
  - apply Forall_app. split; [exact C6|]. constructor; [|constructor].
    exact (references_user_Ok _ _ _ RU).
  - apply Forall_app. split; [exact C7|]. constructor; [|constructor].
    exact (references_category_Ok _ _ _ RC).
Qed.

Lemma update_task_keeps_constraints (db db' : database) (db_now : datetime)
    (title : string) (description : option string) (category_id : option uuid)
    (priority : option string) (due_date : option datetime)
    (task_id : Z) (user_id : uuid) :
  db_constraints db ->
  Sql.update_task db db_now title description category_id priority due_date
    task_id user_id = Ok db' ->
  db_constraints db'.
Proof.
  intros C H. apply update_task_Ok in H.
  destruct H as (category & title' & priority' & -> & V & P & _ & _ & RC).
  destruct C as [C1 C2 C3 C4 C5 C6 C7].
  constructor; simpl.
  - apply Forall_map_kept; [|exact C1]. intros t Ht.
    destruct (_ && _); [exact (varchar_Ok_width _ _ _ V) | exact Ht].
  - apply Forall_map_kept; [|exact C2]. intros t Ht.
    destruct (_ && _); [exact (varchar_opt_Ok_width _ _ _ P) | exact Ht].
  - rewrite map_map.
    rewrite (map_ext _ Task.id); [exact C3|].
    intros t. destruct (_ && _); reflexivity.
  - apply Forall_map_kept; [|exact C4]. intros t Ht.
    destruct (_ && _); exact Ht.
  - exact C5.
  - apply Forall_map_kept; [|exact C6]. intros t Ht.
    destruct (_ && _); exact Ht.
  - apply Forall_forall. intros x Hx. apply in_map_iff in Hx.
    destruct Hx as (t & <- & It).
    destruct ((Task.id t =? task_id) && String.eqb (Task.user_id t) user_id) eqn:M.
    + apply (references_category_Ok db category tt), RC.
      apply existsb_exists. exists t. split; [exact It | exact M].
    + exact (proj1 (Forall_forall _ _) C7 t It).
Qed.

Lemma update_completed_keeps_constraints (db : database) (c : bool)
    (at_ : option datetime) (task_id : Z) :
  db_constraints db -> db_constraints (Sql.update_completed db c at_ task_id).
Proof.
  intros [C1 C2 C3 C4 C5 C6 C7].
  constructor; simpl; try exact C5;
    try (apply Forall_map_kept; [|assumption]; intros t Ht;
         destruct (Task.id t =? task_id); exact Ht).
  rewrite map_map. rewrite (map_ext _ Task.id); [exact C3|].
  intros t. destruct (Task.id t =? task_id); reflexivity.
Qed.

Lemma Forall_filter_kept {A : Type} (P : A -> Prop) (p : A -> bool) (l : list A) :
  Forall P l -> Forall P (filter p l).
Proof.
  intros F. apply Forall_forall. intros x H. apply filter_In in H.
  exact (proj1 (Forall_forall _ _) F x (proj1 H)).
Qed.

Lemma delete_task_keeps_constraints (db : database) (task_id : Z) (user_id : uuid) :
  db_constraints db -> db_constraints (Sql.delete_task db task_id user_id).
Proof.
  intros [C1 C2 C3 C4 C5 C6 C7].
  constructor; simpl; try exact C5; try (apply Forall_filter_kept; assumption).
  apply pkey_filter, C3.
Qed.

(** X1. A store that meets the schema's constraints still meets them after
    any task view: the five views never commit a duplicate id, an id at or
    above the sequence, an over-wide title or priority, or a dangling owner
    or category. *)
Theorem task_views_keep_constraints (db db' : database) (sess : session) (req : request)
    (now db_now : datetime) (task_id : Z) (r : reply) :
  db_constraints db ->
  add_task (Reachable db) sess req db_now = Ok (Reachable db', r)
  \/ edit_task (Reachable db) sess req db_now task_id = Ok (Reachable db', r)
  \/ toggle_task (Reachable db) sess req now task_id = Ok (Reachable db', r)
  \/ delete_task (Reachable db) sess task_id = Ok (Reachable db', r)
  \/ duplicate_task (Reachable db) sess db_now task_id = Ok (Reachable db', r) ->
  db_constraints db'.
Proof.
  intros C [H|[H|[H|[H|H]]]].
  - apply add_task_Ok in H.
    destruct H as [E|(u & ti & d & c & p & due & db1 & _ & I & E)];
      injection E as ->; [exact C|].
    exact (insert_task_keeps_constraints _ _ _ _ _ _ _ _ _ C I).
  - apply edit_task_Ok in H.
    destruct H as [E|(u & ti & d & c & p & due & db1 & _ & U & E)];
      injection E as ->; [exact C|].
    exact (update_task_keeps_constraints _ _ _ _ _ _ _ _ _ _ C U).
  - apply toggle_task_Ok in H.
    destruct H as [E|(u & t & _ & _ & E)]; injection E as ->; [exact C|].
    apply update_completed_keeps_constraints, C.
  - apply delete_task_Ok in H.
    destruct H as [E|(u & _ & E)]; injection E as ->; [exact C|].
    apply delete_task_keeps_constraints, C.
  - apply duplicate_task_Ok in H.
    destruct H as [E|(u & t & db1 & _ & _ & I & E)]; injection E as ->; [exact C|].
    exact (insert_task_keeps_constraints _ _ _ _ _ _ _ _ _ C I).
Qed.

Lemma has_nul_prefix (n : nat) : forall s,
  Sql.has_nul s = false -> Sql.has_nul (substring 0 n s) = false.
Proof.
  induction n as [|n IH]; intros [|c r] H; try reflexivity.
  simpl in *. apply orb_false_iff in H. destruct H as [Hc Hr].
  rewrite Hc, (IH r Hr). reflexivity.
Qed.

Lemma varchar_text (n : nat) (s s' : string) :
  Sql.varchar n s = Ok s' -> Sql.has_nul s = false -> Sql.has_nul s' = false.
Proof.
  unfold Sql.varchar. destruct (String.length s <=? n)%nat.
  - intros H N. injection H as <-. exact N.
  - destruct (Sql.all_spaces _); [|discriminate].
    intros H N. injection H as <-. apply has_nul_prefix, N.
Qed.

Lemma varchar_opt_text (n : nat) (s s' : option string) :
  Sql.varchar_opt n s = Ok s' ->
  (forall v, s = Some v -> Sql.has_nul v = false) ->
  forall v, s' = Some v -> Sql.has_nul v = false.
Proof.
  destruct s as [w|]; simpl.
  - destruct (Sql.varchar n w) as [w'|] eqn:V; [|discriminate].
    simpl. intros H N v E. injection H as <-. injection E as <-.
    exact (varchar_text _ _ _ V (N w eq_refl)).
  - intros H _ v E. injection H as <-. discriminate.
Qed.

Lemma uuid_in_opt_stored (s c : option string) :
  Sql.uuid_in_opt s = Ok c ->
  forall k, c = Some k -> Sql.has_nul k = false /\ Sql.uuid_in k = Ok k.
Proof.
  destruct s as [v|]; simpl.
  - destruct (Sql.uuid_in v) as [u|] eqn:U; [|discriminate].
    simpl. intros H k E. injection H as <-. injection E as <-.
    exact (uuid_in_stored _ _ U).
  - intros H k E. injection H as <-. discriminate.
Qed.

(** What the parameters of an accepted INSERT or UPDATE put into a row. *)
Lemma accepted_texts (title : string) (description category_id priority : option string)
    (title' : string) (category priority' : option string) :
  Sql.has_nul title = false ->
  (forall v, description = Some v -> Sql.has_nul v = false) ->
  (forall v, priority = Some v -> Sql.has_nul v = false) ->
  Sql.uuid_in_opt category_id = Ok category ->
  Sql.varchar 255 title = Ok title' ->
  Sql.varchar_opt 20 priority = Ok priority' ->
  forall t, Task.title t = title' -> Task.description t = description ->
            Task.category_id t = category -> Task.priority t = priority' ->
            stored_task t.
Proof.
  intros N1 N2 N4 UC V P t E1 E2 E3 E4. constructor.
  - rewrite E1. exact (varchar_text _ _ _ V N1).
  - rewrite E2. exact N2.
  - rewrite E4. exact (varchar_opt_text _ _ _ P N4).
  - rewrite E3. exact (uuid_in_opt_stored _ _ UC).
Qed.

Lemma insert_task_stored (db db' : database) (db_now : datetime) (user_id : uuid)
    (title : string) (description category_id priority : option string)
    (due_date : option datetime) :
  Sql.insert_task db db_now user_id title description category_id priority due_date
  = Ok db' ->
  exists t, tasks db' = (tasks db ++ [t])%list /\ stored_task t.
Proof.
  unfold Sql.insert_task.
  destruct (Sql.adapt title) as [t0|] eqn:A1; [|discriminate].
  apply adapt_Ok in A1. destruct A1 as [-> N1]. cbn [Py.bind].
  destruct (Sql.adapt_opt description) as [d0|] eqn:A2; [|discriminate].
  apply adapt_opt_Ok in A2. destruct A2 as [-> N2]. cbn [Py.bind].
  destruct (Sql.adapt_opt category_id) as [c0|] eqn:A3; [|discriminate].
  apply adapt_opt_Ok in A3. destruct A3 as [-> _]. cbn [Py.bind].
  destruct (Sql.adapt_opt priority) as [p0|] eqn:A4; [|discriminate].
  apply adapt_opt_Ok in A4. destruct A4 as [-> N4]. cbn [Py.bind].
  destruct (Sql.uuid_in_opt category_id) as [category|] eqn:UC; [|discriminate].
  cbn [Py.bind].
  destruct (Sql.varchar 255 title) as [title'|] eqn:V; [|discriminate]. cbn [Py.bind].
  destruct (Sql.varchar_opt 20 priority) as [priority'|] eqn:P; [|discriminate].
  cbn [Py.bind].
  destruct (Sql.nextval db) as [id|]; [|discriminate]. cbn [Py.bind].
  destruct (Sql.references_user db user_id); [|discriminate]. cbn [Py.bind].
  destruct (Sql.references_category db category); [|discriminate]. cbn [Py.bind].
  intros H. injection H as <-. eexists. split; [reflexivity|].
  apply (accepted_texts title description category_id priority title' category priority'
           N1 N2 N4 UC V P); reflexivity.
Qed.

Lemma update_task_stored (db db' : database) (db_now : datetime)
    (title : string) (description category_id priority : option string)
    (due_date : option datetime) (task_id : Z) (user_id : uuid) :
  Forall stored_task (tasks db) ->
  Sql.update_task db db_now title description category_id priority due_date
    task_id user_id = Ok db' ->
  Forall stored_task (tasks db').
Proof.
  intros F. unfold Sql.update_task.
  destruct (Sql.adapt title) as [t0|] eqn:A1; [|discriminate].
  apply adapt_Ok in A1. destruct A1 as [-> N1]. cbn [Py.bind].
  destruct (Sql.adapt_opt description) as [d0|] eqn:A2; [|discriminate].
  apply adapt_opt_Ok in A2. destruct A2 as [-> N2]. cbn [Py.bind].
  destruct (Sql.adapt_opt category_id) as [c0|] eqn:A3; [|discriminate].
  apply adapt_opt_Ok in A3. destruct A3 as [-> _]. cbn [Py.bind].
  destruct (Sql.adapt_opt priority) as [p0|] eqn:A4; [|discriminate].
  apply adapt_opt_Ok in A4. destruct A4 as [-> N4]. cbn [Py.bind].
  destruct (Sql.uuid_in_opt category_id) as [category|] eqn:UC; [|discriminate].
  cbn [Py.bind].
  destruct (Sql.varchar 255 title) as [title'|] eqn:V; [|discriminate]. cbn [Py.bind].
  destruct (Sql.varchar_opt 20 priority) as [priority'|] eqn:P; [|discriminate].
  cbn [Py.bind].
  destruct (if existsb _ (tasks db) then _ else _); [|discriminate]. cbn [Py.bind].
  intros H. injection H as <-. cbn [tasks].
  apply Forall_map_kept; [|exact F]. intros t St.
  destruct (_ && _); [|exact St].
  apply (accepted_texts title description category_id priority title' category priority'
           N1 N2 N4 UC V P); reflexivity.
Qed.

(** X22. The rows that the task views leave in the store are rows as the
    store holds them: a store whose task rows have no NUL in title,
    description and priority and carry their category id in the store's
    own form still has only such rows after any accepted add, edit,
    toggle, delete or duplicate; the ids that add and edit take from the
    form are stored in that form whatever spelling the form used. *)
Theorem task_views_keep_rows_stored (db db' : database) (sess : session) (req : request)
    (now db_now : datetime) (task_id : Z) (r : reply) :
  Forall stored_task (tasks db) ->
  add_task (Reachable db) sess req db_now = Ok (Reachable db', r)
  \/ edit_task (Reachable db) sess req db_now task_id = Ok (Reachable db', r)
  \/ toggle_task (Reachable db) sess req now task_id = Ok (Reachable db', r)
  \/ delete_task (Reachable db) sess task_id = Ok (Reachable db', r)
  \/ duplicate_task (Reachable db) sess db_now task_id = Ok (Reachable db', r) ->
  Forall stored_task (tasks db').
Proof.
  intros F [H|[H|[H|[H|H]]]].
  - apply add_task_Ok in H.
    destruct H as [E|(u & ti & d & c & p & due & db1 & _ & I & E)];
      injection E as ->; [exact F|].
    apply insert_task_stored in I. destruct I as (t & -> & St).
    apply Forall_app. split; [exact F | constructor; [exact St | constructor]].
  - apply edit_task_Ok in H.
    destruct H as [E|(u & ti & d & c & p & due & db1 & _ & U & E)];
      injection E as ->; [exact F|].
    exact (update_task_stored _ _ _ _ _ _ _ _ _ _ F U).
  - apply toggle_task_Ok in H.
    destruct H as [E|(u & t & _ & _ & E)]; injection E as ->; [exact F|].
    cbn [tasks Sql.update_completed]. apply Forall_map_kept; [|exact F].
    intros x [S1 S2 S3 S4]. destruct (Task.id x =? task_id); constructor; assumption.
  - apply delete_task_Ok in H.
    destruct H as [E|(u & _ & E)]; injection E as ->; [exact F|].
    cbn [tasks Sql.delete_task]. apply Forall_filter_kept, F.
  - apply duplicate_task_Ok in H.
    destruct H as [E|(u & t & db1 & _ & _ & I & E)]; injection E as ->; [exact F|].
    apply insert_task_stored in I. destruct I as (t' & -> & St).
    apply Forall_app. split; [exact F | constructor; [exact St | constructor]].
Qed.

(* ===================================================================== *)
(** ** Titles *)
(* ===================================================================== *)

Lemma lstrip_blank (s : string) : Py.lstrip s = "" <-> blank s = true.
Proof.
  induction s as [|c r IH]; simpl; [tauto|].
  destruct (Py.isspace c); simpl; [exact IH|].
  split; discriminate.
Qed.

Lemma rstrip_empty (s : string) : Py.rstrip s = "" <-> blank s = true.
Proof.
  induction s as [|c r IH]; simpl; [tauto|].
  destruct (Py.rstrip r) as [|c' r'] eqn:R.
  - destruct (Py.isspace c); simpl.
    + split; [intros _; apply IH; reflexivity | reflexivity].
    + split; discriminate.
  - split; [discriminate|].
    intros H. apply andb_true_iff in H. destruct H as [_ H].
    apply IH in H. discriminate.
Qed.

Lemma blank_lstrip (s : string) : blank (Py.lstrip s) = true -> blank s = true.
Proof.
  induction s as [|c r IH]; simpl; [tauto|].
  destruct (Py.isspace c) eqn:W; simpl; [exact IH|].
  rewrite W. discriminate.
Qed.

(** The title test of [add_task] and [edit_task] fails exactly on a blank
    title. *)
Lemma strip_empty (s : string) : Py.strip s = "" <-> blank s = true.
Proof.
  unfold Py.strip. rewrite rstrip_empty. split.
  - apply blank_lstrip.
  - intros H. apply lstrip_blank in H. rewrite H. reflexivity.
Qed.

Lemma lstrip_first (s : string) (c : ascii) :
  first_char (Py.lstrip s) = Some c -> Py.isspace c = false.
Proof.
  induction s as [|a r IH]; simpl; [discriminate|].
  destruct (Py.isspace a) eqn:W; [exact IH|].
  simpl. intros H. injection H as <-. exact W.
Qed.

Lemma rstrip_first (s : string) (c : ascii) :
  first_char s = Some c -> Py.isspace c = false -> first_char (Py.rstrip s) = Some c.
Proof.
  destruct s as [|a r]; simpl; [discriminate|].
  intros H W. injection H as ->.
  destruct (Py.rstrip r); [rewrite W|]; reflexivity.
Qed.

Lemma rstrip_last (s : string) (c : ascii) :
  last_char (Py.rstrip s) = Some c -> Py.isspace c = false.
Proof.
  induction s as [|a r IH]; simpl; [discriminate|].
  destruct (Py.rstrip r) as [|a' r'] eqn:R.
  - destruct (Py.isspace a) eqn:W; simpl; [discriminate|].
    intros H. injection H as <-. exact W.
  - exact IH.
Qed.

Lemma strip_ends (s : string) :
  (forall c, first_char (Py.strip s) = Some c -> Py.isspace c = false)
  /\ (forall c, last_char (Py.strip s) = Some c -> Py.isspace c = false).
Proof.
  unfold Py.strip. split; [|apply rstrip_last].
  intros c H.
  destruct (first_char (Py.lstrip s)) as [a|] eqn:F.
  - pose proof (lstrip_first s a F) as W.
    rewrite (rstrip_first _ _ F W) in H. injection H as <-. exact W.
  - destruct (Py.lstrip s); [discriminate H | discriminate F].
Qed.

Lemma all_spaces_last (s : string) (c : ascii) :
  Sql.all_spaces s = true -> last_char s = Some c -> c = " "%char.
Proof.
  induction s as [|a r IH]; simpl; [discriminate|].
  intros H L. apply andb_true_iff in H. destruct H as [Ha Hr].
  destruct r as [|b r'].
  - injection L as <-. apply Ascii.eqb_eq, Ha.
  - exact (IH Hr L).
Qed.

Lemma last_char_suffix (n : nat) (s : string) :
  (n < String.length s)%nat ->
  last_char (substring n (String.length s - n) s) = last_char s.
Proof.
  revert s. induction n as [|n IH]; intros s H.
  - rewrite Nat.sub_0_r. clear H.
    induction s as [|a r IHr]; [reflexivity|].
    simpl String.length. simpl substring.
    destruct r as [|b r']; [reflexivity|].
    change (last_char (String a (substring 0 (String.length (String b r')) (String b r')))
            = last_char (String b r')).
    rewrite <- IHr.
    destruct (substring 0 (String.length (String b r')) (String b r')) eqn:E;
      [discriminate E | reflexivity].
  - destruct s as [|a r]; simpl in H; [lia|].
    simpl String.length. simpl substring.
    change (S (String.length r) - S n)%nat with (String.length r - n)%nat.
    rewrite IH by lia.
    destruct r; [simpl in H; lia | reflexivity].
Qed.

(** A stripped title is stored whole or not at all: VARCHAR never cuts
    it. *)
Lemma varchar_stripped (n : nat) (s s' : string) :
  Sql.varchar n (Py.strip s) = Ok s' -> s' = Py.strip s.
Proof.
  unfold Sql.varchar.
  destruct (String.length (Py.strip s) <=? n)%nat eqn:L;
    [intros H; injection H as <-; reflexivity|].
  apply Nat.leb_gt in L.
  destruct (Sql.all_spaces _) eqn:A; [|discriminate].
  exfalso.
  destruct (last_char (Py.strip s)) as [c|] eqn:Lc.
  - pose proof (proj2 (strip_ends s) c Lc) as W.
    rewrite <- (last_char_suffix n) in Lc by exact L.
    rewrite (all_spaces_last _ _ A Lc) in W. discriminate.
  - destruct (Py.strip s) as [|a r]; [simpl in L; lia|].
    clear -Lc. revert a Lc. induction r as [|b r IH]; intros a Lc; [discriminate|].
    exact (IH b Lc).
Qed.

Lemma render_with_user_found (u : User.t) (template : string) (task : option Task.t) :
  render_with_user (Some u) template task = Ok (Render template task).
Proof. reflexivity. Qed.

(** X2. A POST whose title is missing or made of whitespace only is turned
    down by [add_task] and by [edit_task] and writes nothing.  When the
    session's user has a row, the message is 'Task title is required' and
    the form is shown again; when it has none, showing the form raises. *)
Theorem blank_title_rejected (db : database) (user_id : uuid) (req : request)
    (db_now : datetime) (task_id : Z) :
  method req = POST ->
  blank (match form_title (form req) with Some v => v | None => "" end) = true ->
  (forall u, get_user_by_id (Reachable db) user_id = Some u ->
     add_task (Reachable db) (Some user_id) req db_now
     = Ok (Reachable db,
           {| flashed := [("Task title is required", "error")];
              body := Render "ADD_TASK_TEMPLATE" None |})
     /\ (forall t, Sql.select_task db task_id user_id = Some t ->
           edit_task (Reachable db) (Some user_id) req db_now task_id
           = Ok (Reachable db,
                 {| flashed := [("Task title is required", "error")];
                    body := Render "EDIT_TASK_TEMPLATE" (Some t) |})))
  /\ (get_user_by_id (Reachable db) user_id = None ->
      add_task (Reachable db) (Some user_id) req db_now = Raise UndefinedError
      /\ (forall t, Sql.select_task db task_id user_id = Some t ->
            edit_task (Reachable db) (Some user_id) req db_now task_id
            = Raise UndefinedError)).
Proof.
  intros M B. apply strip_empty in B.
  assert (A : add_task (Reachable db) (Some user_id) req db_now
              = (page <- render_with_user (get_user_by_id (Reachable db) user_id)
                           "ADD_TASK_TEMPLATE" None ;;
                 Ok (Reachable db,
                     {| flashed := [("Task title is required", "error")];
                        body := page |}))).
  { unfold add_task, login_required. rewrite M.
    unfold stripped_title. rewrite B. reflexivity. }
  assert (E : forall t, Sql.select_task db task_id user_id = Some t ->
              edit_task (Reachable db) (Some user_id) req db_now task_id
              = (page <- render_with_user (get_user_by_id (Reachable db) user_id)
                           "EDIT_TASK_TEMPLATE" (Some t) ;;
                 Ok (Reachable db,
                     {| flashed := [("Task title is required", "error")];
                        body := page |}))).
  { intros t S. unfold edit_task, login_required, cursor.
    change (get_db_connection (Reachable db)) with (Some db).
    cbn [Py.bind]. rewrite S, M. unfold stripped_title. rewrite B. reflexivity. }
  split.
  - intros u U. rewrite A, U. split; [reflexivity|].
    intros t S. rewrite (E t S), U. reflexivity.
  - intros U. rewrite A, U. split; [reflexivity|].
    intros t S. rewrite (E t S), U. reflexivity.
Qed.

Lemma get_user_tasks_rows (db : database) (user_id : uuid) (f : option string)
    (db_now : datetime) :
  db_constraints db ->
  exists rows,
    get_user_tasks (Reachable db) user_id f None db_now = Ok rows
    /\ Permutation (map row_task rows)
         (filter (Spec.listed user_id f None db_now) (tasks db)).
Proof.
  intros C. eexists. split; [reflexivity|].
  rewrite map_map.
  rewrite (map_ext (fun x => row_task (dict_of_row x)) fst) by reflexivity.
  rewrite <- (selected_tasks (categories db) (tasks db) user_id f None db_now
                (categories_pkey db C) (tasks_category_fkey db C)).
  apply Permutation_map, order_by_desc_perm.
Qed.



(* ===================================================================== *)
(** ** Deleting *)
(* ===================================================================== *)

Lemma filter_out_one {A : Type} (key : A -> Z) (l : list A) (t : A) :
  NoDup (map key l) -> In t l ->
  S (List.length (filter (fun x => negb (key x =? key t)) l)) = List.length l.
Proof.
  induction l as [|a r IH]; intros N I; [contradiction|].
  simpl in N. apply NoDup_cons_iff in N. destruct N as [Na Nr].
  simpl. destruct I as [->|I].
  - rewrite Z.eqb_refl. simpl. f_equal. f_equal. apply filter_all.
    intros x Hx. apply negb_true_iff, Z.eqb_neq. intros E. apply Na.
    rewrite <- E. apply in_map, Hx.
  - destruct (key a =? key t) eqn:E.
    + apply Z.eqb_eq in E. exfalso. apply Na. rewrite E. apply in_map, I.
    + simpl. f_equal. apply IH; assumption.
Qed.

(** X4. Deleting a task of the session's user removes that row and no
    other: the other rows stay in their order, the id no longer selects
    anything, and a second delete of the same id changes nothing and gives
    the same answer. *)
Theorem delete_task_removes_own_task (db : database) (user_id : uuid) (t : Task.t) :
  NoDup (map Task.id (tasks db)) -> In t (tasks db) -> Task.user_id t = user_id ->
  exists db',
    delete_task (Reachable db) (Some user_id) (Task.id t)
    = Ok (Reachable db',
          {| flashed := [("Task deleted.", "success")];
             body := Redirect url_for_dashboard |})
    /\ tasks db' = filter (fun x => negb (Task.id x =? Task.id t)) (tasks db)
    /\ ~ In t (tasks db')
    /\ (forall x, In x (tasks db) -> x <> t -> In x (tasks db'))
    /\ S (List.length (tasks db')) = List.length (tasks db)
    /\ Sql.select_task db' (Task.id t) user_id = None
    /\ delete_task (Reachable db') (Some user_id) (Task.id t)
       = Ok (Reachable db',
             {| flashed := [("Task deleted.", "success")];
                body := Redirect url_for_dashboard |}).
Proof.
  intros N I U.
  assert (F : tasks (Sql.delete_task db (Task.id t) user_id)
              = filter (fun x => negb (Task.id x =? Task.id t)) (tasks db)).
  { simpl. apply filter_ext_in. intros x Ix.
    destruct (Task.id x =? Task.id t) eqn:E; [|reflexivity].
    apply Z.eqb_eq in E.
    rewrite (NoDup_map_inj Task.id (tasks db) x t N Ix I E), U, String.eqb_refl.
    reflexivity. }
  assert (S0 : Sql.select_task (Sql.delete_task db (Task.id t) user_id) (Task.id t) user_id
               = None).
  { apply select_task_absent. intros x Ix. rewrite F in Ix.
    apply filter_In in Ix. destruct Ix as [_ Ix].
    apply negb_true_iff, Z.eqb_neq in Ix. exact Ix. }
  exists (Sql.delete_task db (Task.id t) user_id).
  split; [reflexivity|]. split; [exact F|]. rewrite F. split; [|split; [|split; [|split]]].
  - intros H. apply filter_In in H. destruct H as [_ H].
    rewrite Z.eqb_refl in H. discriminate.
  - intros x Ix D. apply filter_In. split; [exact Ix|].
    apply negb_true_iff, Z.eqb_neq. intros E. apply D.
    exact (NoDup_map_inj Task.id (tasks db) x t N Ix I E).
  - apply filter_out_one; assumption.
  - exact S0.
  - unfold delete_task, login_required, cursor.
    change (get_db_connection (Reachable ?d)) with (Some d). cbn [Py.bind].
    rewrite (delete_task_none _ _ _ S0). reflexivity.
Qed.

(* ===================================================================== *)
(** ** Statistics, further *)
(* ===================================================================== *)

Lemma number_of_split {A : Type} (p : A -> bool) (l : list A) :
  Spec.number_of p l + Spec.number_of (fun x => negb (p x)) l = len l.
Proof.
  unfold len. induction l as [|x r IH]; simpl Spec.number_of; simpl List.length;
    [reflexivity|].
  destruct (p x); simpl negb; lia.
Qed.

Lemma number_of_le {A : Type} (p q : A -> bool) (l : list A) :
  (forall x, p x = true -> q x = true) -> Spec.number_of p l <= Spec.number_of q l.
Proof.
  intros H. induction l as [|x r IH]; simpl; [lia|].
  destruct (p x) eqn:P; [rewrite (H x P); lia|].
  destruct (q x); lia.
Qed.

(** X5. The counts of [calculate_stats] are ordered: 0 <= overdue <=
    pending <= total and 0 <= completed <= total, for every task list; the
    total is zero only for the empty list. *)
Theorem stats_counts_ordered (tasks : list task_row) (now : datetime) :
  let st := stats_of_tasks tasks now in
  0 <= overdue st /\ overdue st <= pending st /\ pending st <= total st
  /\ 0 <= completed st /\ completed st <= total st
  /\ (total st = 0 <-> tasks = []).
Proof.
  cbv zeta. unfold stats_of_tasks; simpl. rewrite !len_filter_number_of.
  pose proof (number_of_split (fun t => Task.completed (row_task t)) tasks) as Sp.
  pose proof (number_of_bounds (fun t => Task.completed (row_task t)) tasks) as B.
  pose proof (number_of_bounds
                (fun t => negb (Task.completed (row_task t))
                          && match Task.due_date (row_task t) with
                             | Some due => due <? now
                             | None => false
                             end) tasks) as B'.
  pose proof (number_of_le
                (fun t => negb (Task.completed (row_task t))
                          && match Task.due_date (row_task t) with
                             | Some due => due <? now
                             | None => false
                             end)
                (fun t => negb (Task.completed (row_task t))) tasks) as L.
  assert (L' := L ltac:(intros x H; apply andb_true_iff in H; tauto)).
  unfold len in *.
  split; [lia|]. split; [lia|]. split; [lia|]. split; [lia|]. split; [lia|].
  split.
  - destruct tasks as [|t rest]; [reflexivity|].
    intros H. simpl in H. discriminate H.
  - intros ->. reflexivity.
Qed.

(* ===================================================================== *)
(** ** Notifications, further *)
(* ===================================================================== *)

(** X6. The notification list is never longer than the task list, and every
    notification has one of two shapes: 'urgent' with "Due in N minutes"
    where 0 <= N <= 59, or 'today' with "Due today at HH:MM" where HH is in
    0..23 and MM in 0..59.  A task due in less than a minute is announced
    as "Due in 0 minutes". *)
Theorem notification_shapes (tasks : list task_row) (now : datetime) :
  (List.length (notifications_of_tasks tasks now) <= List.length tasks)%nat
  /\ (forall n, In n (notifications_of_tasks tasks now) ->
        (urgency n = "urgent"
         /\ exists N, 0 <= N <= 59
                      /\ message n = "Due in " ++ Py.str_of_int N ++ " minutes")
        \/ (urgency n = "today"
            /\ exists h m, 0 <= h <= 23 /\ 0 <= m <= 59
                 /\ message n = "Due today at " ++ two_digits h ++ ":" ++ two_digits m))
  /\ (forall r due, In r tasks -> Task.due_date (row_task r) = Some due ->
        0 < due - now < seconds 60 ->
        exists n, In n (notifications_of_tasks tasks now)
                  /\ n_task n = r /\ message n = "Due in 0 minutes").
Proof.
  split; [|split].
  - rewrite <- (length_map n_task).
    unfold notifications_of_tasks. rewrite notify_loop. simpl.
    rewrite (Permutation_length (Permutation_map n_task (sorted_perm n_due_date _))).
    rewrite notified_tasks. apply filter_length_le.
  - intros n H. apply notifications_of_tasks_In in H.
    destruct H as (r & due & _ & _ & W & ->).
    unfold notification_dict; cbn [urgency message]. unfold urgency_and_message.
    unfold due_within_24h in W. apply andb_true_iff in W. destruct W as [W1 W2].
    apply Z.ltb_lt in W1.
    destruct (under_one_hour (due - now)) eqn:U; cbn [fst snd].
    + left. split; [reflexivity|]. exists (whole_minutes (due - now)).
      split; [|reflexivity].
      unfold under_one_hour in U. apply Z.ltb_lt in U.
      unfold whole_minutes, seconds, usec_per_second in *.
      split; [apply Z.div_pos; lia|].
      assert ((due - now) / (60 * 1000000) < 60); [|lia].
      apply Z.div_lt_upper_bound; lia.
    + right. split; [reflexivity|].
      exists ((due / seconds 3600) mod 24), ((due / seconds 60) mod 60).
      pose proof (Z.mod_pos_bound (due / seconds 3600) 24 ltac:(lia)).
      pose proof (Z.mod_pos_bound (due / seconds 60) 60 ltac:(lia)).
      split; [lia|]. split; [lia|]. reflexivity.
  - intros r due Ir E [D1 D2].
    exists (notification_dict r due (due - now)). split; [|split; [reflexivity|]].
    + apply notifications_of_tasks_In. exists r, due. repeat split; auto.
      unfold due_within_24h, seconds, usec_per_second in *.
      apply andb_true_iff. split; [apply Z.ltb_lt | apply Z.leb_le]; lia.
    + unfold notification_dict; cbn [message]. unfold urgency_and_message.
      unfold under_one_hour, whole_minutes, seconds, usec_per_second in *.
      replace (due - now <? 3600 * 1000000) with true
        by (symmetry; apply Z.ltb_lt; lia).
      cbn [snd]. rewrite (Z.div_small (due - now) (60 * 1000000)) by lia.
      reflexivity.
Qed.

Lemma get_user_tasks_where_pending (user_id : uuid) (c : option uuid) (db_now : datetime)
    (r : Task.t * option Category.t) :
  Sql.holds (get_user_tasks_where user_id (Some "pending") c db_now r) = true ->
  Task.completed (fst r) = false.
Proof.
  unfold get_user_tasks_where. cbn [str_eq]. simpl String.eqb.
  intros H.
  destruct c as [k|]; [rewrite holds_and in H; apply andb_true_iff in H;
                       destruct H as [H _]|];
    rewrite holds_and in H; apply andb_true_iff in H; destruct H as [_ H];
    simpl in H; destruct (Task.completed (fst r)); [discriminate | reflexivity
                                                    | discriminate | reflexivity].
Qed.

Lemma get_user_tasks_rows_In (db : database) (user_id : uuid) (f c : option string)
    (db_now : datetime) (rows : list task_row) (r : task_row) :
  get_user_tasks (Reachable db) user_id f c db_now = Ok rows -> In r rows ->
  In (row_task r) (tasks db)
  /\ Task.user_id (row_task r) = user_id
  /\ (f = Some "pending" -> Task.completed (row_task r) = false).
Proof.
  rewrite get_user_tasks_reachable.
  destruct (category_filter c) as [category|]; [|discriminate].
  cbn [Py.bind]. intros H I. injection H as <-.
  apply in_map_iff in I. destruct I as (jr & <- & I).
  apply (Permutation_in _ (order_by_desc_perm _ _)) in I.
  apply filter_In in I. destruct I as [I W].
  apply in_flat_map in I. destruct I as (t & It & Ij).
  apply left_join_fst in Ij. simpl.
  split; [rewrite Ij; exact It|].
  split; [exact (get_user_tasks_where_owner _ _ _ _ _ W)|].
  intros ->. exact (get_user_tasks_where_pending _ _ _ _ W).
Qed.

(** X7. Whatever the store holds, [get_due_notifications] answers with a
    list and only tasks of the asking user that are not completed and are
    due within the next 24 hours are in it. *)
Theorem due_notifications_own_pending (s : store) (user_id : uuid) (now db_now : datetime) :
  exists ns,
    get_due_notifications s user_id now db_now = Ok ns
    /\ forall n, In n ns ->
         Task.user_id (row_task (n_task n)) = user_id
         /\ Task.completed (row_task (n_task n)) = false
         /\ (exists db, s = Reachable db /\ In (row_task (n_task n)) (tasks db))
         /\ Task.due_date (row_task (n_task n)) = Some (n_due_date n)
         /\ 0 < n_due_date n - now <= seconds 86400.
Proof.
  unfold get_due_notifications.
  destruct s as [db|].
  - destruct (get_user_tasks (Reachable db) user_id (Some "pending") None db_now)
      as [rows|] eqn:G; [|discriminate G].
    simpl. eexists. split; [reflexivity|].
    intros n H. apply notifications_of_tasks_In in H.
    destruct H as (r & due & Ir & E & W & ->). simpl.
    destruct (get_user_tasks_rows_In _ _ _ _ _ _ _ G Ir) as (It & U & P).
    split; [exact U|]. split; [exact (P eq_refl)|].
    split; [exists db; auto|]. split; [exact E|].
    unfold due_within_24h in W. apply andb_true_iff in W. destruct W as [W1 W2].
    apply Z.ltb_lt in W1. apply Z.leb_le in W2.
    unfold seconds, usec_per_second in *. lia.
  - simpl. exists []. split; [reflexivity|]. intros n [].
Qed.

(** X8. With the store out of reach the read helpers answer as for an
    empty account (no user, all counts zero, rate 0, no notification),
    while every task view raises: toggle, delete, duplicate, edit and a
    POST to add-task with a usable title on the missing connection; and
    the add-task form, asked for or shown again for a blank title, in its
    template, which has no user to read. *)
Theorem unreachable_store_behaviour (user_id : uuid) (req : request)
    (now db_now : datetime) (task_id : Z) :
  get_user_by_id Unreachable user_id = None
  /\ calculate_stats Unreachable user_id now db_now
     = Ok {| total := 0; completed := 0; pending := 0; overdue := 0;
             completion_rate := Py.Int 0 |}
  /\ get_due_notifications Unreachable user_id now db_now = Ok []
  /\ toggle_task Unreachable (Some user_id) req now task_id = Raise AttributeError
  /\ delete_task Unreachable (Some user_id) task_id = Raise AttributeError
  /\ duplicate_task Unreachable (Some user_id) db_now task_id = Raise AttributeError
  /\ edit_task Unreachable (Some user_id) req db_now task_id = Raise AttributeError
  /\ (method req = POST ->
      blank (match form_title (form req) with Some v => v | None => "" end) = false ->
      add_task Unreachable (Some user_id) req db_now = Raise AttributeError)
  /\ (method req = GET
      \/ blank (match form_title (form req) with Some v => v | None => "" end) = true ->
      add_task Unreachable (Some user_id) req db_now = Raise UndefinedError).
Proof.
  repeat split.
  - intros M B. unfold add_task, login_required. rewrite M.
    destruct (String.eqb (stripped_title req) "") eqn:E; [|reflexivity].
    apply String.eqb_eq in E. unfold stripped_title in E.
    apply strip_empty in E. congruence.
  - intros [M|B]; unfold add_task, login_required.
    + rewrite M. reflexivity.
    + apply strip_empty in B. unfold stripped_title. rewrite B.
      destruct (method req); reflexivity.
Qed.

(** Without a user in the session no task view is entered: each of the
    five answers with the login redirect and its message, and the store,
    reachable or not, is left as it is. *)
Lemma views_require_login (s : store) (req : request) (now db_now : datetime)
    (task_id : Z) :
  let to_login :=
    Ok (s, {| flashed := [("Please log in to access this page.", "error")];
              body := Redirect url_for_login |}) in
  add_task s None req db_now = to_login
  /\ edit_task s None req db_now task_id = to_login
  /\ toggle_task s None req now task_id = to_login
  /\ delete_task s None task_id = to_login
  /\ duplicate_task s None db_now task_id = to_login.
Proof. repeat split. Qed.

(* ===================================================================== *)
(** ** Statistics and listings agree *)
(* ===================================================================== *)

Lemma number_of_map {A B : Type} (p : B -> bool) (g : A -> B) (l : list A) :
  Spec.number_of p (map g l) = Spec.number_of (fun x => p (g x)) l.
Proof. induction l as [|x r IH]; simpl; [reflexivity | rewrite IH; reflexivity]. Qed.

Lemma number_of_perm {A : Type} (p : A -> bool) (l l' : list A) :
  Permutation l l' -> Spec.number_of p l = Spec.number_of p l'.
Proof. induction 1; simpl; lia. Qed.

Lemma number_of_filter {A : Type} (p q : A -> bool) (l : list A) :
  Spec.number_of q (filter p l) = Spec.number_of (fun x => p x && q x) l.
Proof.
  induction l as [|x r IH]; simpl; [reflexivity|].
  destruct (p x); simpl; rewrite IH; reflexivity.
Qed.

(** The three status filters, as restrictions of the unfiltered clause. *)
Lemma get_user_tasks_where_status (user_id : uuid) (c : option uuid) (db_now : datetime)
    (r : Task.t * option Category.t) :
  let all := Sql.holds (get_user_tasks_where user_id None c db_now r) in
  Sql.holds (get_user_tasks_where user_id (Some "pending") c db_now r)
  = all && negb (Task.completed (fst r))
  /\ Sql.holds (get_user_tasks_where user_id (Some "completed") c db_now r)
     = all && Task.completed (fst r)
  /\ Sql.holds (get_user_tasks_where user_id (Some "overdue") c db_now r)
     = all && (negb (Task.completed (fst r))
               && match Task.due_date (fst r) with
                  | Some due => due <? db_now
                  | None => false
                  end).
Proof.
  cbv zeta. unfold get_user_tasks_where. cbn [str_eq]. simpl String.eqb.
  destruct c as [k|];
    [destruct (Sql.eq_uuid (option_map Category.id (snd r)) (Some k)) as [[]|]|];
    cbn [Sql.eq_uuid Sql.eq_bool]; rewrite ?holds_and, ?holds_Some;
    destruct (String.eqb (Task.user_id (fst r)) user_id), (Task.completed (fst r)),
      (Task.due_date (fst r)) as [due|];
    cbn [Sql.lt Bool.eqb]; rewrite ?holds_Some;
    cbn [Sql.holds andb negb]; repeat split; try reflexivity;
    try (destruct (_ <? db_now); reflexivity).
Qed.

Lemma get_user_tasks_count (db : database) (user_id : uuid) (f : option string)
    (db_now : datetime) (p : task_row -> bool) :
  exists rows,
    get_user_tasks (Reachable db) user_id f None db_now = Ok rows
    /\ Spec.number_of p rows
       = Spec.number_of
           (fun r => Sql.holds (get_user_tasks_where user_id f None db_now r)
                     && p (dict_of_row r))
           (flat_map (Sql.left_join (categories db)) (tasks db)).
Proof.
  eexists. split; [reflexivity|].
  rewrite number_of_map.
  rewrite (number_of_perm _ _ _ (order_by_desc_perm _ _)).
  apply number_of_filter.
Qed.

Lemma len_number_of {A : Type} (l : list A) : len l = Spec.number_of (fun _ => true) l.
Proof.
  rewrite <- (len_filter_number_of (fun _ => true) l).
  rewrite filter_all by reflexivity. reflexivity.
Qed.

(** X10. The four numbers of [calculate_stats] are the lengths of the four
    listings of [get_user_tasks] (unfiltered, 'pending', 'completed',
    'overdue') taken on the same store at the same time, whatever the
    store holds. *)
Theorem stats_agree_with_listings (s : store) (user_id : uuid) (now : datetime) :
  exists st every pend comp over,
    calculate_stats s user_id now now = Ok st
    /\ get_user_tasks s user_id None None now = Ok every
    /\ get_user_tasks s user_id (Some "pending") None now = Ok pend
    /\ get_user_tasks s user_id (Some "completed") None now = Ok comp
    /\ get_user_tasks s user_id (Some "overdue") None now = Ok over
    /\ total st = len every
    /\ pending st = len pend
    /\ completed st = len comp
    /\ overdue st = len over.
Proof.
  destruct s as [db|].
  2:{ exists (stats_of_tasks [] now), [], [], [], []. repeat split. }
  set (J := flat_map (Sql.left_join (categories db)) (tasks db)).
  destruct (get_user_tasks_count db user_id None now
              (fun t => Task.completed (row_task t))) as (every & Ge & Nc).
  destruct (get_user_tasks_count db user_id None now (fun _ => true))
    as (every1 & Ge1 & Na).
  destruct (get_user_tasks_count db user_id None now
              (fun t => negb (Task.completed (row_task t))
                        && match Task.due_date (row_task t) with
                           | Some due => due <? now
                           | None => false
                           end)) as (every2 & Ge2 & No).
  destruct (get_user_tasks_count db user_id (Some "pending") now (fun _ => true))
    as (pend & Gp & Np).
  destruct (get_user_tasks_count db user_id (Some "completed") now (fun _ => true))
    as (comp & Gc & Ncomp).
  destruct (get_user_tasks_count db user_id (Some "overdue") now (fun _ => true))
    as (over & Go & Nover).
  rewrite Ge in Ge1, Ge2. injection Ge1 as <-. injection Ge2 as <-.
  fold J in Nc, Na, No, Np, Ncomp, Nover.
  exists (stats_of_tasks every now), every, pend, comp, over.
  split; [unfold calculate_stats; rewrite Ge; reflexivity|].
  split; [exact Ge|]. split; [exact Gp|]. split; [exact Gc|]. split; [exact Go|].
  unfold stats_of_tasks; cbn [total pending completed overdue].
  rewrite !len_filter_number_of, (len_number_of pend), (len_number_of comp),
    (len_number_of over), Np, Ncomp, Nover, Nc, No.
  assert (Ec : Spec.number_of
                 (fun r => Sql.holds (get_user_tasks_where user_id (Some "completed") None now r)
                           && true) J
               = Spec.number_of
                   (fun r => Sql.holds (get_user_tasks_where user_id None None now r)
                             && Task.completed (row_task (dict_of_row r))) J).
  { apply number_of_ext. intros r.
    rewrite (proj1 (proj2 (get_user_tasks_where_status user_id None now r))).
    rewrite andb_true_r. reflexivity. }
  assert (Ep : Spec.number_of
                 (fun r => Sql.holds (get_user_tasks_where user_id (Some "pending") None now r)
                           && true) J
               = Spec.number_of
                   (fun r => negb (Sql.holds (get_user_tasks_where user_id None None now r)
                                   && Task.completed (row_task (dict_of_row r)))
                             && (Sql.holds (get_user_tasks_where user_id None None now r)
                                 && true)) J).
  { apply number_of_ext. intros r.
    rewrite (proj1 (get_user_tasks_where_status user_id None now r)).
    simpl row_task. destruct (Sql.holds _), (Task.completed (fst r)); reflexivity. }
  assert (Eo : Spec.number_of
                 (fun r => Sql.holds (get_user_tasks_where user_id (Some "overdue") None now r)
                           && true) J
               = Spec.number_of
                   (fun r => Sql.holds (get_user_tasks_where user_id None None now r)
                             && (negb (Task.completed (row_task (dict_of_row r)))
                                 && match Task.due_date (row_task (dict_of_row r)) with
                                    | Some due => due <? now
                                    | None => false
                                    end)) J).
  { apply number_of_ext. intros r.
    rewrite (proj2 (proj2 (get_user_tasks_where_status user_id None now r))).
    rewrite andb_true_r. reflexivity. }
  rewrite Ec, Eo, Ep.
  split; [reflexivity|]. split; [|split; reflexivity].
  rewrite (len_number_of every), Na.
  pose proof (number_of_split
                (fun r => Sql.holds (get_user_tasks_where user_id None None now r)
                          && Task.completed (row_task (dict_of_row r)))
                (filter (fun r => Sql.holds (get_user_tasks_where user_id None None now r)
                                  && true) J)) as Sp.
  rewrite !number_of_filter, len_number_of, number_of_filter in Sp.
  rewrite (number_of_ext
             (fun x => Sql.holds (get_user_tasks_where user_id None None now x) && true
                       && (Sql.holds (get_user_tasks_where user_id None None now x)
                           && Task.completed (row_task (dict_of_row x))))
             (fun r => Sql.holds (get_user_tasks_where user_id None None now r)
                       && Task.completed (row_task (dict_of_row r)))) in Sp
    by (intros x; destruct (Sql.holds _); reflexivity).
  rewrite (number_of_ext
             (fun x => Sql.holds (get_user_tasks_where user_id None None now x) && true
                       && negb (Sql.holds (get_user_tasks_where user_id None None now x)
                                && Task.completed (row_task (dict_of_row x))))
             (fun r => negb (Sql.holds (get_user_tasks_where user_id None None now r)
                             && Task.completed (row_task (dict_of_row r)))
                       && (Sql.holds (get_user_tasks_where user_id None None now r)
                           && true))) in Sp
    by (intros x; destruct (Sql.holds _), (Task.completed _); reflexivity).
  rewrite (number_of_ext
             (fun x => Sql.holds (get_user_tasks_where user_id None None now x) && true
                       && true)
             (fun r => Sql.holds (get_user_tasks_where user_id None None now r)
                       && true)) in Sp
    by (intros x; destruct (Sql.holds _); reflexivity).
  lia.
Qed.

(* ===================================================================== *)
(** ** Editing and toggling, seen through the listing *)
(* ===================================================================== *)

(** X11. An accepted POST to [edit_task] on a task of the session's user
    rewrites that one row: title (the stripped form title, without NUL),
    description, category (none for an empty choice, otherwise the id that
    the form's text denotes), priority and due date come from the form and
    [updated_at] becomes the store's current time, while id, owner,
    completion state and [created_at] stay; every other row is as before
    and no row is added or removed. *)
Theorem edit_task_rewrites_one_row (db db' : database) (user_id : uuid) (t : Task.t)
    (req : request) (db_now : datetime) (r : reply) :
  NoDup (map Task.id (tasks db)) -> In t (tasks db) -> Task.user_id t = user_id ->
  method req = POST ->
  blank (match form_title (form req) with Some v => v | None => "" end) = false ->
  edit_task (Reachable db) (Some user_id) req db_now (Task.id t) = Ok (Reachable db', r) ->
  exists t',
    In t' (tasks db')
    /\ Sql.select_task db' (Task.id t) user_id = Some t'
    /\ Task.id t' = Task.id t /\ Task.user_id t' = user_id
    /\ Task.title t' = stripped_title req
    /\ Sql.has_nul (Task.title t') = false
    /\ Task.description t' = form_description (form req)
    /\ Sql.uuid_in_opt (none_if_falsy (form_category (form req)))
       = Ok (Task.category_id t')
    /\ Sql.varchar_opt 20 (form_priority (form req)) = Ok (Task.priority t')
    /\ parse_due_date (form_due_date (form req)) = Ok (Task.due_date t')
    /\ Task.completed t' = Task.completed t
    /\ Task.completed_at t' = Task.completed_at t
    /\ Task.created_at t' = Task.created_at t
    /\ Task.updated_at t' = db_now
    /\ (forall x, In x (tasks db) -> x <> t -> In x (tasks db'))
    /\ map Task.id (tasks db') = map Task.id (tasks db)
    /\ r = {| flashed := [("Task updated successfully!", "success")];
              body := Redirect url_for_dashboard |}.
Proof.
  intros N I U M B.
  pose proof (select_task_owned db t N I) as S. rewrite U in S.
  assert (NB : String.eqb (stripped_title req) "" = false).
  { apply String.eqb_neq. unfold stripped_title. intros E.
    apply strip_empty in E. congruence. }
  unfold edit_task, login_required, cursor.
  change (get_db_connection (Reachable db)) with (Some db). cbn [Py.bind].
  rewrite S, M, NB. cbn [Py.bind].
  destruct (parse_due_date _) as [due|] eqn:D; [|discriminate]. cbn [Py.bind].
  destruct (Sql.update_task _ _ _ _ _ _ _ _ _) as [db1|] eqn:Upd; [|discriminate].
  cbn [Py.bind]. intros H. injection H as <- <-.
  apply update_task_Ok in Upd.
  destruct Upd as (category & title' & priority' & -> & V & P & UC & NN & _).
  unfold stripped_title in V. apply varchar_stripped in V.
  fold (stripped_title req) in V. subst title'.
  set (g := fun x : Task.t =>
         if (Task.id x =? Task.id t) && String.eqb (Task.user_id x) user_id
         then Task.set_fields x (stripped_title req) (form_description (form req))
                category priority' due db_now
         else x).
  assert (G : g t = Task.set_fields t (stripped_title req) (form_description (form req))
                      category priority' due db_now).
  { unfold g. rewrite Z.eqb_refl, U, String.eqb_refl. reflexivity. }
  exists (g t). cbn [tasks]. fold g.
  split; [apply in_map, I|]. split.
  { unfold Sql.select_task. cbn [tasks]. fold g. rewrite find_map_same.
    - fold (Sql.select_task db (Task.id t) user_id). rewrite S. reflexivity.
    - intros x. unfold g.
      destruct ((Task.id x =? Task.id t) && String.eqb (Task.user_id x) user_id) eqn:E;
        [|exact (eq_sym (eq_trans (eq_sym E) eq_refl))].
      simpl. exact E. }
  rewrite G. cbn [Task.set_fields Task.id Task.user_id Task.title Task.description
                   Task.category_id Task.priority Task.due_date Task.completed
                   Task.completed_at Task.created_at Task.updated_at].
  repeat (split; [first [reflexivity | exact U | exact NN | exact UC | exact P]|]).
  split; [|split; [|reflexivity]].
  - intros x Ix Dx. apply in_map_iff. exists x. split; [|exact Ix].
    unfold g. destruct (Task.id x =? Task.id t) eqn:E; [|reflexivity].
    apply Z.eqb_eq in E. exfalso. apply Dx.
    exact (NoDup_map_inj Task.id (tasks db) x t N Ix I E).
  - rewrite map_map. apply map_ext. intros x. unfold g.
    destruct (_ && _); reflexivity.
Qed.

Lemma edit_task_rewrites_one_row_witness :
  exists t',
    Sql.select_task
      {| users := users Sample.db; categories := categories Sample.db;
         tasks := [Task.set_fields Sample.report "Pay rent" (Some "") None (Some "medium")
                     None (Sample.at_ 6 0 0);
                   Sample.milk; Sample.call; Sample.taxes];
         tasks_id_seq := 5 |} 1 Sample.ada = Some t'
    /\ Task.title t' = "Pay rent" /\ Task.category_id t' = None
    /\ Task.completed t' = false /\ Task.updated_at t' = Sample.at_ 6 0 0.
Proof.
  destruct (edit_task_rewrites_one_row Sample.db _ Sample.ada Sample.report
              (Sample.post_request " Pay rent ") (Sample.at_ 6 0 0) _
              (tasks_pkey _ sample_db_constraints)
              (or_introl eq_refl) eq_refl eq_refl eq_refl eq_refl)
    as (t' & _ & S & _ & _ & T & _ & _ & C & _ & _ & Co & _ & _ & Up & _).
  exists t'. split; [exact S|]. split; [exact T|].
  split; [injection C as <-; reflexivity|].
  split; [exact Co | exact Up].
Defined.

(** X12. Toggling a pending task of the session's user takes it out of the
    'pending' listing and out of the notifications and puts it, completed
    at the current time, into the 'completed' listing. *)
Theorem toggle_moves_task_between_listings (db : database) (user_id : uuid) (t : Task.t)
    (req : request) (now later : datetime) :
  db_constraints db -> In t (tasks db) -> Task.user_id t = user_id ->
  Task.completed t = false ->
  exists db' r pend comp ns,
    toggle_task (Reachable db) (Some user_id) req now (Task.id t) = Ok (Reachable db', r)
    /\ get_user_tasks (Reachable db') user_id (Some "pending") None later = Ok pend
    /\ get_user_tasks (Reachable db') user_id (Some "completed") None later = Ok comp
    /\ get_due_notifications (Reachable db') user_id later later = Ok ns
    /\ (forall x, In x pend -> Task.id (row_task x) <> Task.id t)
    /\ In (Task.set_completion t true (Some now)) (map row_task comp)
    /\ (forall n, In n ns -> Task.id (row_task (n_task n)) <> Task.id t).
Proof.
  intros C I U P.
  pose proof (select_task_owned db t (tasks_pkey db C) I) as S. rewrite U in S.
  set (db' := Sql.update_completed db true (Some now) (Task.id t)).
  assert (C' : db_constraints db') by apply update_completed_keeps_constraints, C.
  assert (I' : In (Task.set_completion t true (Some now)) (tasks db')).
  { simpl. apply in_map_iff. exists t. rewrite Z.eqb_refl. auto. }
  assert (K : forall x, In x (tasks db') -> Task.id x = Task.id t ->
                        Task.completed x = true).
  { intros x Ix E.
    rewrite (NoDup_map_inj Task.id (tasks db') x _ (tasks_pkey db' C') Ix I' E).
    reflexivity. }
  destruct (get_user_tasks_rows db' user_id (Some "pending") later C')
    as (pend & Gp & Pp).
  destruct (get_user_tasks_rows db' user_id (Some "completed") later C')
    as (comp & Gc & Pc).
  assert (Q : forall x, In x pend -> Task.id (row_task x) <> Task.id t).
  { intros x Ix E.
    destruct (get_user_tasks_rows_In _ _ _ _ _ _ _ Gp Ix) as (It & _ & F).
    rewrite (K _ It E) in F. discriminate (F eq_refl). }
  exists db'. eexists. exists pend, comp, (notifications_of_tasks pend later).
  split; [|split; [exact Gp|split; [exact Gc|split; [|split; [exact Q|split]]]]].
  - unfold toggle_task, login_required, cursor.
    change (get_db_connection (Reachable db)) with (Some db). cbn [Py.bind].
    rewrite S, P. reflexivity.
  - unfold get_due_notifications. rewrite Gp. reflexivity.
  - apply (Permutation_in _ (Permutation_sym Pc)). apply filter_In.
    split; [exact I'|]. apply listed_spec. simpl. split; [exact U|]. split.
    + repeat split; intros; discriminate.
    + intros k E; discriminate.
  - intros n Hn. apply notifications_of_tasks_In in Hn.
    destruct Hn as (x & due & Ix & _ & _ & ->). simpl. exact (Q x Ix).
Qed.

(* ===================================================================== *)
(** ** Upload file names *)
(* ===================================================================== *)

Lemma rsplit_dot_no_dot (s : string) : contains_dot s = false -> rsplit_dot s = [s].
Proof.
  induction s as [|c r IH]; simpl; [reflexivity|].
  intros H. apply orb_false_iff in H. destruct H as [Hc Hr].
  rewrite (IH Hr), Hc. reflexivity.
Qed.

Lemma rsplit_dot_last (stem ext : string) :
  contains_dot ext = false -> rsplit_dot (stem ++ "." ++ ext) = [stem; ext].
Proof.
  intros H. induction stem as [|c r IH]; simpl.
  - rewrite (rsplit_dot_no_dot ext H). reflexivity.
  - simpl in IH. rewrite IH. reflexivity.
Qed.

Lemma contains_dot_split (s : string) :
  contains_dot s = true ->
  exists stem ext, s = stem ++ "." ++ ext /\ contains_dot ext = false.
Proof.
  induction s as [|c r IH]; simpl; [discriminate|].
  destruct (contains_dot r) eqn:R.
  - intros _. destruct (IH eq_refl) as (stem & ext & -> & E).
    exists (String c stem), ext. split; [reflexivity | exact E].
  - rewrite orb_false_r. intros D. exists "", r. split; [|exact R].
    unfold is_dot in D. apply Ascii.eqb_eq in D. subst c. reflexivity.
Qed.

Lemma contains_dot_app (stem ext : string) : contains_dot (stem ++ "." ++ ext) = true.
Proof.
  induction stem as [|c r IH]; simpl; [reflexivity|].
  simpl in IH. rewrite IH. apply orb_true_r.
Qed.

(** X13. [allowed_file] accepts exactly the names that have a dot and whose
    text after the last dot is, in any letter case, png, jpg, jpeg or gif:
    earlier extensions do not count, and a name without a dot or ending in
    a dot is turned down. *)
Theorem allowed_file_spec (filename : string) :
  allowed_file filename = true <->
  exists stem ext,
    filename = stem ++ "." ++ ext
    /\ contains_dot ext = false
    /\ In (lower ext) ALLOWED_EXTENSIONS.
Proof.
  unfold allowed_file. split.
  - intros H. apply andb_true_iff in H. destruct H as [D M].
    destruct (contains_dot_split filename D) as (stem & ext & -> & E).
    exists stem, ext. split; [reflexivity|]. split; [exact E|].
    rewrite (rsplit_dot_last stem ext E) in M. cbn [nth] in M.
    apply existsb_exists in M. destruct M as (x & Ix & Ex).
    apply String.eqb_eq in Ex. rewrite Ex. exact Ix.
  - intros (stem & ext & -> & E & M).
    rewrite contains_dot_app, (rsplit_dot_last stem ext E). cbn [nth andb].
    apply existsb_exists. exists (lower ext). split; [exact M | apply String.eqb_refl].
Qed.

Example allowed_file_examples :
  allowed_file "photo.PNG" = true
  /\ allowed_file "holiday.tar.JpEg" = true
  /\ allowed_file ".gif" = true
  /\ allowed_file "photo.png.exe" = false
  /\ allowed_file "png" = false
  /\ allowed_file "photo.png." = false
  /\ allowed_file "" = false.
Proof. repeat split. Qed.

(* ===================================================================== *)
(** ** Categories *)
(* ===================================================================== *)

(** X14. [get_user_categories] returns the categories of the given user,
    all of them and no other user's, oldest first; with the store out of
    reach it returns the empty list. *)
Theorem get_user_categories_own_oldest_first (s : store) (user_id : uuid) :
  let cs := get_user_categories s user_id in
  (forall c, In c cs <->
     exists db, s = Reachable db /\ In c (categories db) /\ Category.user_id c = user_id)
  /\ (forall db, s = Reachable db ->
        Permutation cs
          (filter (fun c => String.eqb (Category.user_id c) user_id) (categories db)))
  /\ StronglySorted (fun x y => Category.created_at x <= Category.created_at y) cs
  /\ (s = Unreachable -> cs = []).
Proof.
  cbv zeta. unfold get_user_categories. destruct s as [db|]; simpl.
  - assert (P : Permutation
                  (Py.sorted Category.created_at
                     (filter (fun c => Sql.holds (Some (String.eqb (Category.user_id c) user_id)))
                             (categories db)))
                  (filter (fun c => String.eqb (Category.user_id c) user_id) (categories db))).
    { rewrite (filter_ext _ (fun c => String.eqb (Category.user_id c) user_id))
        by (intros c; apply holds_Some).
      apply sorted_perm. }
    split; [|split; [|split]].
    + intros c. split.
      * intros H. apply (Permutation_in _ P) in H. apply filter_In in H.
        destruct H as [I E]. apply String.eqb_eq in E. exists db. auto.
      * intros (db0 & E & I & U). injection E as <-.
        apply (Permutation_in _ (Permutation_sym P)). apply filter_In.
        split; [exact I | apply String.eqb_eq, U].
    + intros db0 E. injection E as <-. exact P.
    + apply sorted_ascending.
    + discriminate.
  - split; [|split; [|split]].
    + intros c. split; [intros [] | intros (db & E & _); discriminate].
    + intros db E. discriminate.
    + constructor.
    + reflexivity.
Qed.

(* ===================================================================== *)
(** ** Accounts *)
(* ===================================================================== *)

Lemma string_length_app (s1 s2 : string) :
  String.length (s1 ++ s2) = (String.length s1 + String.length s2)%nat.
Proof. induction s1 as [|c r IH]; simpl; [reflexivity | rewrite IH; reflexivity]. Qed.

(** A stored password has 64 characters, whatever the password. *)
Lemma hash_password_length (password : string) :
  String.length (hash_password password) = 64%nat.
Proof.
  unfold hash_password, Sha256.hexdigest. cbv zeta.
  rewrite !string_length_app. reflexivity.
Qed.

Lemma lower_length (s : string) : String.length (lower s) = String.length s.
Proof. induction s as [|c r IH]; simpl; [reflexivity | rewrite IH; reflexivity]. Qed.

Lemma find_app_none {A : Type} (p : A -> bool) (l l' : list A) :
  find p l = None -> find p (l ++ l') = find p l'.
Proof.
  induction l as [|x r IH]; simpl; [reflexivity|].
  destruct (p x); [discriminate | exact IH].
Qed.

Lemma existsb_key_false {A : Type} (key : A -> string) (x : string) (l : list A) :
  ~ In x (map key l) -> existsb (fun a => String.eqb (key a) x) l = false.
Proof.
  intros H. destruct (existsb _ l) eqn:E; [|reflexivity].
  apply existsb_exists in E. destruct E as (a & Ia & Ea).
  apply String.eqb_eq in Ea. exfalso. apply H. rewrite <- Ea. apply in_map, Ia.
Qed.

Lemma existsb_find_none {A : Type} (p : A -> bool) (l : list A) :
  find p l = None -> existsb p l = false.
Proof.
  induction l as [|x r IH]; simpl; [reflexivity|].
  destruct (p x); [discriminate | exact IH].
Qed.

Lemma has_nul_app (s1 s2 : string) :
  Sql.has_nul (s1 ++ s2) = Sql.has_nul s1 || Sql.has_nul s2.
Proof.
  induction s1 as [|c r IH]; simpl; [reflexivity|].
  rewrite IH, orb_assoc. reflexivity.
Qed.

Lemma hexdigit_not_nul (n : Z) :
  Ascii.eqb (Sha256.hexdigit (Z.land n 15)) Ascii.zero = false.
Proof.
  change 15 with (Z.ones 4). rewrite Z.land_ones by lia.
  pose proof (Z.mod_pos_bound n (2 ^ 4) ltac:(lia)) as B.
  set (m := n mod 2 ^ 4) in *. change (2 ^ 4) with 16 in B.
  assert (E : m = 0 \/ m = 1 \/ m = 2 \/ m = 3 \/ m = 4 \/ m = 5 \/ m = 6 \/ m = 7
              \/ m = 8 \/ m = 9 \/ m = 10 \/ m = 11 \/ m = 12 \/ m = 13 \/ m = 14
              \/ m = 15) by lia.
  repeat (destruct E as [->|E]; [reflexivity|]). rewrite E. reflexivity.
Qed.

(** A stored password is text that the store takes: 64 hexadecimal
    digits. *)
Lemma hash_password_text (password : string) :
  Sql.has_nul (hash_password password) = false.
Proof.
  unfold hash_password, Sha256.hexdigest. cbv zeta.
  rewrite !has_nul_app. unfold Sha256.hex8. cbn [Sql.has_nul].
  rewrite !hexdigit_not_nul. reflexivity.
Qed.

Lemma lower_char_nul (c : ascii) :
  Ascii.eqb (lower_char c) Ascii.zero = Ascii.eqb c Ascii.zero.
Proof. destruct c as [[] [] [] [] [] [] [] []]; reflexivity. Qed.

Lemma has_nul_lower (s : string) : Sql.has_nul (lower s) = Sql.has_nul s.
Proof.
  induction s as [|c r IH]; simpl; [reflexivity|].
  rewrite lower_char_nul, IH. reflexivity.
Qed.

Lemma get_user_by_email_clean (db : database) (email : string) :
  Sql.has_nul email = false ->
  get_user_by_email (Reachable db) email
  = Ok (find (fun u => String.eqb (User.email u) email) (users db)).
Proof.
  intros N. unfold get_user_by_email.
  change (get_db_connection (Reachable db)) with (Some db). cbv iota beta.
  rewrite (adapt_clean _ N). reflexivity.
Qed.

Lemma get_user_by_email_Ok (db : database) (email : string) (found : option User.t) :
  get_user_by_email (Reachable db) email = Ok found ->
  Sql.has_nul email = false
  /\ found = find (fun u => String.eqb (User.email u) email) (users db).
Proof.
  unfold get_user_by_email.
  change (get_db_connection (Reachable db)) with (Some db). cbv iota beta.
  destruct (Sql.adapt email) as [e|] eqn:A; [|discriminate].
  apply adapt_Ok in A. destruct A as [-> N]. cbn [Py.bind].
  intros H. injection H as <-. auto.
Qed.

(** The lookup by email raises exactly on a reachable store and an email
    with a NUL. *)
Lemma get_user_by_email_raises (db : database) (email : string) :
  Sql.has_nul email = true ->
  get_user_by_email (Reachable db) email = Raise ValueError.
Proof.
  intros N. unfold get_user_by_email, Sql.adapt.
  change (get_db_connection (Reachable db)) with (Some db). cbv iota beta.
  rewrite N. reflexivity.
Qed.

Lemma insert_category_Done (db : database) (db_now : datetime) (new_id user_id : uuid)
    (row : string * string * list Z) :
  Sql.has_nul (fst (fst row)) = false ->
  Sql.has_nul (snd (fst row)) = false ->
  existsb (Z.eqb 0) (snd row) = false ->
  (String.length (fst (fst row)) <= 100)%nat ->
  (String.length (snd (fst row)) <= 7)%nat ->
  (List.length (snd row) <= 10)%nat ->
  In user_id (map User.id (users db)) ->
  ~ In new_id (map Category.id (categories db)) ->
  insert_category db db_now new_id user_id (fst (fst row)) (snd (fst row)) (snd row)
  = Done {| users := users db;
            categories := categories db ++ [new_category_row db_now new_id user_id row];
            tasks := tasks db;
            tasks_id_seq := tasks_id_seq db |}.
Proof.
  intros N1 N2 N3 W1 W2 W3 U F. unfold insert_category.
  rewrite (adapt_clean _ N1), (adapt_clean _ N2). cbn [of_outcome and_then].
  unfold Sql.adapt_points. rewrite N3. cbn [of_outcome and_then].
  rewrite (varchar_fits _ _ W1), (varchar_fits _ _ W2). cbn [of_outcome and_then].
  unfold Sql.varchar_points. rewrite (proj2 (Nat.leb_le _ _) W3).
  cbn [of_outcome and_then].
  assert (R : Sql.references_user db user_id = Ok tt).
  { unfold Sql.references_user.
    replace (existsb _ (users db)) with true; [reflexivity|].
    symmetry. apply existsb_exists. apply in_map_iff in U.
    destruct U as (u & E & I). exists u. split; [exact I | apply String.eqb_eq, E]. }
  rewrite R. cbn [of_outcome and_then].
  rewrite (existsb_key_false Category.id new_id _ F). reflexivity.
Qed.

(** The user row and the four default categories go in together. *)
Lemma create_account_Done (db : database) (db_now : datetime) (gen : nat -> uuid)
    (full_name email hashed_pw : string) :
  Sql.has_nul full_name = false ->
  Sql.has_nul email = false ->
  Sql.has_nul hashed_pw = false ->
  (String.length full_name <= 255)%nat ->
  (String.length email <= 255)%nat ->
  (String.length hashed_pw <= 255)%nat ->
  find (fun u => String.eqb (User.email u) email) (users db) = None ->
  fresh_ids db gen ->
  create_account (Reachable db) db_now gen full_name email hashed_pw
  = Done (Reachable
            {| users := users db ++ [new_user_row db_now (gen O) full_name email hashed_pw];
               categories := categories db ++ new_account_categories db_now gen;
               tasks := tasks db;
               tasks_id_seq := tasks_id_seq db |}).
Proof.
  intros T1 T2 T3 W1 W2 W3 E (F0 & N & Fc).
  unfold create_account, cursor.
  change (get_db_connection (Reachable db)) with (Some db).
  cbn [of_outcome and_then]. unfold insert_user.
  rewrite (adapt_clean _ T1), (adapt_clean _ T2), (adapt_clean _ T3).
  cbn [of_outcome and_then].
  rewrite (varchar_fits _ _ W1), (varchar_fits _ _ W2), (varchar_fits _ _ W3).
  cbn [of_outcome and_then].
  rewrite (existsb_key_false User.id (gen O) _ F0), (existsb_find_none _ _ E).
  cbn [and_then]. fold (new_user_row db_now (gen O) full_name email hashed_pw).
  unfold create_default_categories, default_categories. cbn [insert_categories].
  set (u := new_user_row db_now (gen O) full_name email hashed_pw).
  assert (U : forall cs, In (gen O)
                (map User.id (users {| users := users db ++ [u]; categories := cs;
                                       tasks := tasks db;
                                       tasks_id_seq := tasks_id_seq db |}))).
  { intros cs. cbn [users]. rewrite map_app. apply in_or_app. right. left. reflexivity. }
  apply NoDup_cons_iff in N. destruct N as [N1 N].
  apply NoDup_cons_iff in N. destruct N as [N2 N].
  apply NoDup_cons_iff in N. destruct N as [N3 _].
  simpl in N1, N2, N3.
  rewrite (insert_category_Done _ db_now (gen 1%nat) (gen O)
             ("Work", "#dc2626", [128188]));
    [|reflexivity|reflexivity|reflexivity|simpl; lia|simpl; lia|simpl; lia|apply U
     |apply Fc; simpl; tauto].
  cbn [and_then categories users tasks tasks_id_seq].
  rewrite (insert_category_Done _ db_now (gen 2%nat) (gen O)
             ("Personal", "#d97706", [127968]));
    [|reflexivity|reflexivity|reflexivity|simpl; lia|simpl; lia|simpl; lia|apply U|].
  2:{ cbn [categories]. rewrite map_app. intros H. apply in_app_or in H.
      destruct H as [H|H]; [exact (Fc 2%nat ltac:(simpl; tauto) H)|].
      simpl in H. intuition congruence. }
  cbn [and_then categories users tasks tasks_id_seq].
  rewrite (insert_category_Done _ db_now (gen 3%nat) (gen O)
             ("Health", "#059669", [128170]));
    [|reflexivity|reflexivity|reflexivity|simpl; lia|simpl; lia|simpl; lia|apply U|].
  2:{ cbn [categories]. rewrite !map_app. intros H. apply in_app_or in H.
      destruct H as [H|H]; [apply in_app_or in H; destruct H as [H|H];
                            [exact (Fc 3%nat ltac:(simpl; tauto) H)|]|];
        simpl in H; intuition congruence. }
  cbn [and_then categories users tasks tasks_id_seq].
  rewrite (insert_category_Done _ db_now (gen 4%nat) (gen O)
             ("Learning", "#7c3aed", [128218]));
    [|reflexivity|reflexivity|reflexivity|simpl; lia|simpl; lia|simpl; lia|apply U|].
  2:{ cbn [categories]. rewrite !map_app. intros H. apply in_app_or in H.
      destruct H as [H|H]; [apply in_app_or in H; destruct H as [H|H];
                            [apply in_app_or in H; destruct H as [H|H];
                             [exact (Fc 4%nat ltac:(simpl; tauto) H)|]|]|];
        simpl in H; intuition congruence. }
  cbn [and_then categories users tasks tasks_id_seq].
  rewrite <- !app_assoc. reflexivity.
Qed.

(** X15. [signup] checks in this order and stops at the first failure,
    leaving the store and the session as they are: the two passwords
    differ; the password has fewer than 6 characters; an account with the
    lower-cased email exists. *)
Theorem signup_rejections (s : store) (db_now : datetime) (gen : nat -> uuid)
    (full_name email password confirm : string) :
  let req := account_post (Some full_name) (Some email) (Some password) (Some confirm) in
  (password <> confirm ->
   signup s None req db_now gen
   = Done (s, None, {| flashed := [("Passwords do not match.", "error")];
                       body := Render "SIGNUP_TEMPLATE" None |}))
  /\ (password = confirm -> (String.length password < 6)%nat ->
      signup s None req db_now gen
      = Done (s, None,
              {| flashed := [("Password must be at least 6 characters long.", "error")];
                 body := Render "SIGNUP_TEMPLATE" None |}))
  /\ (password = confirm -> (6 <= String.length password)%nat ->
      forall u, get_user_by_email s (lower email) = Ok (Some u) ->
      signup s None req db_now gen
      = Done (s, None,
              {| flashed := [("An account with this email already exists.", "error")];
                 body := Render "SIGNUP_TEMPLATE" None |})).
Proof.
  cbv zeta. unfold signup, account_post.
  cbn [account_method account_form_data field_full_name field_email field_password
       field_confirm_password required and_then].
  split; [|split].
  - intros D. apply String.eqb_neq in D. rewrite D. reflexivity.
  - intros <- L. rewrite String.eqb_refl. cbn [negb].
    apply Nat.ltb_lt in L. rewrite L. reflexivity.
  - intros <- L u E. rewrite String.eqb_refl. cbn [negb].
    replace (String.length password <? 6)%nat with false
      by (symmetry; apply Nat.ltb_ge; exact L).
    rewrite E. reflexivity.
Qed.

Lemma signup_accepted (db : database) (db_now : datetime) (gen : nat -> uuid)
    (full_name email password : string) :
  acceptable_signup db gen full_name email password ->
  signup (Reachable db) None
    (account_post (Some full_name) (Some email) (Some password) (Some password))
    db_now gen
  = Done (Reachable
            {| users := users db ++
                 [new_user_row db_now (gen O) full_name (lower email)
                    (hash_password password)];
               categories := categories db ++ new_account_categories db_now gen;
               tasks := tasks db;
               tasks_id_seq := tasks_id_seq db |},
          None,
          {| flashed := [("Account created successfully! Please log in.", "success")];
             body := Redirect url_for_login |}).
Proof.
  intros [P T1 W1 W2 E F]. unfold signup, account_post.
  cbn [account_method account_form_data field_full_name field_email field_password
       field_confirm_password required and_then].
  rewrite String.eqb_refl. cbn [negb].
  replace (String.length password <? 6)%nat with false
    by (symmetry; apply Nat.ltb_ge; exact P).
  rewrite E. cbn [of_outcome and_then is_none negb].
  apply get_user_by_email_Ok in E. destruct E as [T2 E].
  rewrite create_account_Done;
    [reflexivity | exact T1 | exact T2 | apply hash_password_text | exact W1 | |
     | symmetry; exact E | exact F].
  - rewrite lower_length. exact W2.
  - rewrite hash_password_length. lia.
Qed.

(** The new account's categories, picked out of the table by owner. *)
Lemma new_account_categories_owned (db : database) (db_now : datetime) (gen : nat -> uuid) :
  ~ In (gen O) (map User.id (users db)) ->
  Forall (fun c => In (Category.user_id c) (map User.id (users db))) (categories db) ->
  filter (fun c => String.eqb (Category.user_id c) (gen O))
         (categories db ++ new_account_categories db_now gen)
  = new_account_categories db_now gen.
Proof.
  intros F0 K. rewrite filter_app, filter_none.
  - unfold new_account_categories, default_categories.
    cbn [combine map fst snd filter new_category_row Category.user_id app].
    rewrite !String.eqb_refl. reflexivity.
  - intros c Ic. apply String.eqb_neq. intros Ec.
    apply F0. rewrite <- Ec. exact (proj1 (Forall_forall _ _) K c Ic).
Qed.

(** X16. An acceptable signup (passwords equal, 6 characters or more, name
    and email without NUL and within 255 characters, email not taken,
    generated ids new) commits one user row, with the email in lower case
    and the SHA-256 hex digest of the password, and the four default
    categories Work, Personal, Health, Learning owned by that user; tasks
    and the other rows stay; the session stays logged out and the reply
    sends to the login page.  The four categories are what
    [get_user_categories] then returns for the new user, in an order that
    their equal creation times leave open. *)
Theorem signup_creates_account (db : database) (db_now : datetime) (gen : nat -> uuid)
    (full_name email password : string) :
  acceptable_signup db gen full_name email password ->
  Forall (fun c => In (Category.user_id c) (map User.id (users db))) (categories db) ->
  exists db',
    signup (Reachable db) None
      (account_post (Some full_name) (Some email) (Some password) (Some password))
      db_now gen
    = Done (Reachable db', None,
            {| flashed := [("Account created successfully! Please log in.", "success")];
               body := Redirect url_for_login |})
    /\ users db' = (users db ++
                    [new_user_row db_now (gen O) full_name (lower email)
                       (hash_password password)])%list
    /\ String.length (hash_password password) = 64%nat
    /\ categories db' = (categories db ++ new_account_categories db_now gen)%list
    /\ tasks db' = tasks db
    /\ get_user_by_id (Reachable db') (gen O)
       = Some (new_user_row db_now (gen O) full_name (lower email) (hash_password password))
    /\ Permutation (get_user_categories (Reachable db') (gen O))
         (new_account_categories db_now gen)
    /\ Permutation (map Category.name (get_user_categories (Reachable db') (gen O)))
         ["Work"; "Personal"; "Health"; "Learning"].
Proof.
  intros A K. pose proof (signup_accepted db db_now gen full_name email password A) as S.
  destruct A as [P T1 W1 W2 E (F0 & N & Fc)].
  eexists. split; [exact S|]. cbn [users categories tasks].
  split; [reflexivity|]. split; [apply hash_password_length|].
  split; [reflexivity|]. split; [reflexivity|].
  assert (C : Permutation
                (get_user_categories
                   (Reachable {| users := users db ++
                                   [new_user_row db_now (gen O) full_name (lower email)
                                      (hash_password password)];
                                 categories := categories db
                                               ++ new_account_categories db_now gen;
                                 tasks := tasks db;
                                 tasks_id_seq := tasks_id_seq db |}) (gen O))
                (new_account_categories db_now gen)).
  { unfold get_user_categories.
    change (get_db_connection (Reachable ?d)) with (Some d). cbv iota beta.
    cbn [categories].
    rewrite (filter_ext _ (fun c => String.eqb (Category.user_id c) (gen O)))
      by (intros c; apply holds_Some).
    rewrite (new_account_categories_owned db db_now gen F0 K).
    apply sorted_perm. }
  split; [|split; [exact C | exact (Permutation_map Category.name C)]].
  unfold get_user_by_id.
  change (get_db_connection (Reachable ?d)) with (Some d). cbv iota beta.
  cbn [users]. rewrite find_app_none.
  - simpl. rewrite String.eqb_refl. reflexivity.
  - destruct (find _ (users db)) as [u|] eqn:Fu; [|reflexivity].
    apply find_some in Fu. destruct Fu as [Iu Eu]. apply String.eqb_eq in Eu.
    exfalso. apply F0. rewrite <- Eu. apply in_map, Iu.
Qed.

(** X17. After an acceptable signup, a login with the same password and
    the same email in any letter case is accepted: the session holds the
    new user's id, the reply sends to the dashboard, and the store is not
    changed by the login. *)
Theorem signup_then_login (db : database) (db_now later : datetime)
    (gen gen' : nat -> uuid) (full_name email email' password : string) :
  acceptable_signup db gen full_name email password ->
  lower email' = lower email ->
  exists db',
    signup (Reachable db) None
      (account_post (Some full_name) (Some email) (Some password) (Some password))
      db_now gen
    = Done (Reachable db', None,
            {| flashed := [("Account created successfully! Please log in.", "success")];
               body := Redirect url_for_login |})
    /\ login (Reachable db') None (account_post None (Some email') (Some password) None)
         later gen'
       = Done (Reachable db', Some (gen O), to_dashboard).
Proof.
  intros A L. pose proof (signup_accepted db db_now gen full_name email password A) as S.
  eexists. split; [exact S|].
  destruct A as [P T1 W1 W2 E F].
  apply get_user_by_email_Ok in E. destruct E as [T2 E].
  unfold login, account_post.
  cbn [account_method account_form_data field_email field_password required and_then].
  rewrite L.
  match goal with
  | |- context [get_user_by_email (Reachable ?d) _] =>
      assert (G : get_user_by_email (Reachable d) (lower email)
                  = Ok (Some (new_user_row db_now (gen O) full_name (lower email)
                                (hash_password password))))
  end.
  { rewrite (get_user_by_email_clean _ _ T2).
    cbn [users]. rewrite find_app_none by (symmetry; exact E).
    simpl. rewrite String.eqb_refl. reflexivity. }
  rewrite G. cbn [of_outcome and_then is_none].
  destruct (String.eqb (lower email) "test@example.com");
    cbn [and_then]; rewrite ?G; cbn [of_outcome and_then User.password User.id new_user_row];
    rewrite String.eqb_refl; reflexivity.
Qed.

Local Arguments hash_password : simpl never.

(** X18. A login with an email other than the test account's is decided by
    the stored hash alone: the user with the lower-cased email, when the
    stored password is the SHA-256 hex digest of the given one, is logged
    in; an unknown email, a wrong password and a store out of reach all get
    the same answer, 'Invalid email or password.', and nothing is changed.
    An email with a NUL character is no unknown email: on a reachable store
    the lookup, and with it the login, raises [ValueError]. *)
Theorem login_checks_password (s : store) (db_now : datetime) (gen : nat -> uuid)
    (email password : string) :
  lower email <> "test@example.com" ->
  let req := account_post None (Some email) (Some password) None in
  (forall u, get_user_by_email s (lower email) = Ok (Some u) ->
             User.password u = hash_password password ->
             login s None req db_now gen = Done (s, Some (User.id u), to_dashboard))
  /\ (get_user_by_email s (lower email) = Ok None
      \/ (exists u, get_user_by_email s (lower email) = Ok (Some u)
                    /\ User.password u <> hash_password password) ->
      login s None req db_now gen = Done (s, None, invalid_login))
  /\ (forall db, s = Reachable db -> Sql.has_nul email = false ->
        get_user_by_email s (lower email)
        = Ok (find (fun u => String.eqb (User.email u) (lower email)) (users db)))
  /\ (forall db, s = Reachable db -> Sql.has_nul email = true ->
        login s None req db_now gen = Failed (Python ValueError))
  /\ login Unreachable None req db_now gen = Done (Unreachable, None, invalid_login).
Proof.
  intros T. cbv zeta. unfold login, account_post.
  cbn [account_method account_form_data field_email field_password required and_then].
  apply String.eqb_neq in T. rewrite T. cbn [and_then].
  split; [|split; [|split; [|split]]].
  - intros u E P. rewrite E. cbn [of_outcome and_then].
    rewrite P, String.eqb_refl. reflexivity.
  - intros [E|(u & E & P)]; rewrite E; cbn [of_outcome and_then]; [reflexivity|].
    apply String.eqb_neq in P. rewrite P. reflexivity.
  - intros db -> N. apply get_user_by_email_clean. rewrite has_nul_lower. exact N.
  - intros db -> N. rewrite get_user_by_email_raises; [reflexivity|].
    rewrite has_nul_lower. exact N.
  - reflexivity.
Qed.

(** X19. The first login attempt with the email test@example.com (in any
    letter case) on a store that has no such user creates that user, named
    'Test User', with the password 'password123' and the four default
    categories, whatever password was typed: with 'password123' the attempt
    is then accepted, with a password of another digest it is refused but
    the account stays created.  With the store out of reach the attempt
    raises. *)
Theorem login_creates_test_account (db : database) (db_now : datetime) (gen : nat -> uuid)
    (email password : string) :
  lower email = "test@example.com" ->
  get_user_by_email (Reachable db) "test@example.com" = Ok None ->
  fresh_ids db gen ->
  exists db',
    users db' = (users db ++
                 [new_user_row db_now (gen O) "Test User" "test@example.com"
                    (hash_password "password123")])%list
    /\ categories db' = (categories db ++ new_account_categories db_now gen)%list
    /\ tasks db' = tasks db
    /\ login (Reachable db) None (account_post None (Some email) (Some "password123") None)
         db_now gen
       = Done (Reachable db', Some (gen O), to_dashboard)
    /\ (hash_password password <> hash_password "password123" ->
        login (Reachable db) None (account_post None (Some email) (Some password) None)
          db_now gen
        = Done (Reachable db', None, invalid_login))
    /\ login Unreachable None (account_post None (Some email) (Some password) None)
         db_now gen
       = Failed (Python AttributeError).
Proof.
  intros T E F.
  pose proof (get_user_by_email_Ok _ _ _ E) as [_ E'].
  assert (CA : create_account (Reachable db) db_now gen "Test User" "test@example.com"
                 (hash_password "password123")
               = Done (Reachable
                         {| users := users db ++
                              [new_user_row db_now (gen O) "Test User" "test@example.com"
                                 (hash_password "password123")];
                            categories := categories db ++ new_account_categories db_now gen;
                            tasks := tasks db;
                            tasks_id_seq := tasks_id_seq db |})).
  { apply create_account_Done;
      [reflexivity | reflexivity | apply hash_password_text | simpl; lia | simpl; lia |
       | symmetry; exact E' | exact F].
    rewrite hash_password_length. lia. }
  set (db' := {| users := users db ++
                   [new_user_row db_now (gen O) "Test User" "test@example.com"
                      (hash_password "password123")];
                 categories := categories db ++ new_account_categories db_now gen;
                 tasks := tasks db;
                 tasks_id_seq := tasks_id_seq db |}) in *.
  assert (G : get_user_by_email (Reachable db') "test@example.com"
              = Ok (Some (new_user_row db_now (gen O) "Test User" "test@example.com"
                            (hash_password "password123")))).
  { rewrite get_user_by_email_clean by reflexivity.
    unfold db'. cbn [users]. rewrite find_app_none by (symmetry; exact E'). reflexivity. }
  exists db'. split; [reflexivity|]. split; [reflexivity|]. split; [reflexivity|].
  split; [|split].
  - unfold login, account_post.
    cbn [account_method account_form_data field_email field_password required and_then].
    rewrite T, E. cbn [String.eqb Ascii.eqb Bool.eqb of_outcome and_then is_none].
    rewrite CA. cbn [and_then]. rewrite G. cbn [of_outcome and_then].
    cbn [User.password User.id new_user_row]. rewrite String.eqb_refl. reflexivity.
  - intros D. unfold login, account_post.
    cbn [account_method account_form_data field_email field_password required and_then].
    rewrite T, E. cbn [String.eqb Ascii.eqb Bool.eqb of_outcome and_then is_none].
    rewrite CA. cbn [and_then]. rewrite G. cbn [of_outcome and_then].
    cbn [User.password User.id new_user_row].
    replace (String.eqb (hash_password "password123") (hash_password password)) with false;
      [reflexivity|].
    symmetry. apply String.eqb_neq. congruence.
  - unfold login, account_post.
    cbn [account_method account_form_data field_email field_password required and_then].
    rewrite T. reflexivity.
Qed.

(* ===================================================================== *)
(** ** The dashboard *)
(* ===================================================================== *)

(** X20. The dashboard shows the data of the session's user only: the
    user's own row, tasks and categories of that user, notifications for
    that user's pending tasks, and statistics taken over all the user's
    tasks, whatever filter and category are chosen.  When the session's
    user is not found, and so whenever the store is out of reach, the
    answer is the redirect to the logout page.  For a user that is found
    the page is not shown in two cases: a category argument that the
    store rejects raises from the listing, and a user without profile
    picture and with an empty name raises from the template. *)
Theorem dashboard_shows_own_data (s : store) (user_id : uuid)
    (filter_param category_param : option string) (now db_now : datetime) :
  (get_user_by_id s user_id = None ->
   dashboard s (Some user_id) filter_param category_param now db_now
   = Ok (Sent {| flashed := []; body := Redirect url_for_logout |}))
  /\ dashboard Unreachable (Some user_id) filter_param category_param now db_now
     = Ok (Sent {| flashed := []; body := Redirect url_for_logout |})
  /\ (forall user, get_user_by_id s user_id = Some user ->
        (forall e, category_filter category_param = Raise e ->
           dashboard s (Some user_id) filter_param category_param now db_now = Raise e)
        /\ (forall category, category_filter category_param = Ok category ->
              (Py.truthy (User.profile_picture user) = false ->
               User.full_name user = "" ->
               dashboard s (Some user_id) filter_param category_param now db_now
               = Raise UndefinedError)
              /\ (Py.truthy (User.profile_picture user) = true
                  \/ User.full_name user <> "" ->
                  exists p,
                    dashboard s (Some user_id) filter_param category_param now db_now
                    = Ok (Shown p)
                    /\ page_user p = user /\ User.id user = user_id
                    /\ (forall r, In r (page_tasks p) ->
                          Task.user_id (row_task r) = user_id)
                    /\ (forall c, In c (page_categories p) ->
                          Category.user_id c = user_id)
                    /\ (exists every,
                          get_user_tasks s user_id None None db_now = Ok every
                          /\ page_stats p = stats_of_tasks every now)
                    /\ (forall n, In n (page_notifications p) ->
                          Task.user_id (row_task (n_task n)) = user_id
                          /\ Task.completed (row_task (n_task n)) = false)))).
Proof.
  split; [|split].
  - intros E. unfold dashboard. rewrite E. reflexivity.
  - reflexivity.
  - intros user E. destruct s as [db|]; [|discriminate E].
    destruct (get_user_tasks (Reachable db) user_id None None db_now)
      as [every|] eqn:Ge; [|discriminate Ge].
    destruct (get_user_tasks (Reachable db) user_id (Some "pending") None db_now)
      as [pend|] eqn:Gp; [|discriminate Gp].
    assert (D : dashboard (Reachable db) (Some user_id) filter_param category_param
                  now db_now
                = (tasks <- get_user_tasks (Reachable db) user_id filter_param
                              category_param db_now ;;
                   render_dashboard
                     {| page_user := user;
                        page_tasks := tasks;
                        page_categories := get_user_categories (Reachable db) user_id;
                        page_stats := stats_of_tasks every now;
                        page_notifications := notifications_of_tasks pend now |})).
    { unfold dashboard. rewrite E. unfold calculate_stats, get_due_notifications.
      rewrite Ge, Gp.
      destruct (get_user_tasks (Reachable db) user_id filter_param category_param db_now);
        reflexivity. }
    split.
    { intros e H. rewrite D, get_user_tasks_reachable, H. reflexivity. }
    intros category H.
    destruct (get_user_tasks (Reachable db) user_id filter_param category_param db_now)
      as [rows|] eqn:G.
    2:{ rewrite get_user_tasks_reachable, H in G. discriminate G. }
    rewrite D, ?G. cbn [Py.bind]. unfold render_dashboard. cbn [page_user].
    split.
    { intros Pp Nn. rewrite Pp, Nn. reflexivity. }
    intros Shows.
    replace (negb (Py.truthy (User.profile_picture user))
             && String.eqb (User.full_name user) "") with false.
    2:{ symmetry. destruct Shows as [Pp|Nn]; [rewrite Pp; reflexivity|].
        apply String.eqb_neq in Nn. rewrite Nn. apply andb_false_r. }
    eexists. split; [reflexivity|].
    cbn [page_user page_tasks page_categories page_stats page_notifications].
    split; [reflexivity|]. split.
    { unfold get_user_by_id in E. simpl in E. apply find_some in E.
      apply String.eqb_eq, E. }
    split.
    { intros r Ir. exact (proj1 (proj2 (get_user_tasks_rows_In _ _ _ _ _ _ _ G Ir))). }
    split.
    { intros c Ic. unfold get_user_categories in Ic.
      change (get_db_connection (Reachable db)) with (Some db) in Ic. cbv iota beta in Ic.
      apply (Permutation_in _ (sorted_perm _ _)) in Ic. apply filter_In in Ic.
      destruct Ic as [_ Ic].
      change (Sql.holds (Some (String.eqb (Category.user_id c) user_id)) = true) in Ic.
      rewrite holds_Some in Ic. apply String.eqb_eq, Ic. }
    split; [exists every; split; reflexivity|].
    intros n In_. apply notifications_of_tasks_In in In_.
    destruct In_ as (r & due & Ir & _ & _ & ->). simpl.
    destruct (get_user_tasks_rows_In _ _ _ _ _ _ _ Gp Ir) as (_ & U & P).
    split; [exact U | exact (P eq_refl)].
Qed.

(* ===================================================================== *)
(** ** The further properties on the sample store *)
(* ===================================================================== *)

Lemma task_views_keep_constraints_witness :
  db_constraints Sample.db
  /\ db_constraints (Sql.delete_task Sample.db 1 Sample.ada).
Proof.
  split; [exact sample_db_constraints|].
  apply (task_views_keep_constraints Sample.db _ (Some Sample.ada) Sample.get_request
           (Sample.at_ 6 0 0) (Sample.at_ 6 0 0) 1
           {| flashed := [("Task deleted.", "success")];
              body := Redirect url_for_dashboard |}
           sample_db_constraints).
  right. right. right. left. reflexivity.
Defined.

Lemma blank_title_rejected_witness :
  method (Sample.post_request "   ") = POST
  /\ blank "   " = true
  /\ add_task (Reachable Sample.db) (Some Sample.ada) (Sample.post_request "   ")
       (Sample.at_ 6 0 0)
     = Ok (Reachable Sample.db,
           {| flashed := [("Task title is required", "error")];
              body := Render "ADD_TASK_TEMPLATE" None |}).
Proof.
  split; [reflexivity|]. split; [reflexivity|].
  exact (proj1 (proj1 (blank_title_rejected Sample.db Sample.ada
                         (Sample.post_request "   ") (Sample.at_ 6 0 0) 1 eq_refl eq_refl)
                 (Sample.person Sample.ada "Ada" "ada@example.com") eq_refl)).
Defined.


Lemma delete_task_removes_own_task_witness :
  exists db',
    delete_task (Reachable Sample.db) (Some Sample.ada) 1
    = Ok (Reachable db',
          {| flashed := [("Task deleted.", "success")];
             body := Redirect url_for_dashboard |})
    /\ tasks db' = [Sample.milk; Sample.call; Sample.taxes].
Proof.
  destruct (delete_task_removes_own_task Sample.db Sample.ada Sample.report
              (tasks_pkey _ sample_db_constraints) (or_introl eq_refl) eq_refl)
    as (db' & D & T & _).
  exists db'. split; [exact D | exact T].
Defined.

Lemma toggle_moves_task_between_listings_witness :
  exists db' r comp,
    toggle_task (Reachable Sample.db) (Some Sample.ada) Sample.get_request
      (Sample.at_ 6 0 0) 1 = Ok (Reachable db', r)
    /\ get_user_tasks (Reachable db') Sample.ada (Some "completed") None (Sample.at_ 7 0 0)
       = Ok comp
    /\ In (Task.set_completion Sample.report true (Some (Sample.at_ 6 0 0)))
          (map row_task comp).
Proof.
  destruct (toggle_moves_task_between_listings Sample.db Sample.ada Sample.report
              Sample.get_request (Sample.at_ 6 0 0) (Sample.at_ 7 0 0)
              sample_db_constraints (or_introl eq_refl) eq_refl eq_refl)
    as (db' & r & pend & comp & ns & T & _ & Gc & _ & _ & I & _).
  exists db', r, comp. split; [exact T|]. split; [exact Gc | exact I].
Defined.

Lemma sample_milk_stored : stored_task Sample.milk.
Proof.
  constructor; simpl; [reflexivity | discriminate | | discriminate].
  intros p E. injection E as <-. reflexivity.
Defined.

Lemma duplicate_task_copies_witness :
  exists db',
    duplicate_task (Reachable Sample.db) (Some Sample.ada) (Sample.at_ 6 0 0) 2
    = Ok (Reachable db',
          {| flashed := [("Task duplicated.", "success")];
             body := Redirect url_for_dashboard |})
    /\ map Task.title (tasks db')
       = ["Write report"; "Buy milk"; "Call the bank"; "File taxes"; "Copy of Buy milk"].
Proof.
  destruct (duplicate_task_copies Sample.db Sample.ada (Sample.at_ 6 0 0) Sample.milk
              sample_db_constraints (or_intror (or_introl eq_refl)) eq_refl
              sample_milk_stored)
    as (db' & D & T & _).
  - simpl. unfold Sql.serial_max. lia.
  - simpl. lia.
  - exists db'. split; [exact D|]. rewrite T. reflexivity.
Defined.

Lemma sample_fresh_ids : fresh_ids Sample.db Sample.gen.
Proof.
  split; [|split].
  - simpl. intuition discriminate.
  - repeat apply NoDup_cons; try apply NoDup_nil; simpl; intuition discriminate.
  - intros n [<-|[<-|[<-|[<-|[]]]]]; simpl; intuition discriminate.
Defined.

Lemma sample_signup : acceptable_signup Sample.db Sample.gen "Eve" "Eve@Example.com" "secret1".
Proof.
  constructor; try (simpl; lia); try reflexivity.
  exact sample_fresh_ids.
Defined.

Lemma signup_creates_account_witness :
  exists db',
    signup (Reachable Sample.db) None
      (account_post (Some "Eve") (Some "Eve@Example.com") (Some "secret1") (Some "secret1"))
      (Sample.at_ 6 0 0) Sample.gen
    = Done (Reachable db', None,
            {| flashed := [("Account created successfully! Please log in.", "success")];
               body := Redirect url_for_login |})
    /\ Permutation (map Category.name (get_user_categories (Reachable db') Sample.eve))
         ["Work"; "Personal"; "Health"; "Learning"].
Proof.
  destruct (signup_creates_account Sample.db (Sample.at_ 6 0 0) Sample.gen
              "Eve" "Eve@Example.com" "secret1" sample_signup)
    as (db' & S & _ & _ & _ & _ & _ & _ & N).
  - repeat apply Forall_cons; try apply Forall_nil; simpl; tauto.
  - exists db'. split; [exact S | exact N].
Defined.

Lemma signup_then_login_witness :
  exists db',
    login (Reachable db') None
      (account_post None (Some "EVE@example.COM") (Some "secret1") None)
      (Sample.at_ 7 0 0) Sample.gen
    = Done (Reachable db', Some Sample.eve, to_dashboard).
Proof.
  destruct (signup_then_login Sample.db (Sample.at_ 6 0 0) (Sample.at_ 7 0 0)
              Sample.gen Sample.gen "Eve" "Eve@Example.com" "EVE@example.COM" "secret1"
              sample_signup eq_refl)
    as (db' & _ & L).
  exists db'. exact L.
Defined.

Lemma login_checks_password_witness :
  lower "Ada@Example.com" <> "test@example.com"
  /\ login (Reachable Sample.db) None
       (account_post None (Some "Ada@Example.com") (Some "password") None)
       (Sample.at_ 7 0 0) Sample.gen
     = Done (Reachable Sample.db, Some Sample.ada, to_dashboard).
Proof.
  assert (T : lower "Ada@Example.com" <> "test@example.com") by discriminate.
  split; [exact T|].
  apply (proj1 (login_checks_password (Reachable Sample.db) (Sample.at_ 7 0 0) Sample.gen
                  "Ada@Example.com" "password" T)
           (Sample.person Sample.ada "Ada" "ada@example.com")).
  - reflexivity.
  - vm_compute. reflexivity.
Defined.

Lemma login_creates_test_account_witness :
  exists db',
    login (Reachable Sample.db) None
      (account_post None (Some "Test@Example.com") (Some "password123") None)
      (Sample.at_ 7 0 0) Sample.gen
    = Done (Reachable db', Some Sample.eve, to_dashboard)
    /\ map Category.name (categories db')
       = ["Work"; "Personal"; "Work"; "Personal"; "Health"; "Learning"].
Proof.
  destruct (login_creates_test_account Sample.db (Sample.at_ 7 0 0) Sample.gen
              "Test@Example.com" "password123" eq_refl eq_refl sample_fresh_ids)
    as (db' & _ & C & _ & L & _).
  exists db'. split; [exact L|]. rewrite C. reflexivity.
Defined.

Example hash_password_vectors :
  hash_password "" = "e3b0c44298fc1c149afbf4c8996fb92427ae41e4649b934ca495991b7852b855"
  /\ hash_password "abc"
     = "ba7816bf8f01cfea414140de5dae2223b00361a396177a9cb410ff61f20015ad"
  /\ hash_password "password123"
     = "ef92b778bafe771e89245b89ecbc08a44a4e166c06659911881f383d4473e94f"
  /\ hash_password (String "h" (String (ascii_of_nat 233) "llo"))
     = "3c48591d8d098a4538f5e013dfcf406e948eac4d3277b10bf614e295d6068179"
  /\ hash_password (String.concat "" (repeat "a" 56))
     = "b35439a4ac6f0948b6d6f9e3c6af0f5f590ce20f1bde7090ef7970686ec6738a"
  /\ hash_password (String.concat "" (repeat "a" 120))
     = "2f3d335432c70b580af0e8e1b3674a7c020d683aa5f73aaaedfdc55af904c21c".
Proof. repeat split; vm_compute; reflexivity. Qed.

(* ===================================================================== *)
(** ** Settings *)
(* ===================================================================== *)




Example settings_long_theme_raises :
  settings (Reachable Sample.db) (Some Sample.ada) POST
    (Some "a-theme-name-over-twenty") (Some "true") (Sample.at_ 6 0 0)
  = Raise StringDataRightTruncation.
Proof. reflexivity. Qed.

Example signup_first_check_wins :
  signup (Reachable Sample.db) None
    (account_post (Some "Ada") (Some "ada@example.com") (Some "abc") (Some "abd"))
    (Sample.at_ 6 0 0) Sample.gen
  = Done (Reachable Sample.db, None,
          {| flashed := [("Passwords do not match.", "error")];
             body := Render "SIGNUP_TEMPLATE" None |}).
Proof. reflexivity. Qed.

Example login_needs_both_fields :
  login (Reachable Sample.db) None (account_post None None (Some "x") None)
    (Sample.at_ 6 0 0) Sample.gen
  = Failed BadRequestKeyError.
Proof. reflexivity. Qed.

(* ===================================================================== *)
(** ** Parameters that the store or psycopg2 refuses *)
(* ===================================================================== *)

Lemma sample_db_stored : Forall stored_task (tasks Sample.db).
Proof.
  simpl. repeat apply Forall_cons; try apply Forall_nil; constructor; simpl;
    intros; try reflexivity; try discriminate;
    match goal with H : Some _ = Some _ |- _ => injection H as <- end;
    repeat split; reflexivity.
Defined.

Lemma task_views_keep_rows_stored_witness :
  Forall stored_task (tasks Sample.db)
  /\ Forall stored_task (tasks (Sql.update_completed Sample.db true
                                  (Some (Sample.at_ 6 0 0)) 1)).
Proof.
  split; [exact sample_db_stored|].
  apply (task_views_keep_rows_stored Sample.db _ (Some Sample.ada) Sample.get_request
           (Sample.at_ 6 0 0) (Sample.at_ 6 0 0) 1
           {| flashed := []; body := Redirect url_for_dashboard |} sample_db_stored).
  right. right. left. reflexivity.
Defined.

(** The spellings of an id that the store reads, and some it does not. *)
Example uuid_in_spellings :
  Sql.uuid_in "C0000000-0000-4000-8000-000000000002" = Ok Sample.home
  /\ Sql.uuid_in "{c0000000-0000-4000-8000-000000000002}" = Ok Sample.home
  /\ Sql.uuid_in "c0000000000040008000000000000002" = Ok Sample.home
  /\ Sql.uuid_in "c000-0000-0000-4000-8000-0000-0000-0002" = Ok Sample.home
  /\ Sql.uuid_in Sample.home = Ok Sample.home
  /\ Sql.uuid_in "abc" = Raise InvalidTextRepresentation
  /\ Sql.uuid_in "" = Raise InvalidTextRepresentation
  /\ Sql.uuid_in " c0000000-0000-4000-8000-000000000002" = Raise InvalidTextRepresentation
  /\ Sql.uuid_in "c0000000-0000-4000-8000-000000000002 " = Raise InvalidTextRepresentation
  /\ Sql.uuid_in "c-0000000-0000-4000-8000-000000000002" = Raise InvalidTextRepresentation
  /\ Sql.uuid_in "c0000000--0000-4000-8000-000000000002" = Raise InvalidTextRepresentation
  /\ Sql.uuid_in "c0000000-0000-4000-8000-000000000002-" = Raise InvalidTextRepresentation
  /\ Sql.uuid_in "{c0000000-0000-4000-8000-000000000002" = Raise InvalidTextRepresentation
  /\ Sql.uuid_in "g0000000-0000-4000-8000-000000000002" = Raise InvalidTextRepresentation.
Proof. repeat split; vm_compute; reflexivity. Qed.

(** A category argument in another spelling selects the same category; one
    that is no id makes the listing, and the dashboard, raise. *)
Example category_argument_spellings :
  (tasks <- get_user_tasks (Reachable Sample.db) Sample.ada None
              (Some "C0000000-0000-4000-8000-000000000002") (Sample.at_ 6 0 0) ;;
   Ok (map (fun r => Task.id (row_task r)) tasks)) = Ok [4]
  /\ get_user_tasks (Reachable Sample.db) Sample.ada None (Some "abc") (Sample.at_ 6 0 0)
     = Raise InvalidTextRepresentation
  /\ get_user_tasks (Reachable Sample.db) Sample.eve None (Some "abc") (Sample.at_ 6 0 0)
     = Raise InvalidTextRepresentation
  /\ get_user_tasks Unreachable Sample.ada None (Some "abc") (Sample.at_ 6 0 0) = Ok []
  /\ get_user_tasks (Reachable Sample.db) Sample.ada None (Some (String Ascii.zero "abc"))
       (Sample.at_ 6 0 0)
     = Raise ValueError
  /\ dashboard (Reachable Sample.db) (Some Sample.ada) None (Some "abc")
       (Sample.at_ 6 0 0) (Sample.at_ 6 0 0)
     = Raise InvalidTextRepresentation.
Proof. repeat split; vm_compute; reflexivity. Qed.

(** A user of the session without a row: the forms cannot be shown. *)
Example forms_need_the_user_row :
  add_task (Reachable Sample.db) (Some Sample.eve) Sample.get_request (Sample.at_ 6 0 0)
  = Raise UndefinedError
  /\ add_task (Reachable Sample.db) (Some Sample.eve) (Sample.post_request "  ")
       (Sample.at_ 6 0 0)
     = Raise UndefinedError
  /\ settings (Reachable Sample.db) (Some Sample.eve) GET None None (Sample.at_ 6 0 0)
     = Raise UndefinedError
  /\ add_task (Reachable Sample.db) (Some Sample.ada) Sample.get_request (Sample.at_ 6 0 0)
     = Ok (Reachable Sample.db,
           {| flashed := []; body := Render "ADD_TASK_TEMPLATE" None |}).
Proof. repeat split; reflexivity. Qed.

(** A user with an empty name and no picture: the dashboard cannot be
    shown; with a name it is. *)
Example dashboard_needs_a_name :
  let store_of name :=
    Reachable {| users := [Sample.person Sample.eve name "eve@example.com"];
                 categories := []; tasks := []; tasks_id_seq := 1 |} in
  dashboard (store_of "") (Some Sample.eve) None None (Sample.at_ 6 0 0) (Sample.at_ 6 0 0)
  = Raise UndefinedError
  /\ exists p,
       dashboard (store_of " ") (Some Sample.eve) None None (Sample.at_ 6 0 0)
         (Sample.at_ 6 0 0)
       = Ok (Shown p).
Proof. split; [reflexivity | eexists; reflexivity]. Qed.

(** A NUL character in a text parameter: psycopg2 raises before the store
    sees the statement, whatever else is wrong with it. *)
Example nul_is_refused :
  let nul := String Ascii.zero "" in
  let post title category :=
    {| method := POST;
       form := {| form_title := Some title; form_description := Some "";
                  form_category := Some category; form_priority := Some "medium";
                  form_due_date := DueEmpty |};
       referrer := None |} in
  add_task (Reachable Sample.db) (Some Sample.ada) (post ("a" ++ nul ++ "b") "")
    (Sample.at_ 6 0 0)
  = Raise ValueError
  /\ add_task (Reachable Sample.db) (Some Sample.ada) (post ("a" ++ nul) "abc")
       (Sample.at_ 6 0 0)
     = Raise ValueError
  /\ add_task (Reachable Sample.db) (Some Sample.ada) (post "a" "abc") (Sample.at_ 6 0 0)
     = Raise InvalidTextRepresentation
  /\ edit_task (Reachable Sample.db) (Some Sample.ada) (post ("a" ++ nul) "")
       (Sample.at_ 6 0 0) 1
     = Raise ValueError
  /\ settings (Reachable Sample.db) (Some Sample.ada) POST (Some nul) None
       (Sample.at_ 6 0 0)
     = Raise ValueError
  /\ update_theme (Reachable Sample.db) (Some Sample.ada) (ThemeString nul)
     = Raise ValueError
  /\ login (Reachable Sample.db) None
       (account_post None (Some ("ada" ++ nul)) (Some "x") None) (Sample.at_ 6 0 0)
       Sample.gen
     = Failed (Python ValueError)
  /\ signup (Reachable Sample.db) None
       (account_post (Some nul) (Some "eve@example.com") (Some "secret1") (Some "secret1"))
       (Sample.at_ 6 0 0) Sample.gen
     = Failed (Python ValueError).
Proof. repeat split; vm_compute; reflexivity. Qed.

(** An id of the form in another spelling is stored in the store's form. *)
Example edit_task_stores_the_id :
  let req :=
    {| method := POST;
       form := {| form_title := Some "Write report"; form_description := None;
                  form_category := Some "{C0000000000040008000000000000002}";
                  form_priority := None; form_due_date := DueEmpty |};
       referrer := None |} in
  (answer <- edit_task (Reachable Sample.db) (Some Sample.ada) req (Sample.at_ 6 0 0) 1 ;;
   match fst answer with
   | Reachable db' => Ok (option_map Task.category_id (Sql.select_task db' 1 Sample.ada))
   | Unreachable => Ok None
   end)
  = Ok (Some (Some Sample.home)).
Proof. vm_compute. reflexivity. Qed.

(** The last value of the sequence is given out; after it the INSERT
    raises. *)
Example sequence_runs_out :
  let db_at seq :=
    {| users := users Sample.db; categories := categories Sample.db;
       tasks := tasks Sample.db; tasks_id_seq := seq |} in
  (answer <- duplicate_task (Reachable (db_at 2147483647)) (Some Sample.ada)
               (Sample.at_ 6 0 0) 2 ;;
   match fst answer with
   | Reachable db' => Ok (map Task.id (tasks db'), tasks_id_seq db')
   | Unreachable => Ok ([], 0)
   end)
  = Ok ([1; 2; 3; 4; 2147483647], 2147483648)
  /\ duplicate_task (Reachable (db_at 2147483648)) (Some Sample.ada) (Sample.at_ 6 0 0) 2
     = Raise SequenceGeneratorLimitExceeded.
Proof. split; vm_compute; reflexivity. Qed.
